(** * Fraud-detection scoring pipeline: scaler, temporal features,
      pre-processor and ONNX inference engine

    A shallow embedding of the TypeScript sources under [frontend/lib]
    (Scaler.ts, TemporalFeatures.ts, AmountFeatures.ts, RiskIndicators.ts,
    FraudPreprocessor.ts, modelConfig.ts, utils/index.ts, ONNXInference.ts)
    together with the properties the specification states about them.

    Numbers.  A JavaScript [number] is modelled by [JS.number]: an exact
    rational for every finite value, plus [NaN] and the two infinities.
    Rounding to binary64 and the sign of zero are abstracted away; every
    comparison, the [||] default idiom, [isFinite], [isNaN] and [Math.max]
    follow ECMAScript on that domain.  [Binary64] gives the two scaling
    formulas on binary64 values, where rounding and overflow show.

    Objects.  The parameter tables of the scaler are plain objects: a
    read of a name that a table does not hold and [Object.prototype] does
    ([toString], [constructor], ...) gives the inherited member, not
    [undefined], and an assignment to [__proto__] stores nothing. *)

From Stdlib Require Import ZArith QArith Qround Qfield Qabs Lqa String Ascii List
  Lia Bool DecimalString PrimFloat.
From stdpp Require Import gmap strings list fin_maps.

Local Open Scope Z_scope.

(* ===================================================================== *)
(** ** JavaScript values                                                  *)
(* ===================================================================== *)

Module JS.

Inductive number : Type :=
| Fin (q : Q)
| PosInf
| NegInf
| NaN.

Definition Qlt_bool (x y : Q) : bool := negb (Qle_bool y x).

Definition of_Z (z : Z) : number := Fin (inject_Z z).

(** [Number.MAX_SAFE_INTEGER] *)
Definition MAX_SAFE_INTEGER : Z := 9007199254740991.

(** [-x] *)
Definition neg (a : number) : number :=
  match a with
  | Fin x => Fin (- x)
  | PosInf => NegInf
  | NegInf => PosInf
  | NaN => NaN
  end.

(** [a + b] *)
Definition add (a b : number) : number :=
  match a, b with
  | NaN, _ | _, NaN => NaN
  | Fin x, Fin y => Fin (x + y)
  | PosInf, NegInf | NegInf, PosInf => NaN
  | PosInf, _ | _, PosInf => PosInf
  | NegInf, _ | _, NegInf => NegInf
  end.

(** [a - b] *)
Definition sub (a b : number) : number := add a (neg b).

(** The infinity carrying the sign of [x * s], [NaN] when [x] is zero. *)
Definition signed_inf (x : Q) (positive : bool) : number :=
  if Qeq_bool x 0 then NaN
  else if Bool.eqb (Qlt_bool 0 x) positive then PosInf else NegInf.

(** [a * b] *)
Definition mul (a b : number) : number :=
  match a, b with
  | NaN, _ | _, NaN => NaN
  | Fin x, Fin y => Fin (x * y)
  | Fin x, PosInf | PosInf, Fin x => signed_inf x true
  | Fin x, NegInf | NegInf, Fin x => signed_inf x false
  | PosInf, PosInf | NegInf, NegInf => PosInf
  | PosInf, NegInf | NegInf, PosInf => NegInf
  end.

(** [a / b]; a zero divisor counts as [+0]. *)
Definition div (a b : number) : number :=
  match a, b with
  | NaN, _ | _, NaN => NaN
  | Fin x, Fin y =>
      if Qeq_bool y 0 then signed_inf x true else Fin (x / y)
  | Fin _, (PosInf | NegInf) => Fin 0
  | PosInf, Fin y => if Qlt_bool y 0 then NegInf else PosInf
  | NegInf, Fin y => if Qlt_bool y 0 then PosInf else NegInf
  | (PosInf | NegInf), (PosInf | NegInf) => NaN
  end.

(** [a < b] *)
Definition ltb (a b : number) : bool :=
  match a, b with
  | NaN, _ | _, NaN => false
  | Fin x, Fin y => Qlt_bool x y
  | _, NegInf => false
  | NegInf, _ => true
  | PosInf, _ => false
  | Fin _, PosInf => true
  end.

(** [a > b] *)
Definition gtb (a b : number) : bool := ltb b a.

(** [a <= b] *)
Definition leb (a b : number) : bool :=
  match a, b with
  | NaN, _ | _, NaN => false
  | Fin x, Fin y => Qle_bool x y
  | NegInf, _ => true
  | _, PosInf => true
  | _, NegInf => false
  | PosInf, _ => false
  end.

(** [a >= b] *)
Definition geb (a b : number) : bool := leb b a.

(** [a === b] on numbers *)
Definition eqb (a b : number) : bool :=
  match a, b with
  | Fin x, Fin y => Qeq_bool x y
  | PosInf, PosInf | NegInf, NegInf => true
  | _, _ => false
  end.

(** [isFinite(a)] *)
Definition isFinite (a : number) : bool :=
  match a with Fin _ => true | _ => false end.

(** [isNaN(a)] *)
Definition isNaN (a : number) : bool :=
  match a with NaN => true | _ => false end.

(** [Math.max(a, b)] *)
Definition Math_max (a b : number) : number :=
  match a, b with
  | NaN, _ | _, NaN => NaN
  | _, _ => if ltb a b then b else a
  end.

(** [Math.floor(a)] *)
Definition Math_floor (a : number) : number :=
  match a with
  | Fin x => of_Z (Qfloor x)
  | _ => a
  end.

(** ToBoolean on numbers: [0] and [NaN] are falsy. *)
Definition truthy (a : number) : bool :=
  match a with
  | Fin x => negb (Qeq_bool x 0)
  | NaN => false
  | _ => true
  end.

(** [o[k] || d] where [o : Record<string, number>]: a missing key reads
    [undefined], which is falsy like [0] and [NaN]. *)
Definition or_default (v : option number) (d : number) : number :=
  match v with
  | Some a => if truthy a then a else d
  | None => d
  end.

(** Equality of numbers up to the representation of a rational. *)
Definition same (a b : number) : Prop :=
  match a, b with
  | Fin x, Fin y => (x == y)%Q
  | PosInf, PosInf | NegInf, NegInf | NaN, NaN => True
  | _, _ => False
  end.

(** A [Date] object: its time value in milliseconds since the epoch, or
    an invalid date (time value [NaN]). *)
Inductive Date : Type :=
| ValidDate (ms : Z)
| InvalidDate.

(** The values a property of an input object can hold. *)
Inductive value : Type :=
| VUndefined
| VNumber (n : number)
| VString (s : string)
| VDate (d : Date).

(** An object literal: property names to values. *)
Abbreviation object := (gmap string value).

(** [o[k]] *)
Definition get (o : object) (k : string) : value :=
  match o !! k with
  | Some v => v
  | None => VUndefined
  end.

(** [k in o] *)
Definition has (o : object) (k : string) : bool :=
  match o !! k with
  | Some _ => true
  | None => false
  end.

(** [typeof v === 'number'] *)
Definition is_number (v : value) : bool :=
  match v with VNumber _ => true | _ => false end.

(** [date.getTime()] *)
Definition getTime (d : Date) : number :=
  match d with
  | ValidDate ms => of_Z ms
  | InvalidDate => NaN
  end.

End JS.

(* ===================================================================== *)
(** ** Exceptions and the host environment                                *)
(* ===================================================================== *)

Module Host.

(** One entry of the [errors] array built by [validateFeatureValues]; the
    template strings are kept as structured data. *)
Inductive validation_issue : Type :=
| WrongLength (got : nat)
| OutOfRange (name : string) (v lo hi : JS.number)
| InvalidValue (name : string) (v : JS.number).

(** What a call can throw. *)
Inductive exn : Type :=
| TypeError
| ScalerNotFitted
| ModelNotLoaded
| ModelLoadFailed
| MissingOrInvalidFeature (name : string)
| InvalidInputValues (errors : list validation_issue)
| InferenceFailed.

Inductive outcome (A : Type) : Type :=
| Ok (a : A)
| Throw (e : exn).

Arguments Ok {A} a.
Arguments Throw {A} e.

Definition bind {A B : Type} (m : outcome A) (k : A -> outcome B) : outcome B :=
  match m with
  | Ok a => k a
  | Throw e => Throw e
  end.

(** Built-ins of the JavaScript runtime and the opaque classifier. *)
Record env : Type := {
  (** [new Date(s)] for a string [s] *)
  Date_parse : string -> JS.Date;
  (** local-time offset, in milliseconds, at a UTC instant *)
  tzOffset : Z -> Z;
  (** ToNumber on strings *)
  StringToNumber : string -> JS.number;
  (** [s.toUpperCase()] *)
  toUpperCase : string -> string;
  (** [x.toFixed(digits)] *)
  toFixed : JS.number -> nat -> string;
  (** [session.run] on the 30 features, [None] when it throws; the result
      is the [1, 2] output tensor [P(Normal), P(Fraud)] *)
  session_run : list JS.number -> option (JS.number * JS.number)
}.

(** ToNumber *)
Definition ToNumber (h : env) (v : JS.value) : JS.number :=
  match v with
  | JS.VUndefined => JS.NaN
  | JS.VNumber n => n
  | JS.VString s => StringToNumber h s
  | JS.VDate d => JS.getTime d
  end.

End Host.

Import Host.

Notation "'let*' x := m 'in' k" := (Host.bind m (fun x => k))
  (at level 10, x name, m at level 100, k at level 200).

(* ===================================================================== *)
(** ** Scaler.ts                                                          *)
(* ===================================================================== *)

Module Scaler.

Record ScalerParams : Type := {
  params_mean : gmap string JS.number;
  params_std : gmap string JS.number
}.

Record StandardScaler : Type := {
  mean : gmap string JS.number;
  std : gmap string JS.number;
  fitted : bool
}.

(** [new StandardScaler(params?)] *)
Definition new (params : option ScalerParams) : StandardScaler :=
  match params with
  | Some p => {| mean := params_mean p; std := params_std p; fitted := true |}
  | None => {| mean := ∅; std := ∅; fitted := false |}
  end.

(** [loadParams] *)
Definition loadParams (s : StandardScaler) (p : ScalerParams) : StandardScaler :=
  {| mean := params_mean p; std := params_std p; fitted := true |}.

(** The property names every plain object inherits from
    [Object.prototype]: reading one of them from an object that has no
    own property of that name gives a function (for [__proto__], the
    prototype object), not [undefined]. *)
Definition Object_prototype : list string :=
  ["constructor"; "hasOwnProperty"; "isPrototypeOf"; "propertyIsEnumerable";
   "toLocaleString"; "toString"; "valueOf"; "__proto__";
   "__defineGetter__"; "__defineSetter__"; "__lookupGetter__";
   "__lookupSetter__"].

Definition inherited (feature : string) : bool :=
  existsb (String.eqb feature) Object_prototype.

(** Whether [o[feature]] reads an inherited member: the table [o], a
    plain object, has no own property [feature], and [Object.prototype]
    has one. *)
Definition reads_inherited (o : gmap string JS.number) (feature : string) : bool :=
  match o !! feature with
  | Some _ => false
  | None => inherited feature
  end.

(** [this.mean[feature] || 0] as an operand of [-], [*] and [/].  An
    inherited member is truthy, so [||] keeps it, and as an operand of
    these operators it converts to [NaN]. *)
Definition effective_mean (s : StandardScaler) (feature : string) : JS.number :=
  if reads_inherited (mean s) feature then JS.NaN
  else JS.or_default (mean s !! feature) (JS.Fin 0).

(** [this.std[feature] || 1], in the same way. *)
Definition effective_std (s : StandardScaler) (feature : string) : JS.number :=
  if reads_inherited (std s) feature then JS.NaN
  else JS.or_default (std s !! feature) (JS.Fin 1).

Definition transformSingle (s : StandardScaler) (feature : string)
    (value : JS.number) : outcome JS.number :=
  if negb (fitted s) then Throw ScalerNotFitted
  else
    let mean := effective_mean s feature in
    let std := effective_std s feature in
    Ok (if JS.eqb std (JS.Fin 0) then JS.Fin 0
        else JS.div (JS.sub value mean) std).

(** What [scaledValue * std + mean] evaluates to: a number, or, when
    [mean] is an inherited member, the string that [+] makes of the
    product and that member. *)
Inductive unscaled : Type :=
| Number (n : JS.number)
| Concatenation (product : JS.number).

Definition inverseTransformSingle (s : StandardScaler) (feature : string)
    (scaledValue : JS.number) : outcome unscaled :=
  if negb (fitted s) then Throw ScalerNotFitted
  else
    let std := effective_std s feature in
    let product := JS.mul scaledValue std in
    if reads_inherited (mean s) feature then Ok (Concatenation product)
    else Ok (Number (JS.add product (effective_mean s feature))).


Definition pretrained_params : ScalerParams :=
  {| params_mean :=
       <["Time" := JS.Fin 94813.859575]>
         (<["Amount" := JS.Fin 88.349619]> ∅);
     params_std :=
       <["Time" := JS.Fin 47488.145955]>
         (<["Amount" := JS.Fin 250.120109]> ∅) |}.

Definition createPretrainedScaler : StandardScaler :=
  loadParams (new None) pretrained_params.

End Scaler.

(* ===================================================================== *)
(** ** Scaler.ts: the two scaling formulas on binary64 values             *)
(* ===================================================================== *)

Module Binary64.

#[local] Set Warnings "-inexact-float".

(** [std === 0 ? 0 : (value - mean) / std] and [scaledValue * std + mean]
    as the platform evaluates them, with every operation rounded to
    binary64, for the [mean] and [std] that [||] has chosen. *)
Definition transformSingle (mean std value : float) : float :=
  if PrimFloat.eqb std 0%float then 0%float
  else PrimFloat.div (PrimFloat.sub value mean) std.

Definition inverseTransformSingle (mean std scaledValue : float) : float :=
  PrimFloat.add (PrimFloat.mul scaledValue std) mean.



End Binary64.

(* ===================================================================== *)
(** ** TemporalFeatures.ts                                                *)
(* ===================================================================== *)

Module TemporalFeatures.

Section WithHost.
Variable h : Host.env.

(** Local wall-clock milliseconds of a UTC instant. *)
Definition localTime (ms : Z) : Z := ms + tzOffset h ms.

(** [date.getHours()] *)
Definition getHours (d : JS.Date) : JS.number :=
  match d with
  | JS.ValidDate ms => JS.of_Z ((localTime ms / 3600000) mod 24)
  | JS.InvalidDate => JS.NaN
  end.

(** [date.getDay()]; 1 January 1970 was a Thursday. *)
Definition getDay (d : JS.Date) : JS.number :=
  match d with
  | JS.ValidDate ms => JS.of_Z ((localTime ms / 86400000 + 4) mod 7)
  | JS.InvalidDate => JS.NaN
  end.

(** [typeof timestamp === 'string' ? new Date(timestamp) : timestamp],
    followed by a method call on the result: anything but a string or a
    [Date] has no such method. *)
Definition as_date (timestamp : JS.value) : outcome JS.Date :=
  match timestamp with
  | JS.VString s => Ok (Date_parse h s)
  | JS.VDate d => Ok d
  | _ => Throw TypeError
  end.

Record TemporalFeatures : Type := {
  hour : JS.number;
  day_of_week : JS.number;
  is_weekend : bool;
  is_night : bool;
  is_business_hours : bool;
  seconds_from_first : JS.number
}.

Record TemporalFeatureExtractor : Type := {
  referenceTime : JS.Date
}.

(** [new TemporalFeatureExtractor()]: the reference is
    [new Date('2013-09-01T00:00:00Z')]. *)
Definition new : TemporalFeatureExtractor :=
  {| referenceTime := JS.ValidDate 1377993600000 |}.

Definition extractHour (date : JS.Date) : JS.number := getHours date.

Definition extractDayOfWeek (date : JS.Date) : JS.number := getDay date.

Definition isWeekend (date : JS.Date) : bool :=
  let day := getDay date in
  JS.eqb day (JS.Fin 0) || JS.eqb day (JS.Fin 6).

Definition isNightTime (date : JS.Date) : bool :=
  let hour := getHours date in
  JS.geb hour (JS.Fin 22) || JS.leb hour (JS.Fin 6).

Definition isBusinessHours (date : JS.Date) : bool :=
  let hour := getHours date in
  let day := getDay date in
  JS.geb day (JS.Fin 1) && JS.leb day (JS.Fin 5)
  && JS.geb hour (JS.Fin 9) && JS.ltb hour (JS.Fin 17).

Definition getSecondsFromReference (x : TemporalFeatureExtractor)
    (date : JS.Date) : JS.number :=
  let diff := JS.sub (JS.getTime date) (JS.getTime (referenceTime x)) in
  JS.Math_floor (JS.div diff (JS.Fin 1000)).

Definition extract (x : TemporalFeatureExtractor) (timestamp : JS.value)
    : outcome TemporalFeatures :=
  let* date := as_date timestamp in
  Ok {| hour := extractHour date;
        day_of_week := extractDayOfWeek date;
        is_weekend := isWeekend date;
        is_night := isNightTime date;
        is_business_hours := isBusinessHours date;
        seconds_from_first := getSecondsFromReference x date |}.

Definition isUnusualHour (date : JS.Date) : bool :=
  let hour := getHours date in
  (JS.geb hour (JS.Fin 1) && JS.leb hour (JS.Fin 5))
  || (JS.geb hour (JS.Fin 23) && JS.leb hour (JS.Fin 24)).

End WithHost.

End TemporalFeatures.

(* ===================================================================== *)
(** ** utils/sampleData.ts                                                *)
(* ===================================================================== *)

Module SampleData.

Definition SAMPLE_NORMAL_entries : list (string * JS.value) := [
  ("Time", JS.VNumber (JS.Fin 1.3871815012213498));
  ("V1", JS.VNumber (JS.Fin (-0.674466064578314)));
  ("V2", JS.VNumber (JS.Fin 1.40810501967799));
  ("V3", JS.VNumber (JS.Fin (-1.11062205357093)));
  ("V4", JS.VNumber (JS.Fin (-1.32836577843066)));
  ("V5", JS.VNumber (JS.Fin 1.38899603254837));
  ("V6", JS.VNumber (JS.Fin (-1.30843906707795)));
  ("V7", JS.VNumber (JS.Fin 1.88587890268717));
  ("V8", JS.VNumber (JS.Fin (-0.614232966299775)));
  ("V9", JS.VNumber (JS.Fin 0.311652212453101));
  ("V10", JS.VNumber (JS.Fin 0.65075700363522));
  ("V11", JS.VNumber (JS.Fin (-0.857784661547805)));
  ("V12", JS.VNumber (JS.Fin (-0.229961445775592)));
  ("V13", JS.VNumber (JS.Fin (-0.19981700479103)));
  ("V14", JS.VNumber (JS.Fin 0.266371326329879));
  ("V15", JS.VNumber (JS.Fin (-0.0465441684754424)));
  ("V16", JS.VNumber (JS.Fin (-0.741398089749789)));
  ("V17", JS.VNumber (JS.Fin (-0.605616644106022)));
  ("V18", JS.VNumber (JS.Fin (-0.39256818789208)));
  ("V19", JS.VNumber (JS.Fin (-0.162648311024695)));
  ("V20", JS.VNumber (JS.Fin 0.394321820843914));
  ("V21", JS.VNumber (JS.Fin 0.0800842396026648));
  ("V22", JS.VNumber (JS.Fin 0.810033595602455));
  ("V23", JS.VNumber (JS.Fin (-0.224327230436412)));
  ("V24", JS.VNumber (JS.Fin 0.707899237446867));
  ("V25", JS.VNumber (JS.Fin (-0.13583702273753)));
  ("V26", JS.VNumber (JS.Fin 0.0451021964988772));
  ("V27", JS.VNumber (JS.Fin 0.533837219064273));
  ("V28", JS.VNumber (JS.Fin 0.291319252625364));
  ("Amount", JS.VNumber (JS.Fin (-0.25995438915074587))) ].

Definition SAMPLE_NORMAL : gmap string JS.value :=
  list_to_map SAMPLE_NORMAL_entries.

Definition HIGH_RISK_COUNTRIES : list string :=
  ["NG"; "GH"; "ID"; "PK"; "BD"; "PH"; "VN"; "UA"; "RU"].

Definition HIGH_RISK_MERCHANT_CATEGORIES : list string :=
  ["Online Gambling"; "Cryptocurrency"; "Adult Content"; "Money Transfer";
   "Wire Transfer"; "Gift Cards"; "Prepaid Cards"].

End SampleData.

(* ===================================================================== *)
(** ** AmountFeatures.ts                                                  *)
(* ===================================================================== *)

Module AmountFeatures.

Section WithHost.
Variable h : Host.env.

Definition AMOUNT_P95 : JS.number := JS.Fin 394.64.

(** The fields of [AmountFeatures] that the pipeline reads or that need no
    further built-in; [log_amount] ([Math.log]) and [decimal_places]
    ([Number.prototype.toString]) never reach the model input and are
    represented only by the exception the latter can raise. *)
Record AmountFeatures : Type := {
  raw : JS.value;
  scaled_amount : JS.number;
  is_round : bool;
  is_large : bool
}.

Record AmountFeatureExtractor : Type := {
  scaler : Scaler.StandardScaler
}.

Definition new : AmountFeatureExtractor :=
  {| scaler := Scaler.createPretrainedScaler |}.

Definition scaleAmount (x : AmountFeatureExtractor) (amount : JS.value)
    : outcome JS.number :=
  Scaler.transformSingle (scaler x) "Amount" (ToNumber h amount).

(** [getDecimalPlaces] calls [amount.toString()] unless [amount] is an
    integral number; that call throws on [undefined]. *)
Definition getDecimalPlaces_throws (amount : JS.value) : bool :=
  match amount with
  | JS.VUndefined => true
  | _ => false
  end.

(** [x % d === 0] *)
Definition rem_is_zero (x : JS.number) (d : Q) : bool :=
  match x with
  | JS.Fin q => Qeq_bool (q / d) (inject_Z (Qfloor (q / d)))
  | _ => false
  end.

Definition isRoundNumber (amount : JS.value) : bool :=
  rem_is_zero (ToNumber h amount) 1 && rem_is_zero (ToNumber h amount) 10.

Definition isLargeAmount (amount : JS.value) : bool :=
  JS.gtb (ToNumber h amount) AMOUNT_P95.

Definition extract (x : AmountFeatureExtractor) (amount : JS.value)
    : outcome AmountFeatures :=
  let* scaled := scaleAmount x amount in
  if getDecimalPlaces_throws amount then Throw TypeError
  else
    Ok {| raw := amount;
          scaled_amount := scaled;
          is_round := isRoundNumber amount;
          is_large := isLargeAmount amount |}.

End WithHost.

End AmountFeatures.

(* ===================================================================== *)
(** ** RiskIndicators.ts                                                  *)
(* ===================================================================== *)

Module RiskIndicators.

Section WithHost.
Variable h : Host.env.

Record RiskIndicators : Type := {
  is_high_risk_country : bool;
  is_online : bool;
  is_new_merchant : bool;
  is_new_country : bool;
  is_high_amount : bool;
  is_unusual_hour : bool;
  is_velocity_spike : bool;
  is_amount_spike : bool
}.

Record RiskIndicatorCalculator : Type := {
  highRiskCountries : gset string;
  highRiskMerchants : gset string
}.

Definition new : RiskIndicatorCalculator :=
  {| highRiskCountries := list_to_set SampleData.HIGH_RISK_COUNTRIES;
     highRiskMerchants := list_to_set SampleData.HIGH_RISK_MERCHANT_CATEGORIES |}.

(** [if (!countryCode) return false;
     return this.highRiskCountries.has(countryCode.toUpperCase())] *)
Definition isHighRiskCountry (c : RiskIndicatorCalculator)
    (countryCode : JS.value) : outcome bool :=
  match countryCode with
  | JS.VUndefined => Ok false
  | JS.VString s =>
      if String.eqb s "" then Ok false
      else Ok (bool_decide (toUpperCase h s ∈ highRiskCountries c))
  | JS.VNumber n => if JS.truthy n then Throw TypeError else Ok false
  | JS.VDate _ => Throw TypeError
  end.

(** [channel === 'online'] *)
Definition isOnlineTransaction (channel : JS.value) : bool :=
  match channel with
  | JS.VString s => String.eqb s "online"
  | _ => false
  end.

Definition isHighAmount (amount : JS.value) : bool :=
  let P95_THRESHOLD := JS.Fin 394.64 in
  JS.gtb (ToNumber h amount) P95_THRESHOLD.

Definition isUnusualHour (timestamp : JS.value) : outcome bool :=
  let* date := TemporalFeatures.as_date h timestamp in
  let hour := TemporalFeatures.getHours h date in
  Ok ((JS.geb hour (JS.Fin 1) && JS.leb hour (JS.Fin 5))
      || (JS.geb hour (JS.Fin 23) && JS.leb hour (JS.Fin 24))).

Definition calculate (c : RiskIndicatorCalculator)
    (transaction : gmap string JS.value) : outcome RiskIndicators :=
  let* country := isHighRiskCountry c (JS.get transaction "country_code") in
  let* unusual := isUnusualHour (JS.get transaction "timestamp") in
  Ok {| is_high_risk_country := country;
        is_online := isOnlineTransaction (JS.get transaction "channel");
        is_new_merchant := false;
        is_new_country := false;
        is_high_amount := isHighAmount (JS.get transaction "amount");
        is_unusual_hour := unusual;
        is_velocity_spike := false;
        is_amount_spike := false |}.

End WithHost.

End RiskIndicators.

(* ===================================================================== *)
(** ** FraudPreprocessor.ts                                               *)
(* ===================================================================== *)

Module FraudPreprocessor.

Section WithHost.
Variable h : Host.env.

Record Features : Type := {
  temporal : TemporalFeatures.TemporalFeatures;
  amount : AmountFeatures.AmountFeatures;
  risk : RiskIndicators.RiskIndicators
}.

(** [processingTimeMs], a difference of two [performance.now()] readings,
    is left out of the metadata. *)
Record Metadata : Type := {
  isRawInput : bool;
  hasAllFeatures : bool
}.

Record PreprocessingResult : Type := {
  modelInput : gmap string JS.value;
  features : Features;
  metadata : Metadata
}.

Record FraudPreprocessor : Type := {
  scaler : Scaler.StandardScaler;
  temporalExtractor : TemporalFeatures.TemporalFeatureExtractor;
  amountExtractor : AmountFeatures.AmountFeatureExtractor;
  riskCalculator : RiskIndicators.RiskIndicatorCalculator
}.

Definition new : FraudPreprocessor :=
  {| scaler := Scaler.createPretrainedScaler;
     temporalExtractor := TemporalFeatures.new;
     amountExtractor := AmountFeatures.new;
     riskCalculator := RiskIndicators.new |}.

(** ['timestamp' in input && !('V1' in input)] *)
Definition isRawTransaction (input : gmap string JS.value) : bool :=
  JS.has input "timestamp" && negb (JS.has input "V1").

(** [const { Time, Amount, ...vFeatures } = SAMPLE_NORMAL] *)
Definition getDefaultVFeatures : gmap string JS.value :=
  delete "Amount" (delete "Time" SampleData.SAMPLE_NORMAL).

(** [{ Time: scaledTime, ...defaultVFeatures, Amount: scaledAmount }] *)
Definition convertToModelInput (p : FraudPreprocessor)
    (raw : gmap string JS.value)
    (temporal : TemporalFeatures.TemporalFeatures)
    (amount : AmountFeatures.AmountFeatures)
    : outcome (gmap string JS.value) :=
  let defaultVFeatures := getDefaultVFeatures in
  let* scaledTime :=
    Scaler.transformSingle (scaler p) "Time"
      (TemporalFeatures.seconds_from_first temporal) in
  let scaledAmount := AmountFeatures.scaled_amount amount in
  Ok (<["Amount" := JS.VNumber scaledAmount]>
        (defaultVFeatures ∪ {["Time" := JS.VNumber scaledTime]})).

Definition isValidNumber (value : JS.value) : bool :=
  match value with
  | JS.VNumber n => negb (JS.isNaN n) && JS.isFinite n
  | _ => false
  end.

Definition requiredFeatures : list string :=
  ["Time"; "V1"; "V2"; "V3"; "V4"; "V5"; "V6"; "V7"; "V8"; "V9"; "V10";
   "V11"; "V12"; "V13"; "V14"; "V15"; "V16"; "V17"; "V18"; "V19"; "V20";
   "V21"; "V22"; "V23"; "V24"; "V25"; "V26"; "V27"; "V28"; "Amount"].

Definition hasAllRequiredFeatures (input : gmap string JS.value) : bool :=
  forallb (fun feature => JS.has input feature
                          && isValidNumber (JS.get input feature))
          requiredFeatures.

Definition default_temporal : TemporalFeatures.TemporalFeatures :=
  {| TemporalFeatures.hour := JS.Fin 0;
     TemporalFeatures.day_of_week := JS.Fin 0;
     TemporalFeatures.is_weekend := false;
     TemporalFeatures.is_night := false;
     TemporalFeatures.is_business_hours := false;
     TemporalFeatures.seconds_from_first := JS.Fin 0 |}.

Definition default_amount : AmountFeatures.AmountFeatures :=
  {| AmountFeatures.raw := JS.VNumber (JS.Fin 0);
     AmountFeatures.scaled_amount := JS.Fin 0;
     AmountFeatures.is_round := false;
     AmountFeatures.is_large := false |}.

Definition default_risk : RiskIndicators.RiskIndicators :=
  {| RiskIndicators.is_high_risk_country := false;
     RiskIndicators.is_online := false;
     RiskIndicators.is_new_merchant := false;
     RiskIndicators.is_new_country := false;
     RiskIndicators.is_high_amount := false;
     RiskIndicators.is_unusual_hour := false;
     RiskIndicators.is_velocity_spike := false;
     RiskIndicators.is_amount_spike := false |}.

Definition preprocess (p : FraudPreprocessor) (input : gmap string JS.value)
    : outcome PreprocessingResult :=
  let isRawInput := isRawTransaction input in
  if isRawInput then
    let raw := input in
    let* temporal :=
      TemporalFeatures.extract h (temporalExtractor p) (JS.get raw "timestamp") in
    let* amount :=
      AmountFeatures.extract h (amountExtractor p) (JS.get raw "amount") in
    let* risk := RiskIndicators.calculate h (riskCalculator p) raw in
    let* modelInput := convertToModelInput p raw temporal amount in
    Ok {| modelInput := modelInput;
          features := {| temporal := temporal; amount := amount; risk := risk |};
          metadata := {| isRawInput := isRawInput;
                         hasAllFeatures := hasAllRequiredFeatures modelInput |} |}
  else
    let modelInput := input in
    Ok {| modelInput := modelInput;
          features := {| temporal := default_temporal;
                         amount := default_amount;
                         risk := default_risk |};
          metadata := {| isRawInput := isRawInput;
                         hasAllFeatures := hasAllRequiredFeatures modelInput |} |}.

(** The declared type of [RawTransaction] on the fields the pipeline
    reads: [timestamp: string | Date], [amount: number],
    [country_code?: string]. *)
Definition well_typed_raw (input : gmap string JS.value) : bool :=
  match JS.get input "timestamp" with
  | JS.VString _ | JS.VDate _ => true
  | _ => false
  end
  && JS.is_number (JS.get input "amount")
  && match JS.get input "country_code" with
     | JS.VUndefined | JS.VString _ => true
     | _ => false
     end.

(** [preprocessTransaction] *)
Definition preprocessTransaction (input : gmap string JS.value)
    : outcome (gmap string JS.value) :=
  let* result := preprocess new input in
  Ok (modelInput result).

End WithHost.

End FraudPreprocessor.

(* ===================================================================== *)
(** ** types/transaction.ts and utils/index.ts                            *)
(* ===================================================================== *)

Module Types.

(** [type RiskLevel = 'VERY_LOW' | 'LOW' | 'MEDIUM' | 'HIGH' | 'VERY_HIGH'] *)
Inductive RiskLevel : Type :=
| VERY_LOW
| LOW
| MEDIUM
| HIGH
| VERY_HIGH.

(** The string a [RiskLevel] is at run time. *)
Definition RiskLevel_string (r : RiskLevel) : string :=
  match r with
  | VERY_LOW => "VERY_LOW"
  | LOW => "LOW"
  | MEDIUM => "MEDIUM"
  | HIGH => "HIGH"
  | VERY_HIGH => "VERY_HIGH"
  end.

Inductive Label : Type :=
| Fraud
| Normal.

End Types.

Module Utils.

(** [getRiskLevel] of utils/index.ts, the one ONNXInference.ts imports
    through ['@/lib/utils']. *)
Definition getRiskLevel (fraudProbability : JS.number) : string :=
  if JS.ltb fraudProbability (JS.Fin 0.3) then "Low"
  else if JS.ltb fraudProbability (JS.Fin 0.7) then "Medium"
  else "High".

End Utils.

(* ===================================================================== *)
(** ** onnx/modelConfig.ts                                                *)
(* ===================================================================== *)

Module ModelConfig.

Definition FEATURE_NAMES : list string :=
  ["Time";
   "V1"; "V2"; "V3"; "V4"; "V5"; "V6"; "V7"; "V8"; "V9"; "V10";
   "V11"; "V12"; "V13"; "V14"; "V15"; "V16"; "V17"; "V18"; "V19"; "V20";
   "V21"; "V22"; "V23"; "V24"; "V25"; "V26"; "V27"; "V28";
   "Amount"].

Module PREDICTION_THRESHOLDS.
Definition fraud : JS.number := JS.Fin 0.5.
Module risk_levels.
Definition very_low : JS.number := JS.Fin 0.1.
Definition low : JS.number := JS.Fin 0.3.
Definition medium : JS.number := JS.Fin 0.7.
Definition high : JS.number := JS.Fin 0.9.
End risk_levels.
End PREDICTION_THRESHOLDS.

(** [Array.from({ length: 28 }, (_, i) => [`V${i + 1}`, { min: -10, max: 10 }])] *)
Definition V_names : list string :=
  ["V1"; "V2"; "V3"; "V4"; "V5"; "V6"; "V7"; "V8"; "V9"; "V10";
   "V11"; "V12"; "V13"; "V14"; "V15"; "V16"; "V17"; "V18"; "V19"; "V20";
   "V21"; "V22"; "V23"; "V24"; "V25"; "V26"; "V27"; "V28"].

Definition FEATURE_VALIDATION : gmap string (JS.number * JS.number) :=
  list_to_map
    (("Time", (JS.Fin (-5), JS.Fin 5))
     :: ("Amount", (JS.Fin (-5), JS.Fin 10))
     :: map (fun name => (name, (JS.Fin (-10), JS.Fin 10))) V_names).

(** The body of the [forEach] callback. *)
Definition check_feature (value : JS.number) (index : nat)
    : list validation_issue :=
  match FEATURE_NAMES !! index with
  | None => []
  | Some featureName =>
      match FEATURE_VALIDATION !! featureName with
      | None => []
      | Some (lo, hi) =>
          (if JS.ltb value lo || JS.gtb value hi
           then [OutOfRange featureName value lo hi] else [])
          ++ (if negb (JS.isFinite value) || JS.isNaN value
              then [InvalidValue featureName value] else [])
      end
  end.

Fixpoint check_from (index : nat) (features : list JS.number)
    : list validation_issue :=
  match features with
  | [] => []
  | value :: rest => check_feature value index ++ check_from (S index) rest
  end.

Record validation : Type := {
  valid : bool;
  errors : list validation_issue
}.

Definition validateFeatureValues (features : list JS.number) : validation :=
  if negb (Nat.eqb (length features) 30) then
    {| valid := false; errors := [WrongLength (length features)] |}
  else
    let errors := check_from 0 features in
    {| valid := Nat.eqb (length errors) 0; errors := errors |}.

End ModelConfig.

(* ===================================================================== *)
(** ** A JavaScript [Map] with string keys                                *)
(* ===================================================================== *)

(** Entries are kept in insertion order, oldest first; keys are unique.
    [set] on a key already present replaces the value where it stands. *)
Module JSMap.

Section Entries.
Context {V : Type}.

Fixpoint get (m : list (string * V)) (k : string) : option V :=
  match m with
  | [] => None
  | (k', v) :: rest => if String.eqb k' k then Some v else get rest k
  end.

Fixpoint set (m : list (string * V)) (k : string) (v : V) : list (string * V) :=
  match m with
  | [] => [(k, v)]
  | (k', v') :: rest =>
      if String.eqb k' k then (k, v) :: rest else (k', v') :: set rest k v
  end.

Fixpoint delete (m : list (string * V)) (k : string) : list (string * V) :=
  match m with
  | [] => []
  | (k', v) :: rest =>
      if String.eqb k' k then rest else (k', v) :: delete rest k
  end.

Definition size (m : list (string * V)) : nat := length m.

(** [m.keys().next().value] *)
Definition first_key (m : list (string * V)) : option string :=
  match m with
  | [] => None
  | (k, _) :: _ => Some k
  end.

End Entries.

End JSMap.

(* ===================================================================== *)
(** ** onnx/ONNXInference.ts                                              *)
(* ===================================================================== *)

Module ONNXInference.

Record InferenceOptions : Type := {
  useCache : option bool;
  returnProbabilities : option bool;
  returnTimings : option bool
}.

Record Timings : Type := {
  preprocessMs : JS.number;
  inferenceMs : JS.number;
  postprocessMs : JS.number;
  totalMs : JS.number
}.

Record PredictionResult : Type := {
  prediction : Types.Label;
  confidence_score : JS.number;
  probability_fraud : JS.number;
  probability_normal : JS.number;
  risk_level : string
}.

(** [InferenceResult extends PredictionResult] *)
Record InferenceResult : Type := {
  base : PredictionResult;
  processing_time_ms : option JS.number;
  model_version : option string;
  timings : option Timings;
  cached : option bool
}.

Record CacheEntry : Type := {
  input : string;
  result : InferenceResult;
  timestamp : Z
}.

Record Stats : Type := {
  totalPredictions : nat;
  totalInferenceTime : JS.number;
  cacheHits : nat;
  cacheMisses : nat
}.

Inductive InferenceSession : Type :=
| Session.

(** The fields of the class.  [run_log] is bookkeeping of the model
    boundary, not a field of the source: the feature arrays handed to
    [session.run] so far, most recent first. *)
Record ONNXInference : Type := {
  session : option InferenceSession;
  isModelLoaded : bool;
  cache : list (string * CacheEntry);
  maxCacheSize : nat;
  stats : Stats;
  run_log : list (list JS.number)
}.

(** The clock readings of one [predict] call, in program order:
    [performance.now()] eight times, [Date.now()] in [getFromCache] and in
    [addToCache]. *)
Record Clock : Type := {
  startTime : JS.number;
  preprocessStart : JS.number;
  preprocessEnd : JS.number;
  inferenceStart : JS.number;
  inferenceEnd : JS.number;
  postprocessStart : JS.number;
  postprocessEnd : JS.number;
  endTime : JS.number;
  lookupNow : Z;
  insertNow : Z
}.

Definition new : ONNXInference :=
  {| session := None;
     isModelLoaded := false;
     cache := [];
     maxCacheSize := 100;
     stats := {| totalPredictions := 0; totalInferenceTime := JS.Fin 0;
                 cacheHits := 0; cacheMisses := 0 |};
     run_log := [] |}.

Definition with_cache (e : ONNXInference) (c : list (string * CacheEntry))
    : ONNXInference :=
  {| session := session e; isModelLoaded := isModelLoaded e; cache := c;
     maxCacheSize := maxCacheSize e; stats := stats e; run_log := run_log e |}.

Definition with_stats (e : ONNXInference) (s : Stats) : ONNXInference :=
  {| session := session e; isModelLoaded := isModelLoaded e; cache := cache e;
     maxCacheSize := maxCacheSize e; stats := s; run_log := run_log e |}.

Definition with_run_log (e : ONNXInference) (l : list (list JS.number))
    : ONNXInference :=
  {| session := session e; isModelLoaded := isModelLoaded e; cache := cache e;
     maxCacheSize := maxCacheSize e; stats := stats e; run_log := l |}.

(** [this.stats.cacheHits++] *)
Definition count_cache_hit (e : ONNXInference) : ONNXInference :=
  with_stats e
    {| totalPredictions := totalPredictions (stats e);
       totalInferenceTime := totalInferenceTime (stats e);
       cacheHits := S (cacheHits (stats e));
       cacheMisses := cacheMisses (stats e) |}.

(** [this.stats.cacheMisses++] *)
Definition count_cache_miss (e : ONNXInference) : ONNXInference :=
  with_stats e
    {| totalPredictions := totalPredictions (stats e);
       totalInferenceTime := totalInferenceTime (stats e);
       cacheHits := cacheHits (stats e);
       cacheMisses := S (cacheMisses (stats e)) |}.

(** [this.stats.totalPredictions++;
     this.stats.totalInferenceTime += inferenceTime] *)
Definition count_prediction (inferenceTime : JS.number) (e : ONNXInference)
    : ONNXInference :=
  with_stats e
    {| totalPredictions := S (totalPredictions (stats e));
       totalInferenceTime := JS.add (totalInferenceTime (stats e)) inferenceTime;
       cacheHits := cacheHits (stats e);
       cacheMisses := cacheMisses (stats e) |}.

(** A method body: the object before, the object after and what the call
    returned or threw.  Mutations made before a [throw] stay. *)
Definition method (A : Type) : Type := ONNXInference -> ONNXInference * outcome A.

Definition ret {A : Type} (a : A) : method A := fun e => (e, Ok a).

Definition throw {A : Type} (x : exn) : method A := fun e => (e, Throw x).

Definition lift {A : Type} (o : outcome A) : method A := fun e => (e, o).

Definition and_then {A B : Type} (m : method A) (k : A -> method B) : method B :=
  fun e =>
    match m e with
    | (e', Ok a) => k a e'
    | (e', Throw x) => (e', Throw x)
    end.

Definition read {A : Type} (f : ONNXInference -> A) : method A :=
  fun e => (e, Ok (f e)).

Definition update (f : ONNXInference -> ONNXInference) : method unit :=
  fun e => (f e, Ok tt).

Notation "'let!' x := m 'in' k" := (and_then m (fun x => k))
  (at level 10, x name, m at level 100, k at level 200).
Notation "m ;; k" := (and_then m (fun _ => k))
  (at level 100, k at level 200, right associativity).

Section WithHost.
Variable h : Host.env.

(** [loadModel]; [created] tells whether [InferenceSession.create]
    resolved. *)
Definition loadModel (created : bool) : method unit :=
  let! loaded := read isModelLoaded in
  if loaded then ret tt
  else if created then
    update (fun e =>
      {| session := Some Session; isModelLoaded := true; cache := cache e;
         maxCacheSize := maxCacheSize e; stats := stats e;
         run_log := run_log e |})
  else throw ModelLoadFailed.

(** [v.toFixed(4)] on a property value. *)
Definition toFixed4 (v : JS.value) : outcome string :=
  match v with
  | JS.VNumber n => Ok (toFixed h n 4)
  | _ => Throw TypeError
  end.

Definition getCacheKey (transaction : gmap string JS.value) : outcome string :=
  let* t := toFixed4 (JS.get transaction "Time") in
  let* v1 := toFixed4 (JS.get transaction "V1") in
  let* v2 := toFixed4 (JS.get transaction "V2") in
  let* a := toFixed4 (JS.get transaction "Amount") in
  Ok (String.concat "_" [t; v1; v2; a]).

Definition maxAge : Z := 60 * 60 * 1000.

Definition getFromCache (transaction : gmap string JS.value) (now : Z)
    : method (option InferenceResult) :=
  let! key := lift (getCacheKey transaction) in
  let! entry := read (fun e => JSMap.get (cache e) key) in
  match entry with
  | None => ret None
  | Some entry =>
      if now - timestamp entry >? maxAge then
        update (fun e => with_cache e (JSMap.delete (cache e) key)) ;;
        ret None
      else ret (Some (result entry))
  end.

(** ToBoolean of a string. *)
Definition truthy_string (s : string) : bool := negb (String.eqb s "").

(** [if (this.cache.size >= this.maxCacheSize) { ... }]: evict the oldest
    entry if the cache is full. *)
Definition evict_oldest (e : ONNXInference) : ONNXInference :=
  if Nat.leb (maxCacheSize e) (JSMap.size (cache e)) then
    match JSMap.first_key (cache e) with
    | Some firstKey =>
        if truthy_string firstKey
        then with_cache e (JSMap.delete (cache e) firstKey)
        else e
    | None => e
    end
  else e.

Definition addToCache (transaction : gmap string JS.value)
    (result : InferenceResult) (now : Z) : method unit :=
  update evict_oldest ;;
  let! key := lift (getCacheKey transaction) in
  update (fun e =>
    with_cache e
      (JSMap.set (cache e) key
         {| input := key; result := result; timestamp := now |})).

Fixpoint collect_features (transaction : gmap string JS.value)
    (names : list string) : outcome (list JS.number) :=
  match names with
  | [] => Ok []
  | featureName :: rest =>
      match JS.get transaction featureName with
      | JS.VNumber value =>
          let* features := collect_features transaction rest in
          Ok (value :: features)
      | _ => Throw (MissingOrInvalidFeature featureName)
      end
  end.

Definition transactionToFeatures (transaction : gmap string JS.value)
    : outcome (list JS.number) :=
  collect_features transaction ModelConfig.FEATURE_NAMES.

Definition runInference (features : list JS.number)
    : method (JS.number * JS.number) :=
  let! s := read session in
  match s with
  | None => throw ModelNotLoaded
  | Some _ =>
      update (fun e => with_run_log e (features :: run_log e)) ;;
      match session_run h features with
      | Some probabilities => ret probabilities
      | None => throw InferenceFailed
      end
  end.

Definition postprocess (probabilities : JS.number * JS.number) : PredictionResult :=
  let probNormal := fst probabilities in
  let probFraud := snd probabilities in
  let prediction :=
    if JS.gtb probFraud ModelConfig.PREDICTION_THRESHOLDS.fraud
    then Types.Fraud else Types.Normal in
  let confidenceScore := JS.Math_max probNormal probFraud in
  let riskLevel := Utils.getRiskLevel probFraud in
  {| prediction := prediction;
     confidence_score := confidenceScore;
     probability_fraud := probFraud;
     probability_normal := probNormal;
     risk_level := riskLevel |}.

(** [options.useCache !== false] *)
Definition cache_enabled (options : InferenceOptions) : bool :=
  match useCache options with
  | Some false => false
  | _ => true
  end.

(** [{ ...cached, cached: true }] *)
Definition mark_cached (r : InferenceResult) : InferenceResult :=
  {| base := base r; processing_time_ms := processing_time_ms r;
     model_version := model_version r; timings := timings r;
     cached := Some true |}.

(** The timings of one call, from its clock readings. *)
Definition preprocessTime (clk : Clock) : JS.number :=
  JS.sub (preprocessEnd clk) (preprocessStart clk).

Definition inferenceTime (clk : Clock) : JS.number :=
  JS.sub (inferenceEnd clk) (inferenceStart clk).

Definition postprocessTime (clk : Clock) : JS.number :=
  JS.sub (postprocessEnd clk) (postprocessStart clk).

Definition totalTime (clk : Clock) : JS.number :=
  JS.sub (endTime clk) (startTime clk).

(** The [inferenceResult] object literal, with [timings] added when
    [options.returnTimings] is set. *)
Definition build_result (options : InferenceOptions) (clk : Clock)
    (result : PredictionResult) : InferenceResult :=
  {| base := result;
     processing_time_ms := Some (totalTime clk);
     model_version := Some "1.0.0"%string;
     timings :=
       match returnTimings options with
       | Some true =>
           Some {| preprocessMs := preprocessTime clk;
                   inferenceMs := inferenceTime clk;
                   postprocessMs := postprocessTime clk;
                   totalMs := totalTime clk |}
       | _ => None
       end;
     cached := Some false |}.

(** [predict] after the cache check. *)
Definition predict_miss (transaction : gmap string JS.value)
    (options : InferenceOptions) (clk : Clock) : method InferenceResult :=
  update count_cache_miss ;;
  let! features := lift (transactionToFeatures transaction) in
  let validation := ModelConfig.validateFeatureValues features in
  if negb (ModelConfig.valid validation) then
    throw (InvalidInputValues (ModelConfig.errors validation))
  else
    let! probabilities := runInference features in
    let result := postprocess probabilities in
    update (count_prediction (inferenceTime clk)) ;;
    let inferenceResult := build_result options clk result in
    (if cache_enabled options
     then addToCache transaction inferenceResult (insertNow clk)
     else ret tt) ;;
    ret inferenceResult.

Definition predict (transaction : gmap string JS.value)
    (options : InferenceOptions) (clk : Clock) : method InferenceResult :=
  let! loaded := read isModelLoaded in
  let! s := read session in
  if negb loaded || negb (bool_decide (is_Some s)) then throw ModelNotLoaded
  else if cache_enabled options then
    let! cached := getFromCache transaction (lookupNow clk) in
    match cached with
    | Some cached =>
        update count_cache_hit ;;
        ret (mark_cached cached)
    | None => predict_miss transaction options clk
    end
  else predict_miss transaction options clk.

Definition clearCache : method unit :=
  update (fun e => with_cache e []).

Record StatsReport : Type := {
  report_totalPredictions : nat;
  avgInferenceTime : JS.number;
  cacheHitRate : JS.number;
  cacheSize : nat
}.

Definition getStats (e : ONNXInference) : StatsReport :=
  let avgInferenceTime :=
    if Nat.ltb 0 (totalPredictions (stats e))
    then JS.div (totalInferenceTime (stats e))
                (JS.of_Z (Z.of_nat (totalPredictions (stats e))))
    else JS.Fin 0 in
  let totalCacheRequests := (cacheHits (stats e) + cacheMisses (stats e))%nat in
  let cacheHitRate :=
    if Nat.ltb 0 totalCacheRequests
    then JS.div (JS.of_Z (Z.of_nat (cacheHits (stats e))))
                (JS.of_Z (Z.of_nat totalCacheRequests))
    else JS.Fin 0 in
  {| report_totalPredictions := totalPredictions (stats e);
     avgInferenceTime := avgInferenceTime;
     cacheHitRate := cacheHitRate;
     cacheSize := JSMap.size (cache e) |}.

Definition resetStats : method unit :=
  update (fun e =>
    with_stats e
      {| totalPredictions := 0; totalInferenceTime := JS.Fin 0;
         cacheHits := 0; cacheMisses := 0 |}).


Definition dispose : method unit :=
  let! s := read session in
  match s with
  | Some _ =>
      update (fun e =>
        {| session := None; isModelLoaded := false; cache := cache e;
           maxCacheSize := maxCacheSize e; stats := stats e;
           run_log := run_log e |}) ;;
      clearCache
  | None => ret tt
  end.

End WithHost.

End ONNXInference.

(* ===================================================================== *)
(** ** A concrete host and sample inputs                                  *)
(* ===================================================================== *)

Module Scenario.

Definition upper_ascii (c : ascii) : ascii :=
  let n := nat_of_ascii c in
  if Nat.leb 97 n && Nat.leb n 122 then ascii_of_nat (n - 32) else c.

Fixpoint upper (s : string) : string :=
  match s with
  | EmptyString => EmptyString
  | String c rest => String (upper_ascii c) (upper rest)
  end.

(** The digits of [x] scaled by [10^digits] and rounded half up. *)
Definition scaled_digits (x : JS.number) (digits : nat) : string :=
  match x with
  | JS.Fin q =>
      NilZero.string_of_int
        (Z.to_int (Qfloor (q * inject_Z (10 ^ Z.of_nat digits) + (1 # 2))%Q))
  | JS.PosInf => "Infinity"
  | JS.NegInf => "-Infinity"
  | JS.NaN => "NaN"
  end.

(** A classifier that answers the probabilities of the README example. *)
Definition constant_model (features : list JS.number)
    : option (JS.number * JS.number) :=
  Some (JS.Fin 0.9876, JS.Fin 0.0124).

Definition host : Host.env :=
  {| Date_parse := fun s =>
       if String.eqb s "2024-01-15T03:15:00Z"
       then JS.ValidDate 1705288500000 else JS.InvalidDate;
     tzOffset := fun _ => 0;
     StringToNumber := fun _ => JS.NaN;
     toUpperCase := upper;
     toFixed := scaled_digits;
     session_run := constant_model |}.

Definition default_options : ONNXInference.InferenceOptions :=
  {| ONNXInference.useCache := None;
     ONNXInference.returnProbabilities := None;
     ONNXInference.returnTimings := None |}.

Definition no_cache : ONNXInference.InferenceOptions :=
  {| ONNXInference.useCache := Some false;
     ONNXInference.returnProbabilities := None;
     ONNXInference.returnTimings := None |}.

(** A call that starts at [t] ms and takes 3 ms, 1 ms of it in the model. *)
Definition clock_at (t : Z) : ONNXInference.Clock :=
  {| ONNXInference.startTime := JS.of_Z t;
     ONNXInference.preprocessStart := JS.of_Z t;
     ONNXInference.preprocessEnd := JS.of_Z (t + 1);
     ONNXInference.inferenceStart := JS.of_Z (t + 1);
     ONNXInference.inferenceEnd := JS.of_Z (t + 2);
     ONNXInference.postprocessStart := JS.of_Z (t + 2);
     ONNXInference.postprocessEnd := JS.of_Z (t + 3);
     ONNXInference.endTime := JS.of_Z (t + 3);
     ONNXInference.lookupNow := t;
     ONNXInference.insertNow := t + 3 |}.

(** An engine whose model has been loaded. *)
Definition loaded : ONNXInference.ONNXInference :=
  fst (ONNXInference.loadModel true ONNXInference.new).

(** [SAMPLE_NORMAL] without its [V3] and [V7] slots. *)
Definition two_slots_missing : gmap string JS.value :=
  delete "V7" (delete "V3" SampleData.SAMPLE_NORMAL).

(** [SAMPLE_NORMAL] with [NaN] in [V3] and [Infinity] in [V7]. *)
Definition two_slots_not_finite : gmap string JS.value :=
  <["V7" := JS.VNumber JS.PosInf]>
    (<["V3" := JS.VNumber JS.NaN]> SampleData.SAMPLE_NORMAL).

(** The raw transaction of the specification's scenario. *)
Definition raw_transaction : gmap string JS.value :=
  list_to_map
    [("timestamp", JS.VString "2024-01-15T03:15:00Z");
     ("amount", JS.VNumber (JS.Fin 2500));
     ("country_code", JS.VString "ng");
     ("channel", JS.VString "online")].

(** A scaler whose stored standard deviation of feature [X] is zero. *)
Definition zero_std_scaler : Scaler.StandardScaler :=
  Scaler.new
    (Some {| Scaler.params_mean := {["X" := JS.Fin 5]};
             Scaler.params_std := {["X" := JS.Fin 0]} |}).


End Scenario.

(* ===================================================================== *)
(** ** Histories of calls on one engine                                   *)
(* ===================================================================== *)

Module History.

Inductive call : Type :=
| LoadModel (created : bool)
| Predict (transaction : gmap string JS.value)
    (options : ONNXInference.InferenceOptions) (clk : ONNXInference.Clock)
| ClearCache
| Dispose.

Section WithHost.
Variable h : Host.env.

(** The engine after one call, whether it returned or threw. *)
Definition step (e : ONNXInference.ONNXInference) (c : call)
    : ONNXInference.ONNXInference :=
  match c with
  | LoadModel created => fst (ONNXInference.loadModel created e)
  | Predict transaction options clk =>
      fst (ONNXInference.predict h transaction options clk e)
  | ClearCache => fst (ONNXInference.clearCache e)
  | Dispose => fst (ONNXInference.dispose e)
  end.

Definition run (calls : list call) (e : ONNXInference.ONNXInference)
    : ONNXInference.ONNXInference :=
  fold_left step calls e.

(** The inference time of a call when it is a [predict] that returned a
    result computed by the model (one not marked [cached]). *)
Definition model_time (e : ONNXInference.ONNXInference) (c : call)
    : list JS.number :=
  match c with
  | Predict transaction options clk =>
      match ONNXInference.predict h transaction options clk e with
      | (_, Ok r) =>
          match ONNXInference.cached r with
          | Some true => []
          | _ => [ONNXInference.inferenceTime clk]
          end
      | (_, Throw _) => []
      end
  | _ => []
  end.

(** The inference times of the model-computed predictions of a history,
    oldest first. *)
Fixpoint model_times (calls : list call) (e : ONNXInference.ONNXInference)
    : list JS.number :=
  match calls with
  | [] => []
  | c :: rest => model_time e c ++ model_times rest (step e c)
  end.

End WithHost.

End History.

(* ===================================================================== *)
(** ** Behaviour described by the documentation, for comparison           *)
(* ===================================================================== *)

Module Documented.

(** The five-tier mapping the threshold table of modelConfig.ts and the
    [RiskLevel] type describe. *)
Definition five_tier_risk_level (fraudProbability : JS.number) : Types.RiskLevel :=
  if JS.ltb fraudProbability ModelConfig.PREDICTION_THRESHOLDS.risk_levels.very_low
  then Types.VERY_LOW
  else if JS.ltb fraudProbability ModelConfig.PREDICTION_THRESHOLDS.risk_levels.low
  then Types.LOW
  else if JS.ltb fraudProbability ModelConfig.PREDICTION_THRESHOLDS.risk_levels.medium
  then Types.MEDIUM
  else if JS.ltb fraudProbability ModelConfig.PREDICTION_THRESHOLDS.risk_levels.high
  then Types.HIGH
  else Types.VERY_HIGH.

End Documented.

(* ===================================================================== *)
(** ** Predicates used to state the properties                            *)
(* ===================================================================== *)

Module Predicates.

(** A slot that is missing or does not hold a finite number. *)
Definition invalid_slot (transaction : gmap string JS.value) (name : string) : bool :=
  match JS.get transaction name with
  | JS.VNumber n => negb (JS.isFinite n)
  | _ => true
  end.

(** The first slot, in feature order, that does not hold a number. *)
Definition first_non_number (transaction : gmap string JS.value)
    (names : list string) : option string :=
  List.find (fun name => negb (JS.is_number (JS.get transaction name))) names.

(** The field a validation message is about. *)
Definition issue_field (i : validation_issue) : list string :=
  match i with
  | WrongLength _ => []
  | OutOfRange name _ _ _ => [name]
  | InvalidValue name _ => [name]
  end.

(** The field names an exception message mentions. *)
Definition fields_named (x : exn) : list string :=
  match x with
  | MissingOrInvalidFeature name => [name]
  | InvalidInputValues errors => flat_map issue_field errors
  | _ => []
  end.

Definition names (x : exn) (field : string) : bool :=
  existsb (String.eqb field) (fields_named x).

(** What holds of the cache of an engine between calls: the capacity is
    the constructor's 100, no more entries than that are held, and no key
    is the empty string. *)
Definition cache_invariant (e : ONNXInference.ONNXInference) : Prop :=
  ONNXInference.maxCacheSize e = 100%nat
  /\ (JSMap.size (ONNXInference.cache e) <= 100)%nat
  /\ Forall (fun kv => ONNXInference.truthy_string (fst kv) = true)
            (ONNXInference.cache e).

(** The keys of the cache are pairwise distinct, as the keys of a [Map]
    are. *)
Definition keys_distinct (e : ONNXInference.ONNXInference) : Prop :=
  NoDup (map fst (ONNXInference.cache e)).

(** Whether [predict] answers the call from its cache. *)
Definition answered_from_cache (h : Host.env)
    (transaction : gmap string JS.value)
    (options : ONNXInference.InferenceOptions) (clk : ONNXInference.Clock)
    (e : ONNXInference.ONNXInference) : bool :=
  ONNXInference.cache_enabled options
  && match snd (ONNXInference.getFromCache h transaction
                  (ONNXInference.lookupNow clk) e) with
     | Ok (Some _) => true
     | _ => false
     end.

End Predicates.

(* ===================================================================== *)
(** ** More of [Math]                                                     *)
(* ===================================================================== *)

Module JSMath.

(** [Math.min(a, b)] *)
Definition Math_min (a b : JS.number) : JS.number :=
  match a, b with
  | JS.NaN, _ | _, JS.NaN => JS.NaN
  | _, _ => if JS.ltb b a then b else a
  end.

(** [Math.abs(a)] *)
Definition Math_abs (a : JS.number) : JS.number :=
  match a with
  | JS.Fin x => JS.Fin (Qabs x)
  | JS.PosInf | JS.NegInf => JS.PosInf
  | JS.NaN => JS.NaN
  end.

(** [Math.ceil(a)] *)
Definition Math_ceil (a : JS.number) : JS.number :=
  match a with
  | JS.Fin x => JS.of_Z (Qceiling x)
  | _ => a
  end.

(** [Math.pow(a, 2)] *)
Definition square (a : JS.number) : JS.number := JS.mul a a.

(** [values.reduce((acc, val) => acc + val, 0)] *)
Definition sum (values : list JS.number) : JS.number :=
  fold_left JS.add values (JS.Fin 0).

(** [values.length] as a number *)
Definition length_of {A : Type} (values : list A) : JS.number :=
  JS.of_Z (Z.of_nat (length values)).

End JSMath.

(* ===================================================================== *)
(** ** Scaler.ts: whole records, fitting and the quick helpers            *)
(* ===================================================================== *)

Module ScalerObjects.

(** [scaled[feature] = ...] on the object literal [{}]: an assignment to
    [__proto__] goes to the setter of [Object.prototype], which ignores a
    number, so no property is created. *)
Definition assigned (feature : string) : bool :=
  negb (String.eqb feature "__proto__").

Definition transform (s : Scaler.StandardScaler) (data : gmap string JS.number)
    : outcome (gmap string JS.number) :=
  if negb (Scaler.fitted s) then Throw ScalerNotFitted
  else
    Ok (map_imap
          (fun feature value =>
             let mean := Scaler.effective_mean s feature in
             let std := Scaler.effective_std s feature in
             if assigned feature then
               Some (if JS.eqb std (JS.Fin 0) then JS.Fin 0
                     else JS.div (JS.sub value mean) std)
             else None)
          data).

Definition inverseTransform (s : Scaler.StandardScaler)
    (data : gmap string JS.number) : outcome (gmap string Scaler.unscaled) :=
  if negb (Scaler.fitted s) then Throw ScalerNotFitted
  else
    Ok (map_imap
          (fun feature scaledValue =>
             let std := Scaler.effective_std s feature in
             let product := JS.mul scaledValue std in
             if assigned feature then
               Some (if Scaler.reads_inherited (Scaler.mean s) feature
                     then Scaler.Concatenation product
                     else Scaler.Number
                            (JS.add product (Scaler.effective_mean s feature)))
             else None)
          data).

(** [getParams]: copies of the two tables. *)
Definition getParams (s : Scaler.StandardScaler) : Scaler.ScalerParams :=
  {| Scaler.params_mean := Scaler.mean s; Scaler.params_std := Scaler.std s |}.

Definition isFitted (s : Scaler.StandardScaler) : bool := Scaler.fitted s.

Definition calculateMean (values : list JS.number) : JS.number :=
  if Nat.eqb (length values) 0 then JS.Fin 0
  else JS.div (JSMath.sum values) (JSMath.length_of values).

Section WithSqrt.
(** [Math.sqrt] *)
Variable Math_sqrt : JS.number -> JS.number.

Definition calculateStd (values : list JS.number) (mean : JS.number) : JS.number :=
  if Nat.eqb (length values) 0 then JS.Fin 1
  else
    let squaredDiffs := map (fun val => JSMath.square (JS.sub val mean)) values in
    let variance := calculateMean squaredDiffs in
    Math_sqrt variance.

(** [this.mean[feature] = v] on a table: the assignment to [__proto__]
    goes to the setter of [Object.prototype], which ignores a number,
    unless the table has an own property of that name. *)
Definition stores (o : gmap string JS.number) (feature : string) : bool :=
  assigned feature || bool_decide (is_Some (o !! feature)).

(** [fit]: every feature of [data] gets its mean and its standard
    deviation, the latter computed from [this.mean[feature]] as it reads
    after the assignment: the stored mean, or the prototype object (in
    the subtraction, [NaN]) when nothing was stored.  The entries of
    other features stay. *)
Definition fit (s : Scaler.StandardScaler) (data : gmap string (list JS.number))
    : Scaler.StandardScaler :=
  {| Scaler.mean :=
       map_imap
         (fun feature values =>
            if stores (Scaler.mean s) feature then Some (calculateMean values)
            else None)
         data
       ∪ Scaler.mean s;
     Scaler.std :=
       map_imap
         (fun feature values =>
            let mean :=
              if stores (Scaler.mean s) feature then calculateMean values
              else JS.NaN in
            if stores (Scaler.std s) feature then Some (calculateStd values mean)
            else None)
         data
       ∪ Scaler.std s;
     Scaler.fitted := true |}.

End WithSqrt.

Record TimeAmount (A : Type) : Type := {
  Time : A;
  Amount : A
}.

Arguments Time {A} _.
Arguments Amount {A} _.

Definition quickScale (time amount : JS.number) : outcome (TimeAmount JS.number) :=
  let scaler := Scaler.createPretrainedScaler in
  let* t := Scaler.transformSingle scaler "Time" time in
  let* a := Scaler.transformSingle scaler "Amount" amount in
  Ok {| Time := t; Amount := a |}.

Definition quickInverseScale (scaledTime scaledAmount : JS.number)
    : outcome (TimeAmount Scaler.unscaled) :=
  let scaler := Scaler.createPretrainedScaler in
  let* t := Scaler.inverseTransformSingle scaler "Time" scaledTime in
  let* a := Scaler.inverseTransformSingle scaler "Amount" scaledAmount in
  Ok {| Time := t; Amount := a |}.

End ScalerObjects.

(* ===================================================================== *)
(** ** TemporalFeatures.ts: categories, velocity and the risk score       *)
(* ===================================================================== *)

Module TemporalRisk.

Inductive HourCategory : Type :=
| early_morning
| morning
| afternoon
| evening
| night.

Section WithHost.
Variable h : Host.env.

Definition getHourCategory (date : JS.Date) : HourCategory :=
  let hour := TemporalFeatures.getHours h date in
  if JS.geb hour (JS.Fin 0) && JS.ltb hour (JS.Fin 6) then early_morning
  else if JS.geb hour (JS.Fin 6) && JS.ltb hour (JS.Fin 12) then morning
  else if JS.geb hour (JS.Fin 12) && JS.ltb hour (JS.Fin 17) then afternoon
  else if JS.geb hour (JS.Fin 17) && JS.ltb hour (JS.Fin 21) then evening
  else night.

(** [lastTimestamp: Date | null] *)
Definition getTimeSinceLastTransaction (currentTimestamp : JS.Date)
    (lastTimestamp : option JS.Date) : JS.number :=
  match lastTimestamp with
  | None => JS.Fin (-1)
  | Some lastTimestamp =>
      let diff := JS.sub (JS.getTime currentTimestamp) (JS.getTime lastTimestamp) in
      JS.Math_floor (JS.div diff (JS.Fin 1000))
  end.

Definition isSuspiciousVelocity (timeSinceLastTx : JS.number) : bool :=
  if JS.eqb timeSinceLastTx (JS.Fin (-1)) then false
  else JS.ltb timeSinceLastTx (JS.Fin 60).

Definition isHighRiskTime (timestamp : JS.value) : outcome bool :=
  let* date := TemporalFeatures.as_date h timestamp in
  let hour := TemporalFeatures.getHours h date in
  Ok (JS.geb hour (JS.Fin 22) || JS.leb hour (JS.Fin 6)).

(** [getTemporalRiskScore]; [new Date(timestamp)] denotes the instant that
    [extract] has already read from the same string or [Date]. *)
Definition getTemporalRiskScore (timestamp : JS.value) : outcome JS.number :=
  let extractor := TemporalFeatures.new in
  let* features := TemporalFeatures.extract h extractor timestamp in
  let* date := TemporalFeatures.as_date h timestamp in
  let riskScore := JS.Fin 0 in
  let riskScore :=
    if TemporalFeatures.is_night features
    then JS.add riskScore (JS.Fin 0.3) else riskScore in
  let riskScore :=
    if TemporalFeatures.is_weekend features
    then JS.add riskScore (JS.Fin 0.2) else riskScore in
  let riskScore :=
    if negb (TemporalFeatures.is_business_hours features)
    then JS.add riskScore (JS.Fin 0.2) else riskScore in
  let riskScore :=
    if TemporalFeatures.isUnusualHour h date
    then JS.add riskScore (JS.Fin 0.3) else riskScore in
  Ok (JSMath.Math_min riskScore (JS.Fin 1.0)).

End WithHost.

End TemporalRisk.

(* ===================================================================== *)
(** ** AmountFeatures.ts: percentile rank, deviation and the risk score   *)
(* ===================================================================== *)

Module AmountRisk.

Definition AMOUNT_MAX : JS.number := JS.Fin 25691.16.
Definition AMOUNT_P50 : JS.number := JS.Fin 22.0.
Definition AMOUNT_P75 : JS.number := JS.Fin 77.165.
Definition AMOUNT_P90 : JS.number := JS.Fin 263.15.
Definition AMOUNT_P95 : JS.number := JS.Fin 394.64.
Definition AMOUNT_P99 : JS.number := JS.Fin 1232.93.

Definition isRoundNumber (amount : JS.number) : bool :=
  AmountFeatures.rem_is_zero amount 1 && AmountFeatures.rem_is_zero amount 10.

Definition isLargeAmount (amount : JS.number) : bool :=
  JS.gtb amount AMOUNT_P95.

Definition getPercentileRank (amount : JS.number) : JS.number :=
  if JS.leb amount AMOUNT_P50 then
    JS.mul (JS.div amount AMOUNT_P50) (JS.Fin 50)
  else if JS.leb amount AMOUNT_P75 then
    JS.add (JS.Fin 50)
      (JS.mul (JS.div (JS.sub amount AMOUNT_P50) (JS.sub AMOUNT_P75 AMOUNT_P50))
              (JS.Fin 25))
  else if JS.leb amount AMOUNT_P90 then
    JS.add (JS.Fin 75)
      (JS.mul (JS.div (JS.sub amount AMOUNT_P75) (JS.sub AMOUNT_P90 AMOUNT_P75))
              (JS.Fin 15))
  else if JS.leb amount AMOUNT_P95 then
    JS.add (JS.Fin 90)
      (JS.mul (JS.div (JS.sub amount AMOUNT_P90) (JS.sub AMOUNT_P95 AMOUNT_P90))
              (JS.Fin 5))
  else if JS.leb amount AMOUNT_P99 then
    JS.add (JS.Fin 95)
      (JS.mul (JS.div (JS.sub amount AMOUNT_P95) (JS.sub AMOUNT_P99 AMOUNT_P95))
              (JS.Fin 4))
  else
    JSMath.Math_min
      (JS.add (JS.Fin 99)
         (JS.div (JS.sub amount AMOUNT_P99) (JS.sub AMOUNT_MAX AMOUNT_P99)))
      (JS.Fin 100).

Definition calculateDeviation (amount userAverage userStd : JS.number) : JS.number :=
  if JS.eqb userStd (JS.Fin 0) then JS.Fin 0
  else JSMath.Math_abs (JS.div (JS.sub amount userAverage) userStd).

Definition isUnusualForUser (amount userAverage userStd : JS.number) : bool :=
  let deviation := calculateDeviation amount userAverage userStd in
  JS.gtb deviation (JS.Fin 3).

(** [userAverage?: number, userStd?: number] *)
Definition getAmountRiskScore (amount : JS.number)
    (userAverage userStd : option JS.number) : JS.number :=
  let riskScore := JS.Fin 0 in
  let riskScore :=
    if isLargeAmount amount then JS.add riskScore (JS.Fin 0.3) else riskScore in
  let riskScore :=
    if isRoundNumber amount then JS.add riskScore (JS.Fin 0.2) else riskScore in
  let riskScore :=
    if AmountFeatures.rem_is_zero amount 100 && JS.gtb amount (JS.Fin 0)
    then JS.add riskScore (JS.Fin 0.1) else riskScore in
  let riskScore :=
    match userAverage, userStd with
    | Some userAverage, Some userStd =>
        if isUnusualForUser amount userAverage userStd
        then JS.add riskScore (JS.Fin 0.4) else riskScore
    | _, _ => riskScore
    end in
  JSMath.Math_min riskScore (JS.Fin 1.0).

Inductive AmountCategory : Type :=
| Small
| Medium
| Large
| VeryLarge
| ExtremelyLarge.

Definition getAmountCategory (amount : JS.number) : AmountCategory :=
  if JS.leb amount AMOUNT_P50 then Small
  else if JS.leb amount AMOUNT_P75 then Medium
  else if JS.leb amount AMOUNT_P90 then Large
  else if JS.leb amount AMOUNT_P95 then VeryLarge
  else ExtremelyLarge.

Definition isSuspiciousAmount (amount : JS.number) : bool :=
  isLargeAmount amount || (isRoundNumber amount && JS.gtb amount (JS.Fin 1000)).

Definition isValidAmount (amount : JS.value) : bool :=
  match amount with
  | JS.VNumber n =>
      negb (JS.isNaN n) && JS.isFinite n && JS.geb n (JS.Fin 0)
      && JS.leb n (JS.mul AMOUNT_MAX (JS.Fin 2))
  | _ => false
  end.

End AmountRisk.

(* ===================================================================== *)
(** ** RiskIndicators.ts: scoring and the country list                    *)
(* ===================================================================== *)

Module RiskScoring.

Definition getRiskScore (indicators : RiskIndicators.RiskIndicators) : JS.number :=
  let score := JS.Fin 0 in
  let score := if RiskIndicators.is_high_risk_country indicators
               then JS.add score (JS.Fin 0.25) else score in
  let score := if RiskIndicators.is_online indicators
               then JS.add score (JS.Fin 0.10) else score in
  let score := if RiskIndicators.is_new_merchant indicators
               then JS.add score (JS.Fin 0.15) else score in
  let score := if RiskIndicators.is_new_country indicators
               then JS.add score (JS.Fin 0.20) else score in
  let score := if RiskIndicators.is_high_amount indicators
               then JS.add score (JS.Fin 0.15) else score in
  let score := if RiskIndicators.is_unusual_hour indicators
               then JS.add score (JS.Fin 0.20) else score in
  let score := if RiskIndicators.is_velocity_spike indicators
               then JS.add score (JS.Fin 0.30) else score in
  let score := if RiskIndicators.is_amount_spike indicators
               then JS.add score (JS.Fin 0.25) else score in
  JSMath.Math_min score (JS.Fin 1.0).

(** [Object.values(indicators)] *)
Definition values (indicators : RiskIndicators.RiskIndicators) : list bool :=
  [RiskIndicators.is_high_risk_country indicators;
   RiskIndicators.is_online indicators;
   RiskIndicators.is_new_merchant indicators;
   RiskIndicators.is_new_country indicators;
   RiskIndicators.is_high_amount indicators;
   RiskIndicators.is_unusual_hour indicators;
   RiskIndicators.is_velocity_spike indicators;
   RiskIndicators.is_amount_spike indicators].

Definition countRiskFlags (indicators : RiskIndicators.RiskIndicators) : nat :=
  length (List.filter (fun b => b) (values indicators)).

Inductive Level : Type :=
| LOW
| MEDIUM
| HIGH
| VERY_HIGH.

Definition getRiskLevelFromIndicators (indicators : RiskIndicators.RiskIndicators)
    : Level :=
  let riskScore := getRiskScore indicators in
  if JS.ltb riskScore (JS.Fin 0.2) then LOW
  else if JS.ltb riskScore (JS.Fin 0.4) then MEDIUM
  else if JS.ltb riskScore (JS.Fin 0.6) then HIGH
  else VERY_HIGH.

(** The position of a level in the order LOW < MEDIUM < HIGH < VERY_HIGH. *)
Definition rank (l : Level) : nat :=
  match l with
  | LOW => 0
  | MEDIUM => 1
  | HIGH => 2
  | VERY_HIGH => 3
  end.

Section WithHost.
Variable h : Host.env.

Definition addHighRiskCountry (c : RiskIndicators.RiskIndicatorCalculator)
    (countryCode : string) : RiskIndicators.RiskIndicatorCalculator :=
  {| RiskIndicators.highRiskCountries :=
       {[toUpperCase h countryCode]} ∪ RiskIndicators.highRiskCountries c;
     RiskIndicators.highRiskMerchants := RiskIndicators.highRiskMerchants c |}.

Definition removeHighRiskCountry (c : RiskIndicators.RiskIndicatorCalculator)
    (countryCode : string) : RiskIndicators.RiskIndicatorCalculator :=
  {| RiskIndicators.highRiskCountries :=
       RiskIndicators.highRiskCountries c ∖ {[toUpperCase h countryCode]};
     RiskIndicators.highRiskMerchants := RiskIndicators.highRiskMerchants c |}.

(** [hasRiskFlags] *)
Definition hasRiskFlags (transaction : gmap string JS.value) : outcome bool :=
  let calculator := RiskIndicators.new in
  let* indicators := RiskIndicators.calculate h calculator transaction in
  Ok (Nat.ltb 0 (countRiskFlags indicators)).

End WithHost.

End RiskScoring.

(* ===================================================================== *)
(** ** Batches, and histories with every public method                    *)
(* ===================================================================== *)

Module Batch.

Section WithHost.
Variable h : Host.env.

(** The [for ... of] loop of [FraudPreprocessor.preprocessBatch]:
    [results.push(await this.preprocess(transaction))]. *)
Fixpoint preprocessBatch_loop (p : FraudPreprocessor.FraudPreprocessor)
    (transactions : list (gmap string JS.value))
    (results : list FraudPreprocessor.PreprocessingResult)
    : outcome (list FraudPreprocessor.PreprocessingResult) :=
  match transactions with
  | [] => Ok results
  | transaction :: rest =>
      let* result := FraudPreprocessor.preprocess h p transaction in
      preprocessBatch_loop p rest (results ++ [result])
  end.

Definition preprocessBatch (p : FraudPreprocessor.FraudPreprocessor)
    (transactions : list (gmap string JS.value))
    : outcome (list FraudPreprocessor.PreprocessingResult) :=
  preprocessBatch_loop p transactions [].

(** The exported helper of the same name:
    [results.map((r) => r.modelInput)] on a fresh pre-processor. *)
Definition preprocessBatch_helper (transactions : list (gmap string JS.value))
    : outcome (list (gmap string JS.value)) :=
  let preprocessor := FraudPreprocessor.new in
  let* results := preprocessBatch preprocessor transactions in
  Ok (map FraudPreprocessor.modelInput results).

(** The loop of [predictBatch]; every transaction comes with the clock
    readings of its [predict] call. *)
Fixpoint predictBatch_loop
    (transactions : list (gmap string JS.value * ONNXInference.Clock))
    (options : ONNXInference.InferenceOptions)
    (results : list ONNXInference.InferenceResult)
    : ONNXInference.method (list ONNXInference.InferenceResult) :=
  match transactions with
  | [] => ONNXInference.ret results
  | (transaction, clk) :: rest =>
      ONNXInference.and_then
        (ONNXInference.predict h transaction options clk)
        (fun result => predictBatch_loop rest options (results ++ [result]))
  end.

Definition predictBatch
    (transactions : list (gmap string JS.value * ONNXInference.Clock))
    (options : ONNXInference.InferenceOptions)
    : ONNXInference.method (list ONNXInference.InferenceResult) :=
  predictBatch_loop transactions options [].

(** The [predict] calls a batch stands for, in order. *)
Definition calls_of
    (transactions : list (gmap string JS.value * ONNXInference.Clock))
    (options : ONNXInference.InferenceOptions) : list History.call :=
  map (fun tc => History.Predict (fst tc) options (snd tc)) transactions.

End WithHost.

End Batch.

Module Lifecycle.

(** A call of any public method of the engine. *)
Inductive call : Type :=
| LoadModel (created : bool)
| Predict (transaction : gmap string JS.value)
    (options : ONNXInference.InferenceOptions) (clk : ONNXInference.Clock)
| PredictBatch
    (transactions : list (gmap string JS.value * ONNXInference.Clock))
    (options : ONNXInference.InferenceOptions)
| ClearCache
| ResetStats
| Dispose.

Section WithHost.
Variable h : Host.env.

Definition step (e : ONNXInference.ONNXInference) (c : call)
    : ONNXInference.ONNXInference :=
  match c with
  | LoadModel created => fst (ONNXInference.loadModel created e)
  | Predict transaction options clk =>
      fst (ONNXInference.predict h transaction options clk e)
  | PredictBatch transactions options =>
      fst (Batch.predictBatch h transactions options e)
  | ClearCache => fst (ONNXInference.clearCache e)
  | ResetStats => fst (ONNXInference.resetStats e)
  | Dispose => fst (ONNXInference.dispose e)
  end.

Definition run (calls : list call) (e : ONNXInference.ONNXInference)
    : ONNXInference.ONNXInference :=
  fold_left step calls e.

End WithHost.

End Lifecycle.

(* ===================================================================== *)
(** ** onnx/modelConfig.ts: feature names and indices                     *)
(* ===================================================================== *)

Module FeatureIndex.

(** [array.indexOf(x)] from position [i] on, [-1] when [x] is absent. *)
Fixpoint indexOf_from (array : list string) (x : string) (i : Z) : Z :=
  match array with
  | [] => -1
  | y :: rest => if String.eqb y x then i else indexOf_from rest x (i + 1)
  end.

Definition indexOf (array : list string) (x : string) : Z :=
  indexOf_from array x 0.

Definition getFeatureIndex (featureName : string) : Z :=
  indexOf ModelConfig.FEATURE_NAMES featureName.

(** [FEATURE_NAMES[index] || 'Unknown'], for an integer [index]. *)
Definition getFeatureName (index : Z) : string :=
  let element :=
    if index <? 0 then None
    else ModelConfig.FEATURE_NAMES !! Z.to_nat index in
  match element with
  | Some name => if ONNXInference.truthy_string name then name else "Unknown"
  | None => "Unknown"
  end.

End FeatureIndex.

(* ===================================================================== *)
(** ** utils/index.ts: metrics of a confusion matrix, array chunks        *)
(* ===================================================================== *)

Module Metrics.

Record ConfusionMatrix : Type := {
  tp : JS.number;
  tn : JS.number;
  fp : JS.number;
  fn : JS.number
}.

Definition calculateAccuracy (cm : ConfusionMatrix) : JS.number :=
  let total := JS.add (JS.add (JS.add (tp cm) (tn cm)) (fp cm)) (fn cm) in
  if JS.eqb total (JS.Fin 0) then JS.Fin 0
  else JS.div (JS.add (tp cm) (tn cm)) total.

Definition calculatePrecision (cm : ConfusionMatrix) : JS.number :=
  let denominator := JS.add (tp cm) (fp cm) in
  if JS.eqb denominator (JS.Fin 0) then JS.Fin 0
  else JS.div (tp cm) denominator.

Definition calculateRecall (cm : ConfusionMatrix) : JS.number :=
  let denominator := JS.add (tp cm) (fn cm) in
  if JS.eqb denominator (JS.Fin 0) then JS.Fin 0
  else JS.div (tp cm) denominator.

Definition calculateF1Score (cm : ConfusionMatrix) : JS.number :=
  let precision := calculatePrecision cm in
  let recall := calculateRecall cm in
  let denominator := JS.add precision recall in
  if JS.eqb denominator (JS.Fin 0) then JS.Fin 0
  else JS.div (JS.mul (JS.mul (JS.Fin 2) precision) recall) denominator.

End Metrics.

Module Arrays.

Section Chunks.
Context {T : Type}.

(** [array.slice(start, end)] for integer arguments. *)
Definition slice (array : list T) (start finish : Z) : list T :=
  let len := Z.of_nat (length array) in
  let k := if start <? 0 then Z.max (len + start) 0 else Z.min start len in
  let final := if finish <? 0 then Z.max (len + finish) 0 else Z.min finish len in
  take (Z.to_nat (final - k)) (drop (Z.to_nat k) array).

(** The [for (let i = 0; i < array.length; i += size)] loop of
    [chunkArray], for an integer [size]; [None] when the loop is still
    running after [fuel] tests of its condition. *)
Fixpoint chunkArray_loop (fuel : nat) (array : list T) (size : Z) (i : Z)
    (chunks : list (list T)) : option (list (list T)) :=
  match fuel with
  | O => None
  | S fuel =>
      if i <? Z.of_nat (length array) then
        chunkArray_loop fuel array size (i + size)
          (chunks ++ [slice array i (i + size)])
      else Some chunks
  end.

Definition chunkArray (fuel : nat) (array : list T) (size : Z)
    : option (list (list T)) :=
  chunkArray_loop fuel array size 0 [].

End Chunks.

End Arrays.

(* ===================================================================== *)
(** ** Tactics for the arithmetic of the amount features                  *)
(* ===================================================================== *)

(** Division by a non-zero constant, as a linear fact. *)
Ltac div_const :=
  repeat match goal with
  | |- context [(?x / ?d)%Q] =>
      let t := fresh "t" in
      let H := fresh "Ht" in
      assert (H : (x / d * d == x)%Q)
        by (apply Qdiv_mult_l; vm_compute; discriminate);
      generalize dependent (x / d)%Q; intros t H
  | H0 : context [(?x / ?d)%Q] |- _ =>
      let t := fresh "t" in
      let H := fresh "Ht" in
      assert (H : (x / d * d == x)%Q)
        by (apply Qdiv_mult_l; vm_compute; discriminate);
      generalize dependent (x / d)%Q; intros t; intros
  end.

(** The seven cases of the statement of [percentile_pieces]. *)
Ltac percentile_cases H :=
  destruct H as [(? & ->) | [(? & ? & ->) | [(? & ? & ->) | [(? & ? & ->)
    | [(? & ? & ->) | [(? & ? & ->) | (? & ->)]]]]]].

(* ===================================================================== *)
(** * Properties                                                          *)
(* ===================================================================== *)

(** ** Comparisons of finite numbers *)

Lemma Qlt_bool_iff (x y : Q) : JS.Qlt_bool x y = true <-> (x < y)%Q.
Proof.
  unfold JS.Qlt_bool. rewrite negb_true_iff. split.
  - intros H. apply Qnot_le_lt. intros Hle.
    apply Qle_bool_iff in Hle. congruence.
  - intros H. destruct (Qle_bool y x) eqn:E; [| reflexivity].
    apply Qle_bool_iff in E. exfalso. exact (Qlt_not_le _ _ H E).
Qed.

Lemma Qlt_bool_false_iff (x y : Q) : JS.Qlt_bool x y = false <-> (y <= x)%Q.
Proof.
  unfold JS.Qlt_bool. rewrite negb_false_iff. apply Qle_bool_iff.
Qed.

Lemma gtb_Fin (x y : Q) : JS.gtb (JS.Fin x) (JS.Fin y) = true <-> (y < x)%Q.
Proof. apply Qlt_bool_iff. Qed.

Lemma leb_of_Z (a b : Z) : JS.leb (JS.of_Z a) (JS.Fin (inject_Z b)) = (a <=? b)%Z.
Proof.
  unfold JS.leb, JS.of_Z. apply eq_true_iff_eq.
  rewrite Qle_bool_iff, Z.leb_le, Zle_Qle. reflexivity.
Qed.

Lemma geb_of_Z (a b : Z) : JS.geb (JS.of_Z a) (JS.Fin (inject_Z b)) = (b <=? a)%Z.
Proof.
  unfold JS.geb, JS.leb, JS.of_Z. apply eq_true_iff_eq.
  rewrite Qle_bool_iff, Z.leb_le, Zle_Qle. reflexivity.
Qed.

(** ** The classification step *)

(** C5.  For a probability pair [P(Normal), P(Fraud)], [postprocess]
    answers [Fraud] exactly when [P(Fraud) > 0.5] and [Normal] otherwise,
    and its confidence score is the larger of the two probabilities. *)
Theorem postprocess_label_and_confidence (pNormal pFraud : Q) :
  let r := ONNXInference.postprocess (JS.Fin pNormal, JS.Fin pFraud) in
  (ONNXInference.prediction r = Types.Fraud <-> (0.5 < pFraud)%Q)
  /\ (ONNXInference.prediction r = Types.Normal <-> (pFraud <= 0.5)%Q)
  /\ ONNXInference.confidence_score r
     = JS.Fin (if Qle_bool pFraud pNormal then pNormal else pFraud)
  /\ ONNXInference.confidence_score r = JS.Math_max (JS.Fin pNormal) (JS.Fin pFraud)
  /\ ONNXInference.probability_normal r = JS.Fin pNormal
  /\ ONNXInference.probability_fraud r = JS.Fin pFraud
  /\ (forall p : JS.number * JS.number,
        (ONNXInference.prediction (ONNXInference.postprocess p) = Types.Fraud
         <-> JS.gtb (snd p) (JS.Fin 0.5) = true)
        /\ ONNXInference.confidence_score (ONNXInference.postprocess p)
           = JS.Math_max (fst p) (snd p)).
Proof.
  assert (Hgeneral : forall p : JS.number * JS.number,
            (ONNXInference.prediction (ONNXInference.postprocess p) = Types.Fraud
             <-> JS.gtb (snd p) (JS.Fin 0.5) = true)
            /\ ONNXInference.confidence_score (ONNXInference.postprocess p)
               = JS.Math_max (fst p) (snd p)).
  { intros p. unfold ONNXInference.postprocess;
      cbn [ONNXInference.prediction ONNXInference.confidence_score].
    unfold ModelConfig.PREDICTION_THRESHOLDS.fraud.
    destruct (JS.gtb (snd p) (JS.Fin 0.5)); repeat split; discriminate. }
  cbn zeta. unfold ONNXInference.postprocess; cbn [fst snd
    ONNXInference.prediction ONNXInference.confidence_score
    ONNXInference.probability_normal ONNXInference.probability_fraud].
  unfold ModelConfig.PREDICTION_THRESHOLDS.fraud.
  assert (Hmax : JS.Math_max (JS.Fin pNormal) (JS.Fin pFraud)
                 = JS.Fin (if Qle_bool pFraud pNormal then pNormal else pFraud)).
  { unfold JS.Math_max, JS.ltb, JS.Qlt_bool.
    destruct (Qle_bool pFraud pNormal); reflexivity. }
  destruct (JS.gtb (JS.Fin pFraud) (JS.Fin 0.5)) eqn:E.
  - apply gtb_Fin in E.
    split; [split; [intros _; exact E | reflexivity] |].
    split; [split; [discriminate |] |].
    + intros Hle. exfalso. exact (Qlt_not_le _ _ E Hle).
    + rewrite Hmax. do 4 (split; [reflexivity |]). exact Hgeneral.
  - assert (Hle : (pFraud <= 0.5)%Q).
    { apply Qlt_bool_false_iff. exact E. }
    split; [split; [discriminate |] |].
    + intros Hlt. exfalso. exact (Qlt_not_le _ _ Hlt Hle).
    + split; [split; [intros _; exact Hle | reflexivity] |].
      rewrite Hmax. do 4 (split; [reflexivity |]). exact Hgeneral.
Qed.

(** C1.  [postprocess] takes its risk level from the three-tier
    [getRiskLevel] of utils/index.ts: whatever the probabilities, the
    level is ["Low"] below 0.3, ["Medium"] below 0.7 and ["High"] from
    there on, and it is never the name of the five-tier level of the
    threshold table.  At the README's pair (0.9876, 0.0124) it is ["Low"]
    where the table gives [VERY_LOW]; at (0.05, 0.95) it is ["High"] where
    the table gives [VERY_HIGH]. *)
Theorem postprocess_risk_level_three_tier :
  (forall probabilities,
     let p := snd probabilities in
     let level := ONNXInference.risk_level (ONNXInference.postprocess probabilities) in
     level = (if JS.ltb p (JS.Fin 0.3) then "Low"
              else if JS.ltb p (JS.Fin 0.7) then "Medium" else "High")%string
     /\ String.eqb level (Types.RiskLevel_string (Documented.five_tier_risk_level p)) = false)
  /\ ONNXInference.risk_level
       (ONNXInference.postprocess (JS.Fin 0.9876, JS.Fin 0.0124)) = "Low"%string
  /\ Documented.five_tier_risk_level (JS.Fin 0.0124) = Types.VERY_LOW
  /\ ONNXInference.risk_level
       (ONNXInference.postprocess (JS.Fin 0.05, JS.Fin 0.95)) = "High"%string
  /\ Documented.five_tier_risk_level (JS.Fin 0.95) = Types.VERY_HIGH.
Proof.
  split; [| repeat split; reflexivity].
  intros [pn p]. cbn zeta. cbn [snd].
  unfold ONNXInference.postprocess; cbn [snd ONNXInference.risk_level].
  unfold Utils.getRiskLevel. split; [reflexivity |].
  destruct (JS.ltb p (JS.Fin 0.3)), (JS.ltb p (JS.Fin 0.7));
    destruct (Documented.five_tier_risk_level p); reflexivity.
Qed.

(** ** Unusual hours *)

Lemma of_Z_inj (a b : Z) : JS.of_Z a = JS.of_Z b -> a = b.
Proof. unfold JS.of_Z, inject_Z. intros H. injection H. auto. Qed.

Lemma unusual_hour_test (n : Z) :
  (JS.geb (JS.of_Z n) (JS.Fin 1) && JS.leb (JS.of_Z n) (JS.Fin 5))
  || (JS.geb (JS.of_Z n) (JS.Fin 23) && JS.leb (JS.of_Z n) (JS.Fin 24))
  = ((1 <=? n) && (n <=? 5)) || ((23 <=? n) && (n <=? 24)).
Proof.
  change (JS.Fin 1) with (JS.Fin (inject_Z 1)).
  change (JS.Fin 5) with (JS.Fin (inject_Z 5)).
  change (JS.Fin 23) with (JS.Fin (inject_Z 23)).
  change (JS.Fin 24) with (JS.Fin (inject_Z 24)).
  rewrite !geb_of_Z, !leb_of_Z. reflexivity.
Qed.

(** C8.  [isUnusualHour] is true exactly when the local hour of the
    timestamp lies in [1,5] or in [23,24]; the hour of a date is between 0
    and 23, so this is the same as the hour lying in [1,5] or being 23.
    The copy in RiskIndicators.ts computes the same answer from a [Date]
    and from a string timestamp. *)
Theorem isUnusualHour_characterisation (h : Host.env) (date : JS.Date) :
  let hour := TemporalFeatures.getHours h date in
  (TemporalFeatures.isUnusualHour h date = true
   <-> exists n : Z, hour = JS.of_Z n /\ (1 <= n <= 5 \/ 23 <= n <= 24))
  /\ (TemporalFeatures.isUnusualHour h date = true
      <-> exists n : Z, hour = JS.of_Z n /\ (1 <= n <= 5 \/ n = 23))
  /\ (forall n : Z, hour = JS.of_Z n -> 0 <= n <= 23)
  /\ RiskIndicators.isUnusualHour h (JS.VDate date)
     = Ok (TemporalFeatures.isUnusualHour h date)
  /\ (forall s : string,
        RiskIndicators.isUnusualHour h (JS.VString s)
        = Ok (TemporalFeatures.isUnusualHour h (Date_parse h s))).
Proof.
  cbn zeta. destruct date as [ms |].
  - cbn [TemporalFeatures.getHours].
    set (n0 := (TemporalFeatures.localTime h ms / 3600000) mod 24).
    assert (Hn0 : 0 <= n0 < 24) by (apply Z.mod_pos_bound; lia).
    assert (Htest : TemporalFeatures.isUnusualHour h (JS.ValidDate ms)
                    = ((1 <=? n0) && (n0 <=? 5)) || ((23 <=? n0) && (n0 <=? 24))).
    { unfold TemporalFeatures.isUnusualHour. cbn [TemporalFeatures.getHours].
      fold n0. apply unusual_hour_test. }
    split; [| split; [| split; [| split]]].
    + rewrite Htest. split.
      * intros H. exists n0. split; [reflexivity | lia].
      * intros (n & Hn & Hr). apply of_Z_inj in Hn. subst n. lia.
    + rewrite Htest. split.
      * intros H. exists n0. split; [reflexivity | lia].
      * intros (n & Hn & Hr). apply of_Z_inj in Hn. subst n. lia.
    + intros n Hn. apply of_Z_inj in Hn. lia.
    + reflexivity.
    + intros s. reflexivity.
  - cbn [TemporalFeatures.getHours].
    split; [| split; [| split; [| split]]].
    + split; [discriminate | intros (n & Hn & _); discriminate].
    + split; [discriminate | intros (n & Hn & _); discriminate].
    + intros n Hn. discriminate.
    + reflexivity.
    + intros s. reflexivity.
Qed.

(** ** The scaler *)



Lemma effective_std_zero_stored (s : Scaler.StandardScaler) (feature : string) (q : Q) :
  Scaler.std s !! feature = Some (JS.Fin q) -> (q == 0)%Q ->
  Scaler.effective_std s feature = JS.Fin 1.
Proof.
  intros Hs Hq. unfold Scaler.effective_std, Scaler.reads_inherited.
  rewrite Hs. cbn.
  apply Qeq_bool_iff in Hq. rewrite Hq. reflexivity.
Qed.







(** C2.  A stored standard deviation of zero does not reach the guard of
    [transformSingle]: [this.std[feature] || 1] has already replaced it by
    1, so the value is scaled to [value - mean] and comes back unchanged
    through [inverseTransformSingle].  With mean 5 and standard deviation
    0 stored for [X], 7 is scaled to 2 (not to 0) and restored to 7,
    while the inverse of 0 is the mean 5. *)
Theorem transformSingle_zero_std_unguarded :
  (forall (s : Scaler.StandardScaler) (feature : string) (q : Q) (value : JS.number),
     Scaler.fitted s = true ->
     Scaler.std s !! feature = Some (JS.Fin q) -> (q == 0)%Q ->
     Scaler.transformSingle s feature value
     = Ok (JS.div (JS.sub value (Scaler.effective_mean s feature)) (JS.Fin 1)))
  /\ Scaler.std Scenario.zero_std_scaler !! "X" = Some (JS.Fin 0)
  /\ Scaler.transformSingle Scenario.zero_std_scaler "X" (JS.Fin 7) = Ok (JS.Fin 2)
  /\ Scaler.inverseTransformSingle Scenario.zero_std_scaler "X" (JS.Fin 2)
     = Ok (Scaler.Number (JS.Fin 7))
  /\ Scaler.inverseTransformSingle Scenario.zero_std_scaler "X" (JS.Fin 0)
     = Ok (Scaler.Number (JS.Fin 5)).
Proof.
  split.
  - intros s feature q value Hfit Hs Hq.
    unfold Scaler.transformSingle. rewrite Hfit. cbn [negb].
    rewrite (effective_std_zero_stored s feature q Hs Hq). reflexivity.
  - repeat split; vm_compute; reflexivity.
Qed.

(** ** The pre-processor *)

Lemma Ok_inj {A : Type} (a b : A) : Ok a = Ok b -> a = b.
Proof. intros H. injection H. auto. Qed.

Lemma isRawTransaction_spec (input : gmap string JS.value) :
  FraudPreprocessor.isRawTransaction input = true
  <-> is_Some (input !! "timestamp") /\ input !! "V1" = None.
Proof.
  unfold FraudPreprocessor.isRawTransaction, JS.has.
  destruct (input !! "timestamp"), (input !! "V1"); cbn; split;
    try (intros [[? ?] ?]); try discriminate; intros; eauto.
Qed.

Lemma scale_Time (x : JS.number) :
  Scaler.transformSingle Scaler.createPretrainedScaler "Time" x
  = Ok (JS.div (JS.sub x (JS.Fin 94813.859575)) (JS.Fin 47488.145955)).
Proof. reflexivity. Qed.

Lemma scale_Amount (x : JS.number) :
  Scaler.transformSingle Scaler.createPretrainedScaler "Amount" x
  = Ok (JS.div (JS.sub x (JS.Fin 88.349619)) (JS.Fin 250.120109)).
Proof. reflexivity. Qed.

Lemma assembled_slots (t a : JS.number) :
  let m : gmap string JS.value :=
    <["Amount" := JS.VNumber a]>
      (FraudPreprocessor.getDefaultVFeatures ∪ {["Time" := JS.VNumber t]}) in
  dom m = list_to_set ModelConfig.FEATURE_NAMES
  /\ size m = 30%nat
  /\ m !! "Time" = Some (JS.VNumber t)
  /\ m !! "Amount" = Some (JS.VNumber a)
  /\ (forall name, name ∈ ModelConfig.V_names ->
        m !! name = SampleData.SAMPLE_NORMAL !! name).
Proof.
  cbn zeta.
  assert (Hdom : dom (<["Amount" := JS.VNumber a]>
                        (FraudPreprocessor.getDefaultVFeatures
                           ∪ {["Time" := JS.VNumber t]} : gmap string JS.value))
                 = list_to_set ModelConfig.FEATURE_NAMES).
  { rewrite dom_insert_L, dom_union_L, dom_singleton_L.
    assert (Hd : dom FraudPreprocessor.getDefaultVFeatures
                 = list_to_set ModelConfig.V_names) by (vm_compute; reflexivity).
    rewrite Hd. vm_compute. reflexivity. }
  split; [exact Hdom |]. split.
  - rewrite <- size_dom, Hdom. vm_compute. reflexivity.
  - split; [vm_compute; reflexivity |]. split; [vm_compute; reflexivity |].
    intros name H. unfold ModelConfig.V_names in H.
    repeat (apply elem_of_cons in H; destruct H as [-> | H];
            [vm_compute; reflexivity |]).
    apply elem_of_nil in H. destruct H.
Qed.

(** C9.  [preprocess] takes an input for raw exactly when it has a
    [timestamp] field and no [V1] field.  For a raw input the model input
    has the 30 slots [Time], [V1]..[V28], [Amount]: [Time] is the scaled
    number of seconds since the reference instant, [Amount] the scaled
    amount, and every [V] slot holds the value of [SAMPLE_NORMAL]; a raw
    input of the declared type is always processed.  Any other input is
    returned as the model input, unchanged. *)
Theorem preprocess_model_input (h : Host.env) (input : gmap string JS.value) :
  let raw := FraudPreprocessor.isRawTransaction input in
  let outcome := FraudPreprocessor.preprocess h FraudPreprocessor.new input in
  (raw = true <-> is_Some (input !! "timestamp") /\ input !! "V1" = None)
  /\ (forall r, outcome = Ok r ->
        FraudPreprocessor.isRawInput (FraudPreprocessor.metadata r) = raw)
  /\ (raw = false ->
      exists r, outcome = Ok r /\ FraudPreprocessor.modelInput r = input)
  /\ (raw = true -> FraudPreprocessor.well_typed_raw input = true ->
      exists r, outcome = Ok r)
  /\ (raw = true -> forall r, outcome = Ok r ->
      exists date : JS.Date,
        TemporalFeatures.as_date h (JS.get input "timestamp") = Ok date
        /\ let seconds :=
             TemporalFeatures.getSecondsFromReference TemporalFeatures.new date in
           let amount := ToNumber h (JS.get input "amount") in
           let m := FraudPreprocessor.modelInput r in
           dom m = list_to_set ModelConfig.FEATURE_NAMES
           /\ size m = 30%nat
           /\ m !! "Time"
              = Some (JS.VNumber (JS.div (JS.sub seconds (JS.Fin 94813.859575))
                                         (JS.Fin 47488.145955)))
           /\ m !! "Amount"
              = Some (JS.VNumber (JS.div (JS.sub amount (JS.Fin 88.349619))
                                         (JS.Fin 250.120109)))
           /\ (forall name, name ∈ ModelConfig.V_names ->
                 m !! name = SampleData.SAMPLE_NORMAL !! name)).
Proof.
  cbn zeta. split; [apply isRawTransaction_spec |].
  unfold FraudPreprocessor.preprocess.
  destruct (FraudPreprocessor.isRawTransaction input) eqn:Hraw.
  - (* raw input *)
    unfold TemporalFeatures.extract, AmountFeatures.extract,
      AmountFeatures.scaleAmount, RiskIndicators.calculate,
      FraudPreprocessor.convertToModelInput.
    cbn [FraudPreprocessor.amountExtractor FraudPreprocessor.new
         FraudPreprocessor.scaler FraudPreprocessor.temporalExtractor
         FraudPreprocessor.riskCalculator AmountFeatures.scaler
         AmountFeatures.new].
    rewrite scale_Amount. cbn [Host.bind].
    split; [| split; [discriminate |]]; [| split].
    + intros r.
      destruct (TemporalFeatures.as_date h (JS.get input "timestamp"));
        cbn [Host.bind]; [| discriminate].
      destruct (AmountFeatures.getDecimalPlaces_throws (JS.get input "amount"));
        cbn [Host.bind]; [discriminate |].
      destruct (RiskIndicators.isHighRiskCountry h RiskIndicators.new
                  (JS.get input "country_code")); cbn [Host.bind]; [| discriminate].
      destruct (RiskIndicators.isUnusualHour h (JS.get input "timestamp"));
        cbn [Host.bind]; [| discriminate].
      cbn [TemporalFeatures.seconds_from_first]. rewrite scale_Time.
      cbn [Host.bind]. intros Hr. apply Ok_inj in Hr. subst r. reflexivity.
    + intros _ Hty. unfold FraudPreprocessor.well_typed_raw in Hty.
      apply andb_prop in Hty as [Hty Hcountry].
      apply andb_prop in Hty as [Hts Hamount].
      unfold RiskIndicators.isUnusualHour.
      destruct (JS.get input "timestamp") as [| | s | d]; try discriminate;
        cbn [TemporalFeatures.as_date Host.bind];
        (destruct (JS.get input "amount"); try discriminate;
         cbn [AmountFeatures.getDecimalPlaces_throws Host.bind];
         destruct (JS.get input "country_code") as [| | c |]; try discriminate;
         cbn [RiskIndicators.isHighRiskCountry];
         try destruct (String.eqb c ""); cbn [Host.bind];
         cbn [TemporalFeatures.seconds_from_first]; rewrite scale_Time;
         cbn [Host.bind]; eexists; reflexivity).
    + intros _ r.
      destruct (TemporalFeatures.as_date h (JS.get input "timestamp")) as [date |];
        cbn [Host.bind]; [| discriminate].
      destruct (AmountFeatures.getDecimalPlaces_throws (JS.get input "amount"));
        cbn [Host.bind]; [discriminate |].
      destruct (RiskIndicators.isHighRiskCountry h RiskIndicators.new
                  (JS.get input "country_code")); cbn [Host.bind]; [| discriminate].
      destruct (RiskIndicators.isUnusualHour h (JS.get input "timestamp"));
        cbn [Host.bind]; [| discriminate].
      cbn [TemporalFeatures.seconds_from_first AmountFeatures.scaled_amount].
      rewrite scale_Time. cbn [Host.bind]. intros Hr. apply Ok_inj in Hr. subst r.
      exists date. split; [reflexivity |].
      cbn [FraudPreprocessor.modelInput]. apply assembled_slots.
  - (* anything else passes through *)
    split; [intros r Hr; apply Ok_inj in Hr; subst r; reflexivity |].
    split; [intros _; eexists; split; reflexivity |].
    split; discriminate.
Qed.

(** The specification's scenario: a transaction of 2500 at 03:15 UTC,
    online, from country [ng], seen in a UTC host. *)
Example preprocess_raw_scenario :
  exists r,
    FraudPreprocessor.preprocess Scenario.host FraudPreprocessor.new
      Scenario.raw_transaction = Ok r
    /\ FraudPreprocessor.isRawInput (FraudPreprocessor.metadata r) = true
    /\ TemporalFeatures.is_night
         (FraudPreprocessor.temporal (FraudPreprocessor.features r)) = true
    /\ RiskIndicators.is_high_amount
         (FraudPreprocessor.risk (FraudPreprocessor.features r)) = true
    /\ RiskIndicators.is_high_risk_country
         (FraudPreprocessor.risk (FraudPreprocessor.features r)) = true
    /\ RiskIndicators.is_online
         (FraudPreprocessor.risk (FraudPreprocessor.features r)) = true
    /\ RiskIndicators.is_unusual_hour
         (FraudPreprocessor.risk (FraudPreprocessor.features r)) = true.
Proof.
  eexists. split; [vm_compute; reflexivity |]. repeat split.
Qed.

(** ** The inference engine: unfolding equations *)

Import ONNXInference.

Lemma getFromCache_eq (h : Host.env) (tx : gmap string JS.value) (now : Z)
    (e : ONNXInference) :
  getFromCache h tx now e
  = match getCacheKey h tx with
    | Throw x => (e, Throw x)
    | Ok key =>
        match JSMap.get (cache e) key with
        | None => (e, Ok None)
        | Some entry =>
            if now - timestamp entry >? maxAge
            then (with_cache e (JSMap.delete (cache e) key), Ok None)
            else (e, Ok (Some (result entry)))
        end
    end.
Proof.
  unfold getFromCache, and_then, lift, read, update, ret.
  destruct (getCacheKey h tx) as [key | x]; [| reflexivity].
  destruct (JSMap.get (cache e) key) as [entry |]; [| reflexivity].
  destruct (now - timestamp entry >? maxAge); reflexivity.
Qed.

Lemma addToCache_eq (h : Host.env) (tx : gmap string JS.value)
    (r : InferenceResult) (now : Z) (e : ONNXInference) :
  addToCache h tx r now e
  = match getCacheKey h tx with
    | Throw x => (evict_oldest e, Throw x)
    | Ok key =>
        (with_cache (evict_oldest e)
           (JSMap.set (cache (evict_oldest e)) key
              {| input := key; result := r; timestamp := now |}),
         Ok tt)
    end.
Proof.
  unfold addToCache, and_then, lift, read, update, ret.
  destruct (getCacheKey h tx); reflexivity.
Qed.

Lemma predict_miss_eq (h : Host.env) (tx : gmap string JS.value)
    (o : InferenceOptions) (clk : Clock) (e : ONNXInference) :
  predict_miss h tx o clk e
  = let e1 := count_cache_miss e in
    match transactionToFeatures tx with
    | Throw x => (e1, Throw x)
    | Ok features =>
        let v := ModelConfig.validateFeatureValues features in
        if negb (ModelConfig.valid v)
        then (e1, Throw (InvalidInputValues (ModelConfig.errors v)))
        else
          match session e1 with
          | None => (e1, Throw ModelNotLoaded)
          | Some _ =>
              let e2 := with_run_log e1 (features :: run_log e1) in
              match session_run h features with
              | None => (e2, Throw InferenceFailed)
              | Some probabilities =>
                  let e3 := count_prediction (inferenceTime clk) e2 in
                  let r := build_result o clk (postprocess probabilities) in
                  if cache_enabled o then
                    match addToCache h tx r (insertNow clk) e3 with
                    | (e4, Ok _) => (e4, Ok r)
                    | (e4, Throw x) => (e4, Throw x)
                    end
                  else (e3, Ok r)
              end
          end
    end.
Proof.
  unfold predict_miss, runInference, and_then, lift, read, update, ret, throw.
  cbv zeta.
  destruct (transactionToFeatures tx) as [features | x]; [| reflexivity].
  destruct (negb (ModelConfig.valid (ModelConfig.validateFeatureValues features)));
    [reflexivity |].
  destruct (session (count_cache_miss e)); [| reflexivity].
  destruct (session_run h features) as [probabilities |]; [| reflexivity].
  destruct (cache_enabled o); [| reflexivity].
  destruct (addToCache h tx _ (insertNow clk) _) as [e4 [[] | x]]; reflexivity.
Qed.

Lemma predict_eq (h : Host.env) (tx : gmap string JS.value)
    (o : InferenceOptions) (clk : Clock) (e : ONNXInference) :
  predict h tx o clk e
  = if negb (isModelLoaded e) || negb (bool_decide (is_Some (session e)))
    then (e, Throw ModelNotLoaded)
    else if cache_enabled o then
      match getFromCache h tx (lookupNow clk) e with
      | (e1, Ok (Some c)) => (count_cache_hit e1, Ok (mark_cached c))
      | (e1, Ok None) => predict_miss h tx o clk e1
      | (e1, Throw x) => (e1, Throw x)
      end
    else predict_miss h tx o clk e.
Proof.
  unfold predict, and_then, read, update, ret, throw.
  destruct (negb (isModelLoaded e) || negb (bool_decide (is_Some (session e))));
    [reflexivity |].
  destruct (cache_enabled o); [| reflexivity].
  destruct (getFromCache h tx (lookupNow clk) e) as [e1 [[c |] | x]]; reflexivity.
Qed.

(** ** The map behind the cache *)

Lemma JSMap_get_set_same {V : Type} (m : list (string * V)) (k : string) (v : V) :
  JSMap.get (JSMap.set m k v) k = Some v.
Proof.
  induction m as [| [k' v'] m IH]; cbn.
  - rewrite String.eqb_refl. reflexivity.
  - destruct (String.eqb k' k) eqn:E; cbn.
    + rewrite String.eqb_refl. reflexivity.
    + rewrite E. exact IH.
Qed.

Lemma JSMap_size_set {V : Type} (m : list (string * V)) (k : string) (v : V) :
  (JSMap.size (JSMap.set m k v) <= S (JSMap.size m))%nat.
Proof.
  unfold JSMap.size. induction m as [| [k' v'] m IH]; cbn.
  - lia.
  - destruct (String.eqb k' k); cbn; lia.
Qed.

Lemma JSMap_size_delete {V : Type} (m : list (string * V)) (k : string) :
  (JSMap.size (JSMap.delete m k) <= JSMap.size m)%nat.
Proof.
  unfold JSMap.size. induction m as [| [k' v'] m IH]; cbn.
  - lia.
  - destruct (String.eqb k' k); cbn; lia.
Qed.

Lemma JSMap_keys_set {V : Type} (P : string -> Prop) (m : list (string * V))
    (k : string) (v : V) :
  Forall (fun kv => P (fst kv)) m -> P k ->
  Forall (fun kv => P (fst kv)) (JSMap.set m k v).
Proof.
  intros Hm Hk. induction Hm as [| [k' v'] m Hk' Hm IH]; cbn.
  - constructor; [exact Hk | constructor].
  - destruct (String.eqb k' k); constructor; auto.
Qed.

Lemma JSMap_keys_delete {V : Type} (P : string -> Prop) (m : list (string * V))
    (k : string) :
  Forall (fun kv => P (fst kv)) m ->
  Forall (fun kv => P (fst kv)) (JSMap.delete m k).
Proof.
  intros Hm. induction Hm as [| [k' v'] m Hk' Hm IH]; cbn.
  - constructor.
  - destruct (String.eqb k' k); [exact Hm | constructor; auto].
Qed.

(** A cache key is never the empty string: it holds three separators. *)
Lemma getCacheKey_truthy (h : Host.env) (tx : gmap string JS.value) (key : string) :
  getCacheKey h tx = Ok key -> truthy_string key = true.
Proof.
  unfold getCacheKey.
  destruct (toFixed4 h (JS.get tx "Time")) as [t |]; [| discriminate].
  destruct (toFixed4 h (JS.get tx "V1")) as [v1 |]; [| discriminate].
  destruct (toFixed4 h (JS.get tx "V2")) as [v2 |]; [| discriminate].
  destruct (toFixed4 h (JS.get tx "Amount")) as [a |]; [| discriminate].
  cbn [Host.bind]. intros Hk. apply Ok_inj in Hk. subst key.
  destruct t; reflexivity.
Qed.

(** ** The capacity of the cache *)

Import Predicates.

Lemma evict_oldest_full (e : ONNXInference) :
  cache_invariant e ->
  (maxCacheSize e <= JSMap.size (cache e))%nat ->
  exists k0 entry0 rest,
    cache e = (k0, entry0) :: rest
    /\ evict_oldest e = with_cache e rest.
Proof.
  intros (Hmax & Hsize & Hkeys) Hfull. unfold evict_oldest.
  apply Nat.leb_le in Hfull. rewrite Hfull.
  destruct (cache e) as [| [k0 entry0] rest] eqn:Hc.
  - apply Nat.leb_le in Hfull. rewrite Hmax in Hfull. cbn in Hfull. lia.
  - exists k0, entry0, rest. split; [reflexivity |].
    cbn [JSMap.first_key]. inversion Hkeys as [| ? ? Hk0 Hrest]; subst.
    cbn [fst] in Hk0. rewrite Hk0. cbn [JSMap.delete].
    rewrite String.eqb_refl. reflexivity.
Qed.

Lemma evict_oldest_invariant (e : ONNXInference) :
  cache_invariant e ->
  cache_invariant (evict_oldest e)
  /\ (JSMap.size (cache (evict_oldest e)) <= 99)%nat.
Proof.
  intros Hinv.
  destruct (Nat.leb (maxCacheSize e) (JSMap.size (cache e))) eqn:Hfull.
  - apply Nat.leb_le in Hfull.
    destruct (evict_oldest_full e Hinv Hfull) as (k0 & entry0 & rest & Hc & Hev).
    rewrite Hev. destruct Hinv as (Hmax & Hsize & Hkeys).
    rewrite Hc in Hsize, Hkeys. unfold JSMap.size in *. cbn in Hsize.
    inversion Hkeys; subst.
    unfold cache_invariant, JSMap.size. cbn. repeat split; auto; lia.
  - unfold evict_oldest. rewrite Hfull. split; [exact Hinv |].
    apply Nat.leb_gt in Hfull. destruct Hinv as (Hmax & _ & _). lia.
Qed.

Lemma addToCache_invariant (h : Host.env) (tx : gmap string JS.value)
    (r : InferenceResult) (now : Z) (e : ONNXInference) :
  cache_invariant e -> cache_invariant (fst (addToCache h tx r now e)).
Proof.
  intros Hinv. rewrite addToCache_eq.
  destruct (evict_oldest_invariant e Hinv) as [Hinv' Hsize].
  destruct (getCacheKey h tx) as [key |] eqn:Hkey; [| exact Hinv'].
  cbn [fst]. destruct Hinv' as (Hmax & _ & Hkeys).
  unfold cache_invariant. cbn [maxCacheSize cache with_cache].
  split; [exact Hmax |]. split.
  - pose proof (JSMap_size_set (cache (evict_oldest e)) key
                  {| input := key; result := r; timestamp := now |}). lia.
  - apply (JSMap_keys_set (fun k => truthy_string k = true)); [exact Hkeys |].
    exact (getCacheKey_truthy h tx key Hkey).
Qed.

Lemma getFromCache_invariant (h : Host.env) (tx : gmap string JS.value)
    (now : Z) (e : ONNXInference) :
  cache_invariant e -> cache_invariant (fst (getFromCache h tx now e)).
Proof.
  intros Hinv. rewrite getFromCache_eq.
  destruct (getCacheKey h tx) as [key |]; [| exact Hinv].
  destruct (JSMap.get (cache e) key) as [entry |]; [| exact Hinv].
  destruct (now - timestamp entry >? maxAge); [| exact Hinv].
  destruct Hinv as (Hmax & Hsize & Hkeys). cbn [fst].
  unfold cache_invariant. cbn [maxCacheSize cache with_cache].
  split; [exact Hmax |]. split.
  - pose proof (JSMap_size_delete (cache e) key). lia.
  - apply (JSMap_keys_delete (fun k => truthy_string k = true)). exact Hkeys.
Qed.

Lemma predict_miss_invariant (h : Host.env) (tx : gmap string JS.value)
    (o : InferenceOptions) (clk : Clock) (e : ONNXInference) :
  cache_invariant e -> cache_invariant (fst (predict_miss h tx o clk e)).
Proof.
  intros Hinv. rewrite predict_miss_eq. cbv zeta.
  destruct (transactionToFeatures tx) as [features |]; [| exact Hinv].
  destruct (negb _); [exact Hinv |].
  destruct (session (count_cache_miss e)); [| exact Hinv].
  destruct (session_run h features) as [probabilities |]; [| exact Hinv].
  destruct (cache_enabled o); [| exact Hinv].
  match goal with
  | |- context [addToCache h tx ?r ?n ?e3] =>
      pose proof (addToCache_invariant h tx r n e3 Hinv) as Hadd;
      destruct (addToCache h tx r n e3) as [e4 [[] |]]
  end; exact Hadd.
Qed.

Lemma predict_invariant (h : Host.env) (tx : gmap string JS.value)
    (o : InferenceOptions) (clk : Clock) (e : ONNXInference) :
  cache_invariant e -> cache_invariant (fst (predict h tx o clk e)).
Proof.
  intros Hinv. rewrite predict_eq.
  destruct (negb (isModelLoaded e) || negb (bool_decide (is_Some (session e))));
    [exact Hinv |].
  destruct (cache_enabled o); [| apply predict_miss_invariant; exact Hinv].
  pose proof (getFromCache_invariant h tx (lookupNow clk) e Hinv) as Hget.
  destruct (getFromCache h tx (lookupNow clk) e) as [e1 [[c |] |]];
    cbn [fst] in Hget.
  - exact Hget.
  - apply predict_miss_invariant. exact Hget.
  - exact Hget.
Qed.

Lemma step_invariant (h : Host.env) (e : ONNXInference) (c : History.call) :
  cache_invariant e -> cache_invariant (History.step h e c).
Proof.
  intros Hinv. destruct c as [created | tx o clk | |]; cbn [History.step].
  - unfold loadModel, and_then, read, update, ret, throw.
    destruct (isModelLoaded e); [exact Hinv |].
    destruct created; exact Hinv.
  - apply predict_invariant. exact Hinv.
  - destruct Hinv as (Hmax & _ & _). unfold cache_invariant, JSMap.size.
    cbn. repeat split; auto; lia.
  - unfold dispose, clearCache, and_then, read, update, ret.
    destruct (session e); [| exact Hinv].
    destruct Hinv as (Hmax & _ & _). unfold cache_invariant, JSMap.size.
    cbn. repeat split; auto; lia.
Qed.

Lemma run_invariant (h : Host.env) (calls : list History.call) (e : ONNXInference) :
  cache_invariant e -> cache_invariant (History.run h calls e).
Proof.
  revert e. induction calls as [| c calls IH]; intros e Hinv; cbn.
  - exact Hinv.
  - apply IH. apply step_invariant. exact Hinv.
Qed.

Lemma new_invariant : cache_invariant new.
Proof.
  unfold cache_invariant, JSMap.size. cbn. repeat split; auto; lia.
Qed.


(** ** Validation of the input vector *)

Lemma collect_features_Ok (tx : gmap string JS.value) (names : list string)
    (features : list JS.number) :
  collect_features tx names = Ok features ->
  first_non_number tx names = None
  /\ length features = length names
  /\ (forall i name, names !! i = Some name ->
        exists v, JS.get tx name = JS.VNumber v /\ features !! i = Some v).
Proof.
  revert features. induction names as [| n names IH]; intros features; cbn.
  - intros H. apply Ok_inj in H. subst features.
    split; [reflexivity |]. split; [reflexivity |]. intros i name Hi.
    destruct i; discriminate.
  - destruct (JS.get tx n) as [| v | |] eqn:Hn; try discriminate.
    destruct (collect_features tx names) as [rest |]; [| discriminate].
    cbn [Host.bind]. intros H. apply Ok_inj in H. subst features.
    destruct (IH rest eq_refl) as (Hfirst & Hlen & Hall).
    unfold first_non_number in *. cbn [List.find]. try rewrite Hn. cbn.
    split; [exact Hfirst |]. split; [rewrite Hlen; reflexivity |].
    intros [| i] name Hi; cbn in Hi.
    + injection Hi as <-. exists v. split; [exact Hn | reflexivity].
    + exact (Hall i name Hi).
Qed.

Lemma collect_features_Throw (tx : gmap string JS.value) (names : list string)
    (x : exn) :
  collect_features tx names = Throw x ->
  exists name, first_non_number tx names = Some name
               /\ x = MissingOrInvalidFeature name.
Proof.
  induction names as [| n names IH]; cbn; [discriminate |].
  unfold first_non_number in *. cbn [List.find].
  destruct (JS.get tx n) as [| v | |] eqn:Hn; cbn;
    try (intros [= <-]; exists n; split; reflexivity).
  destruct (collect_features tx names) as [rest |]; cbn [Host.bind];
    [discriminate |].
  intros [= <-]. apply IH. reflexivity.
Qed.

Lemma FEATURE_VALIDATION_total :
  Forall (fun name => is_Some (ModelConfig.FEATURE_VALIDATION !! name))
         ModelConfig.FEATURE_NAMES.
Proof.
  unfold ModelConfig.FEATURE_NAMES.
  repeat (constructor; [vm_compute; eauto |]). constructor.
Qed.

Lemma check_feature_not_finite (index : nat) (name : string) (v : JS.number) :
  ModelConfig.FEATURE_NAMES !! index = Some name ->
  JS.isFinite v = false ->
  In (InvalidValue name v) (ModelConfig.check_feature v index).
Proof.
  intros Hname Hv. unfold ModelConfig.check_feature. rewrite Hname.
  assert (Hval : is_Some (ModelConfig.FEATURE_VALIDATION !! name)).
  { pose proof FEATURE_VALIDATION_total as Hall.
    rewrite Forall_forall in Hall. apply Hall.
    apply list_elem_of_lookup. exists index. exact Hname. }
  destruct Hval as [[lo hi] Hval]. rewrite Hval. rewrite Hv. cbn [negb orb].
  apply in_or_app. right. left. reflexivity.
Qed.

Lemma check_from_not_finite (index : nat) (features : list JS.number)
    (i : nat) (name : string) (v : JS.number) :
  features !! i = Some v ->
  ModelConfig.FEATURE_NAMES !! (index + i)%nat = Some name ->
  JS.isFinite v = false ->
  In (InvalidValue name v) (ModelConfig.check_from index features).
Proof.
  revert index i. induction features as [| w features IH]; intros index i Hi Hname Hv.
  - destruct i; discriminate.
  - cbn [ModelConfig.check_from]. apply in_or_app. destruct i as [| i].
    + left. cbn in Hi. injection Hi as ->.
      rewrite Nat.add_0_r in Hname.
      exact (check_feature_not_finite index name v Hname Hv).
    + right. apply (IH (S index) i); [exact Hi | | exact Hv].
      rewrite <- Hname. f_equal. lia.
Qed.

(** When every slot holds a number and one of them is not finite, the
    vector is rejected and every such slot has its own message. *)
Lemma validateFeatureValues_not_finite (tx : gmap string JS.value)
    (features : list JS.number) :
  transactionToFeatures tx = Ok features ->
  (exists name, name ∈ ModelConfig.FEATURE_NAMES /\ invalid_slot tx name = true) ->
  let validation := ModelConfig.validateFeatureValues features in
  ModelConfig.valid validation = false
  /\ (forall name, name ∈ ModelConfig.FEATURE_NAMES ->
        invalid_slot tx name = true ->
        exists v, JS.get tx name = JS.VNumber v
                  /\ In (InvalidValue name v) (ModelConfig.errors validation)).
Proof.
  intros Hfeat Hbad. cbn zeta.
  destruct (collect_features_Ok tx _ features Hfeat) as (_ & Hlen & Hall).
  unfold ModelConfig.validateFeatureValues.
  assert (Hlen30 : Nat.eqb (length features) 30 = true).
  { rewrite Hlen. reflexivity. }
  rewrite Hlen30. cbn [negb ModelConfig.valid ModelConfig.errors].
  assert (Hlisted : forall name, name ∈ ModelConfig.FEATURE_NAMES ->
            invalid_slot tx name = true ->
            exists v, JS.get tx name = JS.VNumber v
                      /\ In (InvalidValue name v)
                            (ModelConfig.check_from 0 features)).
  { intros name Hin Hinv. apply list_elem_of_lookup in Hin as [i Hi].
    destruct (Hall i name Hi) as (v & Hget & Hfi).
    exists v. split; [exact Hget |].
    apply (check_from_not_finite 0 features i name v Hfi Hi).
    unfold invalid_slot in Hinv. rewrite Hget in Hinv.
    apply negb_true_iff in Hinv. exact Hinv. }
  split; [| exact Hlisted].
  destruct Hbad as (name & Hin & Hinv).
  destruct (Hlisted name Hin Hinv) as (v & _ & Hmem).
  destruct (ModelConfig.check_from 0 features); [destruct Hmem | reflexivity].
Qed.

Lemma getCacheKey_Throw (h : Host.env) (tx : gmap string JS.value) (x : exn) :
  getCacheKey h tx = Throw x -> x = TypeError.
Proof.
  unfold getCacheKey, toFixed4.
  destruct (JS.get tx "Time"); cbn [Host.bind]; try (intros [= <-]; reflexivity).
  destruct (JS.get tx "V1"); cbn [Host.bind]; try (intros [= <-]; reflexivity).
  destruct (JS.get tx "V2"); cbn [Host.bind]; try (intros [= <-]; reflexivity).
  destruct (JS.get tx "Amount"); cbn [Host.bind]; intros [= <-]; reflexivity.
Qed.

Lemma names_listed (errors : list validation_issue) (name : string) (v : JS.number) :
  In (InvalidValue name v) errors ->
  names (InvalidInputValues errors) name = true.
Proof.
  intros Hin. unfold names, fields_named. apply existsb_exists.
  exists name. split; [| apply String.eqb_refl].
  apply in_flat_map. exists (InvalidValue name v). split; [exact Hin |].
  left. reflexivity.
Qed.

Lemma predict_miss_invalid (h : Host.env) (tx : gmap string JS.value)
    (o : InferenceOptions) (clk : Clock) (e : ONNXInference) :
  (exists name, name ∈ ModelConfig.FEATURE_NAMES /\ invalid_slot tx name = true) ->
  exists e' x,
    predict_miss h tx o clk e = (e', Throw x)
    /\ run_log e' = run_log e
    /\ ((exists name, first_non_number tx ModelConfig.FEATURE_NAMES = Some name
                      /\ x = MissingOrInvalidFeature name)
        \/ (first_non_number tx ModelConfig.FEATURE_NAMES = None
            /\ exists errors, x = InvalidInputValues errors
               /\ forall name, name ∈ ModelConfig.FEATURE_NAMES ->
                    invalid_slot tx name = true -> names x name = true)).
Proof.
  intros Hbad. rewrite predict_miss_eq. cbv zeta.
  destruct (transactionToFeatures tx) as [features | x] eqn:Hfeat.
  - destruct (validateFeatureValues_not_finite tx features Hfeat Hbad)
      as [Hvalid Hlisted].
    rewrite Hvalid. cbn [negb].
    eexists. eexists. split; [reflexivity |]. split; [reflexivity |].
    right. split.
    + apply (collect_features_Ok tx _ features Hfeat).
    + eexists. split; [reflexivity |]. intros name Hin Hinv.
      destruct (Hlisted name Hin Hinv) as (v & _ & Hmem).
      exact (names_listed _ name v Hmem).
  - eexists. eexists. split; [reflexivity |]. split; [reflexivity |].
    left. apply (collect_features_Throw tx _ x Hfeat).
Qed.

(** C4 (as amended).  On a loaded engine, take a call that is not
    answered from the cache (and, when the cache is enabled, whose four key
    slots hold numbers) and whose input has a slot that is missing or not
    a finite number.  The call throws and the model is not invoked.  When
    every slot holds a number, the exception is the validation error and
    names every slot that is not finite.  When some slot does not hold a
    number, the exception names the first such slot in feature order. *)
Theorem predict_rejects_invalid_input (h : Host.env) (e : ONNXInference)
    (tx : gmap string JS.value) (o : InferenceOptions) (clk : Clock) :
  isModelLoaded e = true ->
  is_Some (session e) ->
  answered_from_cache h tx o clk e = false ->
  (cache_enabled o = true -> exists key, getCacheKey h tx = Ok key) ->
  (exists name, name ∈ ModelConfig.FEATURE_NAMES /\ invalid_slot tx name = true) ->
  exists e' x,
    predict h tx o clk e = (e', Throw x)
    /\ run_log e' = run_log e
    /\ ((exists name, first_non_number tx ModelConfig.FEATURE_NAMES = Some name
                      /\ x = MissingOrInvalidFeature name)
        \/ (first_non_number tx ModelConfig.FEATURE_NAMES = None
            /\ exists errors, x = InvalidInputValues errors
               /\ forall name, name ∈ ModelConfig.FEATURE_NAMES ->
                    invalid_slot tx name = true -> names x name = true)).
Proof.
  intros Hloaded Hsession Hmiss Hkeyed Hbad. rewrite predict_eq, Hloaded.
  rewrite (bool_decide_eq_true_2 _ Hsession). cbn [negb orb].
  unfold answered_from_cache in Hmiss.
  destruct (cache_enabled o) eqn:Hcache.
  - cbn [andb] in Hmiss. rewrite getFromCache_eq in Hmiss |- *.
    destruct (Hkeyed eq_refl) as [key Hkey]. rewrite Hkey in Hmiss |- *.
    destruct (JSMap.get (cache e) key) as [entry |].
    + destruct (lookupNow clk - timestamp entry >? maxAge); [| discriminate].
      exact (predict_miss_invalid h tx o clk
               (with_cache e (JSMap.delete (cache e) key)) Hbad).
    + exact (predict_miss_invalid h tx o clk e Hbad).
  - exact (predict_miss_invalid h tx o clk e Hbad).
Qed.

Lemma predict_rejects_invalid_input_witness :
  exists e' x,
    predict Scenario.host Scenario.two_slots_not_finite Scenario.default_options
      (Scenario.clock_at 1000) Scenario.loaded = (e', Throw x)
    /\ run_log e' = run_log Scenario.loaded
    /\ ((exists name,
           first_non_number Scenario.two_slots_not_finite
             ModelConfig.FEATURE_NAMES = Some name
           /\ x = MissingOrInvalidFeature name)
        \/ (first_non_number Scenario.two_slots_not_finite
              ModelConfig.FEATURE_NAMES = None
            /\ exists errors, x = InvalidInputValues errors
               /\ forall name, name ∈ ModelConfig.FEATURE_NAMES ->
                    invalid_slot Scenario.two_slots_not_finite name = true ->
                    names x name = true)).
Proof.
  apply (predict_rejects_invalid_input Scenario.host Scenario.loaded
           Scenario.two_slots_not_finite Scenario.default_options
           (Scenario.clock_at 1000)).
  - reflexivity.
  - exists Session. reflexivity.
  - vm_compute. reflexivity.
  - intros _. eexists. vm_compute. reflexivity.
  - exists "V3"%string. split.
    + unfold ModelConfig.FEATURE_NAMES.
      repeat (apply list_elem_of_here || apply list_elem_of_further).
    + vm_compute. reflexivity.
Defined.

(** Counterexample to C4 as the specification words it.  With [V3] and
    [V7] both missing, [predict]
    throws ["Missing or invalid feature: V3"], which does not name [V7].
    And once a valid vector has been cached, a vector with the same
    [Time], [V1], [V2] and [Amount] but [NaN] in [V3] and [Infinity] in
    [V7] is answered from the cache with no error at all. *)
Lemma predict_names_only_first_missing_slot :
  snd (predict Scenario.host Scenario.two_slots_missing Scenario.no_cache
         (Scenario.clock_at 1000) Scenario.loaded)
  = Throw (MissingOrInvalidFeature "V3")
  /\ invalid_slot Scenario.two_slots_missing "V3" = true
  /\ invalid_slot Scenario.two_slots_missing "V7" = true
  /\ names (MissingOrInvalidFeature "V3") "V7" = false
  /\ invalid_slot Scenario.two_slots_not_finite "V3" = true
  /\ snd (predict Scenario.host Scenario.two_slots_not_finite
            Scenario.default_options (Scenario.clock_at 2000)
            (fst (predict Scenario.host SampleData.SAMPLE_NORMAL
                    Scenario.default_options (Scenario.clock_at 1000)
                    Scenario.loaded)))
     = Ok (mark_cached
             (build_result Scenario.default_options (Scenario.clock_at 1000)
                (postprocess (JS.Fin 0.9876, JS.Fin 0.0124)))).
Proof.
  repeat split; vm_compute; reflexivity.
Qed.

(** ** What one call does to the engine *)

(** A vector that passes [transactionToFeatures] has a cache key. *)
Lemma features_have_key (h : Host.env) (tx : gmap string JS.value)
    (features : list JS.number) :
  transactionToFeatures tx = Ok features ->
  exists key, getCacheKey h tx = Ok key.
Proof.
  intros Hfeat.
  destruct (collect_features_Ok tx _ features Hfeat) as (_ & _ & Hall).
  destruct (Hall 0%nat "Time"%string eq_refl) as (t & Ht & _).
  destruct (Hall 1%nat "V1"%string eq_refl) as (v1 & Hv1 & _).
  destruct (Hall 2%nat "V2"%string eq_refl) as (v2 & Hv2 & _).
  destruct (Hall 29%nat "Amount"%string eq_refl) as (a & Ha & _).
  unfold getCacheKey. rewrite Ht, Hv1, Hv2, Ha. cbn [toFixed4 Host.bind].
  eexists. reflexivity.
Qed.

Lemma evict_oldest_fields (e : ONNXInference) :
  session (evict_oldest e) = session e
  /\ isModelLoaded (evict_oldest e) = isModelLoaded e
  /\ maxCacheSize (evict_oldest e) = maxCacheSize e
  /\ stats (evict_oldest e) = stats e
  /\ run_log (evict_oldest e) = run_log e.
Proof.
  unfold evict_oldest.
  destruct (Nat.leb (maxCacheSize e) (JSMap.size (cache e)));
    [destruct (JSMap.first_key (cache e)) as [k |];
       [destruct (truthy_string k) |] |];
    repeat split.
Qed.

(** The eviction step only looks at the capacity and the cache. *)
Lemma evict_oldest_cache (e e0 : ONNXInference) :
  maxCacheSize e = maxCacheSize e0 -> cache e = cache e0 ->
  cache (evict_oldest e) = cache (evict_oldest e0).
Proof.
  intros Hmax Hcache. unfold evict_oldest. rewrite Hmax, Hcache.
  destruct (Nat.leb (maxCacheSize e0) (JSMap.size (cache e0)));
    [destruct (JSMap.first_key (cache e0)) as [k |];
       [destruct (truthy_string k) |] |];
    cbn [cache with_cache]; auto.
Qed.

Lemma predict_miss_outcome (h : Host.env) (tx : gmap string JS.value)
    (o : InferenceOptions) (clk : Clock) (e e' : ONNXInference)
    (out : outcome InferenceResult) :
  predict_miss h tx o clk e = (e', out) ->
  isModelLoaded e' = isModelLoaded e
  /\ session e' = session e
  /\ cacheHits (stats e') = cacheHits (stats e)
  /\ cacheMisses (stats e') = S (cacheMisses (stats e))
  /\ match out with
     | Throw x =>
         totalPredictions (stats e') = totalPredictions (stats e)
         /\ totalInferenceTime (stats e') = totalInferenceTime (stats e)
         /\ cache e' = cache e
         /\ (run_log e' = run_log e
             \/ (x = InferenceFailed /\ exists f, run_log e' = f :: run_log e))
     | Ok r =>
         exists features probabilities,
           transactionToFeatures tx = Ok features
           /\ ModelConfig.valid (ModelConfig.validateFeatureValues features) = true
           /\ session_run h features = Some probabilities
           /\ r = build_result o clk (postprocess probabilities)
           /\ run_log e' = features :: run_log e
           /\ totalPredictions (stats e') = S (totalPredictions (stats e))
           /\ totalInferenceTime (stats e')
              = JS.add (totalInferenceTime (stats e)) (inferenceTime clk)
           /\ (if cache_enabled o then
                 exists key,
                   getCacheKey h tx = Ok key
                   /\ cache e'
                      = JSMap.set (cache (evict_oldest e)) key
                          {| input := key; result := r;
                             timestamp := insertNow clk |}
               else cache e' = cache e)
     end.
Proof.
  rewrite predict_miss_eq. cbv zeta.
  destruct (transactionToFeatures tx) as [features | x] eqn:Hfeat.
  2: { intros [= <- <-]. repeat split. left. reflexivity. }
  destruct (ModelConfig.valid (ModelConfig.validateFeatureValues features)) eqn:Hvalid;
    cbn [negb].
  2: { intros [= <- <-]. repeat split. left. reflexivity. }
  destruct (session (count_cache_miss e)) eqn:Hsession.
  2: { intros [= <- <-]. repeat split. left. reflexivity. }
  destruct (session_run h features) as [probabilities |] eqn:Hrun.
  2: { intros [= <- <-]. repeat split. right. split; [reflexivity |].
       eexists. reflexivity. }
  destruct (cache_enabled o) eqn:Hcache.
  2: { intros [= <- <-]. repeat split.
       exists features, probabilities. repeat split; assumption. }
  rewrite addToCache_eq.
  destruct (features_have_key h tx features Hfeat) as [key Hkey].
  rewrite Hkey. intros [= <- <-].
  match goal with
  | |- context [evict_oldest ?e3] =>
      destruct (evict_oldest_fields e3) as (Hs & Hl & Hm & Hst & Hlog);
      pose proof (evict_oldest_cache e3 e eq_refl eq_refl) as Hc
  end.
  cbn [session isModelLoaded stats run_log cache with_cache].
  rewrite Hs, Hl, Hst, Hlog, Hc.
  repeat split.
  exists features, probabilities.
  repeat split; try assumption.
  exists key. split; reflexivity.
Qed.

Lemma loaded_guard (e : ONNXInference) :
  negb (isModelLoaded e) || negb (bool_decide (is_Some (session e))) = false
  <-> isModelLoaded e = true /\ is_Some (session e).
Proof.
  rewrite orb_false_iff, !negb_false_iff, bool_decide_eq_true. reflexivity.
Qed.

(** The state [predict] hands to [predict_miss]: the cache may have lost
    an expired entry, nothing else has changed. *)
Lemma getFromCache_miss (h : Host.env) (tx : gmap string JS.value) (now : Z)
    (e e1 : ONNXInference) :
  getFromCache h tx now e = (e1, Ok None) ->
  session e1 = session e /\ isModelLoaded e1 = isModelLoaded e
  /\ stats e1 = stats e /\ run_log e1 = run_log e.
Proof.
  rewrite getFromCache_eq.
  destruct (getCacheKey h tx) as [key |]; [| discriminate].
  destruct (JSMap.get (cache e) key) as [entry |].
  - destruct (now - timestamp entry >? maxAge); [| discriminate].
    intros [= <-]. repeat split.
  - intros [= <-]. repeat split.
Qed.

Lemma getFromCache_hit (h : Host.env) (tx : gmap string JS.value) (now : Z)
    (e e1 : ONNXInference) (c : InferenceResult) :
  getFromCache h tx now e = (e1, Ok (Some c)) ->
  e1 = e
  /\ exists key entry,
       getCacheKey h tx = Ok key
       /\ JSMap.get (cache e) key = Some entry
       /\ (now - timestamp entry >? maxAge) = false
       /\ c = result entry.
Proof.
  rewrite getFromCache_eq.
  destruct (getCacheKey h tx) as [key |] eqn:Hkey; [| discriminate].
  destruct (JSMap.get (cache e) key) as [entry |] eqn:Hentry; [| discriminate].
  destruct (now - timestamp entry >? maxAge) eqn:Hage; [discriminate |].
  intros [= <- <-]. split; [reflexivity |].
  exists key, entry. repeat split; assumption.
Qed.

Lemma getFromCache_Throw (h : Host.env) (tx : gmap string JS.value) (now : Z)
    (e e1 : ONNXInference) (x : exn) :
  getFromCache h tx now e = (e1, Throw x) -> e1 = e.
Proof.
  rewrite getFromCache_eq.
  destruct (getCacheKey h tx) as [key |].
  - destruct (JSMap.get (cache e) key) as [entry |]; [| discriminate].
    destruct (now - timestamp entry >? maxAge); discriminate.
  - intros [= <- _]. reflexivity.
Qed.

(** A call that returns a result either was answered from the cache or
    ran the model once. *)
Lemma predict_Ok (h : Host.env) (tx : gmap string JS.value)
    (o : InferenceOptions) (clk : Clock) (e e' : ONNXInference)
    (r : InferenceResult) :
  predict h tx o clk e = (e', Ok r) ->
  isModelLoaded e' = true /\ is_Some (session e')
  /\ ((cache_enabled o = true
       /\ e' = count_cache_hit e
       /\ exists key entry,
            getCacheKey h tx = Ok key
            /\ JSMap.get (cache e) key = Some entry
            /\ (lookupNow clk - timestamp entry >? maxAge) = false
            /\ r = mark_cached (result entry))
      \/ (exists probabilities,
            r = build_result o clk (postprocess probabilities)
            /\ (exists features, run_log e' = features :: run_log e)
            /\ totalPredictions (stats e') = S (totalPredictions (stats e))
            /\ totalInferenceTime (stats e')
               = JS.add (totalInferenceTime (stats e)) (inferenceTime clk)
            /\ cacheHits (stats e') = cacheHits (stats e)
            /\ (cache_enabled o = true ->
                exists key,
                  getCacheKey h tx = Ok key
                  /\ JSMap.get (cache e') key
                     = Some {| input := key; result := r;
                               timestamp := insertNow clk |}))).
Proof.
  rewrite predict_eq.
  destruct (negb (isModelLoaded e) || negb (bool_decide (is_Some (session e))))
    eqn:Hguard; [discriminate |].
  apply loaded_guard in Hguard as [Hloaded Hsession].
  assert (Hfresh : forall e1,
            session e1 = session e -> isModelLoaded e1 = isModelLoaded e ->
            stats e1 = stats e -> run_log e1 = run_log e ->
            predict_miss h tx o clk e1 = (e', Ok r) ->
            isModelLoaded e' = true /\ is_Some (session e')
            /\ exists probabilities,
                 r = build_result o clk (postprocess probabilities)
                 /\ (exists features, run_log e' = features :: run_log e)
                 /\ totalPredictions (stats e') = S (totalPredictions (stats e))
                 /\ totalInferenceTime (stats e')
                    = JS.add (totalInferenceTime (stats e)) (inferenceTime clk)
                 /\ cacheHits (stats e') = cacheHits (stats e)
                 /\ (cache_enabled o = true ->
                     exists key,
                       getCacheKey h tx = Ok key
                       /\ JSMap.get (cache e') key
                          = Some {| input := key; result := r;
                                    timestamp := insertNow clk |})).
  { intros e1 Hs Hl Hst Hlog Hmiss.
    destruct (predict_miss_outcome h tx o clk e1 e' (Ok r) Hmiss)
      as (Hl' & Hs' & Hhits & _ & features & probabilities & _ & _ & _ & Hr
          & Hlog' & Htotal & Htime & Hcache).
    rewrite Hl', Hl, Hs', Hs. split; [exact Hloaded |]. split; [exact Hsession |].
    exists probabilities. split; [exact Hr |].
    split; [exists features; rewrite Hlog', Hlog; reflexivity |].
    rewrite Htotal, Htime, Hhits, Hst. repeat split.
    intros Hon. rewrite Hon in Hcache. destruct Hcache as (key & Hkey & Hc).
    exists key. split; [exact Hkey |]. rewrite Hc. apply JSMap_get_set_same. }
  destruct (cache_enabled o) eqn:Hcache.
  - destruct (getFromCache h tx (lookupNow clk) e) as [e1 [[c |] | x]] eqn:Hget;
      [| | discriminate].
    + intros [= <- <-].
      destruct (getFromCache_hit h tx _ e e1 c Hget) as (-> & key & entry & Hk).
      split; [exact Hloaded |]. split; [exact Hsession |]. left.
      split; [reflexivity |]. split; [reflexivity |].
      exists key, entry. destruct Hk as (Hk1 & Hk2 & Hk3 & ->). repeat split; assumption.
    + intros Hmiss.
      destruct (getFromCache_miss h tx _ e e1 Hget) as (Hs & Hl & Hst & Hlog).
      destruct (Hfresh e1 Hs Hl Hst Hlog Hmiss) as (H1 & H2 & H3).
      split; [exact H1 |]. split; [exact H2 |]. right. exact H3.
  - intros Hmiss.
    destruct (Hfresh e eq_refl eq_refl eq_refl eq_refl Hmiss) as (H1 & H2 & H3).
    split; [exact H1 |]. split; [exact H2 |]. right. exact H3.
Qed.

(** A call that throws leaves the prediction counters alone. *)
Lemma predict_Throw (h : Host.env) (tx : gmap string JS.value)
    (o : InferenceOptions) (clk : Clock) (e e' : ONNXInference) (x : exn) :
  predict h tx o clk e = (e', Throw x) ->
  totalPredictions (stats e') = totalPredictions (stats e)
  /\ totalInferenceTime (stats e') = totalInferenceTime (stats e)
  /\ (length (run_log e) <= length (run_log e'))%nat.
Proof.
  rewrite predict_eq.
  destruct (negb (isModelLoaded e) || negb (bool_decide (is_Some (session e)))).
  { intros [= <- _]. split; [reflexivity | split; [reflexivity | lia]]. }
  assert (Hmiss : forall e1,
            stats e1 = stats e -> run_log e1 = run_log e ->
            predict_miss h tx o clk e1 = (e', Throw x) ->
            totalPredictions (stats e') = totalPredictions (stats e)
            /\ totalInferenceTime (stats e') = totalInferenceTime (stats e)
            /\ (length (run_log e) <= length (run_log e'))%nat).
  { intros e1 Hst Hlog H.
    destruct (predict_miss_outcome h tx o clk e1 e' (Throw x) H)
      as (_ & _ & _ & _ & Htotal & Htime & _ & Hrun).
    rewrite Htotal, Htime, Hst. split; [reflexivity |]. split; [reflexivity |].
    destruct Hrun as [Hrun | (_ & f & Hrun)]; rewrite Hrun, Hlog; cbn; lia. }
  destruct (cache_enabled o); [| apply Hmiss; reflexivity].
  destruct (getFromCache h tx (lookupNow clk) e) as [e1 [[c |] | x0]] eqn:Hget.
  - discriminate.
  - destruct (getFromCache_miss h tx _ e e1 Hget) as (_ & _ & Hst & Hlog).
    apply Hmiss; assumption.
  - intros [= <- _]. rewrite (getFromCache_Throw h tx _ e e1 x0 Hget).
    split; [reflexivity | split; [reflexivity | lia]].
Qed.

(** ** Repeated predictions *)

(** C6.  When a [predict] call with the cache enabled has returned a
    result, a second call with the same vector, the cache enabled and the
    cached entry no older than one hour returns the same label and the
    same fraud probability, marks its result [cached], and leaves the
    cache and the log of model invocations as they were. *)
Theorem predict_twice_served_from_cache (h : Host.env) (e e1 : ONNXInference)
    (tx : gmap string JS.value) (o1 o2 : InferenceOptions) (c1 c2 : Clock)
    (r1 : InferenceResult) :
  predict h tx o1 c1 e = (e1, Ok r1) ->
  cache_enabled o1 = true ->
  cache_enabled o2 = true ->
  (forall key entry,
     getCacheKey h tx = Ok key -> JSMap.get (cache e1) key = Some entry ->
     lookupNow c2 - timestamp entry <= maxAge) ->
  exists e2 r2,
    predict h tx o2 c2 e1 = (e2, Ok r2)
    /\ prediction (base r2) = prediction (base r1)
    /\ probability_fraud (base r2) = probability_fraud (base r1)
    /\ base r2 = base r1
    /\ cached r2 = Some true
    /\ run_log e2 = run_log e1
    /\ cache e2 = cache e1
    /\ totalPredictions (stats e2) = totalPredictions (stats e1).
Proof.
  intros Hfirst Hon1 Hon2 Hage.
  destruct (predict_Ok h tx o1 c1 e e1 r1 Hfirst) as (Hloaded & Hsession & Hcases).
  assert (Hentry : exists key entry,
            getCacheKey h tx = Ok key
            /\ JSMap.get (cache e1) key = Some entry
            /\ base (result entry) = base r1).
  { destruct Hcases as [(_ & -> & key & entry & Hk & Hg & _ & ->)
                       | (probabilities & _ & _ & _ & _ & _ & Hc)].
    - exists key, entry. repeat split; assumption.
    - destruct (Hc Hon1) as (key & Hk & Hg).
      exists key. eexists. split; [exact Hk |]. split; [exact Hg |]. reflexivity. }
  destruct Hentry as (key & entry & Hk & Hg & Hbase).
  assert (Hfreshness : (lookupNow c2 - timestamp entry >? maxAge) = false).
  { pose proof (Hage key entry Hk Hg). lia. }
  exists (count_cache_hit e1), (mark_cached (result entry)).
  split.
  - rewrite predict_eq.
    assert (Hguard : negb (isModelLoaded e1)
                     || negb (bool_decide (is_Some (session e1))) = false).
    { apply loaded_guard. split; assumption. }
    rewrite Hguard, Hon2, getFromCache_eq, Hk, Hg, Hfreshness. reflexivity.
  - cbn [base mark_cached cached]. rewrite Hbase. repeat split.
Qed.

Lemma predict_twice_served_from_cache_witness :
  exists e2 r2,
    predict Scenario.host SampleData.SAMPLE_NORMAL Scenario.default_options
      (Scenario.clock_at 2000)
      (fst (predict Scenario.host SampleData.SAMPLE_NORMAL
              Scenario.default_options (Scenario.clock_at 1000) Scenario.loaded))
    = (e2, Ok r2)
    /\ prediction (base r2)
       = prediction (base (build_result Scenario.default_options
                             (Scenario.clock_at 1000)
                             (postprocess (JS.Fin 0.9876, JS.Fin 0.0124))))
    /\ probability_fraud (base r2)
       = probability_fraud (base (build_result Scenario.default_options
                                    (Scenario.clock_at 1000)
                                    (postprocess (JS.Fin 0.9876, JS.Fin 0.0124))))
    /\ base r2
       = base (build_result Scenario.default_options (Scenario.clock_at 1000)
                 (postprocess (JS.Fin 0.9876, JS.Fin 0.0124)))
    /\ cached r2 = Some true
    /\ run_log e2
       = run_log (fst (predict Scenario.host SampleData.SAMPLE_NORMAL
                         Scenario.default_options (Scenario.clock_at 1000)
                         Scenario.loaded))
    /\ cache e2
       = cache (fst (predict Scenario.host SampleData.SAMPLE_NORMAL
                       Scenario.default_options (Scenario.clock_at 1000)
                       Scenario.loaded))
    /\ totalPredictions (stats e2)
       = totalPredictions
           (stats (fst (predict Scenario.host SampleData.SAMPLE_NORMAL
                          Scenario.default_options (Scenario.clock_at 1000)
                          Scenario.loaded))).
Proof.
  apply (predict_twice_served_from_cache Scenario.host Scenario.loaded _
           SampleData.SAMPLE_NORMAL Scenario.default_options
           Scenario.default_options (Scenario.clock_at 1000)
           (Scenario.clock_at 2000)).
  - vm_compute. reflexivity.
  - reflexivity.
  - reflexivity.
  - intros key entry Hk Hg.
    vm_compute in Hk. injection Hk as <-.
    vm_compute in Hg. injection Hg as <-.
    vm_compute. discriminate.
Defined.

(** ** Counters *)

Lemma step_counters (h : Host.env) (e : ONNXInference) (c : History.call) :
  totalPredictions (stats (History.step h e c))
  = (totalPredictions (stats e) + length (History.model_time h e c))%nat
  /\ totalInferenceTime (stats (History.step h e c))
     = fold_left JS.add (History.model_time h e c) (totalInferenceTime (stats e))
  /\ (length (run_log e) + length (History.model_time h e c)
      <= length (run_log (History.step h e c)))%nat.
Proof.
  destruct c as [created | tx o clk | |]; cbn [History.step History.model_time].
  - unfold loadModel, and_then, read, update, ret, throw.
    destruct (isModelLoaded e); [| destruct created]; cbn; repeat split; lia.
  - destruct (predict h tx o clk e) as [e' [r | x]] eqn:Hp; cbn [fst].
    + destruct (predict_Ok h tx o clk e e' r Hp) as (_ & _ & Hcases).
      destruct Hcases as [(_ & -> & key & entry & _ & _ & _ & ->)
                         | (probabilities & -> & (features & Hlog) & Htotal
                            & Htime & _)].
      * cbn. repeat split; lia.
      * cbn [cached build_result length fold_left].
        rewrite Htotal, Htime, Hlog. cbn [length]. repeat split; lia.
    + destruct (predict_Throw h tx o clk e e' x Hp) as (Htotal & Htime & Hlog).
      rewrite Htotal, Htime. cbn. repeat split; lia.
  - cbn. repeat split; lia.
  - unfold dispose, clearCache, and_then, read, update, ret.
    destruct (session e); cbn; repeat split; lia.
Qed.

Lemma run_counters (h : Host.env) (calls : list History.call) (e0 : ONNXInference) :
  let e := History.run h calls e0 in
  totalPredictions (stats e)
  = (totalPredictions (stats e0) + length (History.model_times h calls e0))%nat
  /\ totalInferenceTime (stats e)
     = fold_left JS.add (History.model_times h calls e0)
         (totalInferenceTime (stats e0))
  /\ (length (run_log e0) + length (History.model_times h calls e0)
      <= length (run_log e))%nat.
Proof.
  revert e0. induction calls as [| c calls IH]; intros e0; cbn zeta.
  - cbn. repeat split; lia.
  - cbn [History.run fold_left History.model_times].
    destruct (step_counters h e0 c) as (H1 & H2 & H3).
    destruct (IH (History.step h e0 c)) as (I1 & I2 & I3).
    fold (History.run h calls (History.step h e0 c)).
    rewrite I1, I2, H1, H2, length_app, fold_left_app.
    repeat split; lia.
Qed.

(** C10.  A [predict] call that is answered from the cache leaves the
    cache, [totalPredictions], [totalInferenceTime], [cacheMisses] and the
    log of model invocations unchanged and adds one to [cacheHits].  So,
    on an engine reached by any history of [loadModel], [predict],
    [clearCache] and [dispose] calls, [totalPredictions] counts the calls
    whose result the model computed, none of them more often than the
    model was invoked, and [avgInferenceTime] is the sum of their
    inference times over their number, or 0 when there is none. *)
Theorem cache_hit_leaves_counters (h : Host.env) (e e' : ONNXInference)
    (tx : gmap string JS.value) (o : InferenceOptions) (clk : Clock)
    (r : InferenceResult) :
  predict h tx o clk e = (e', Ok r) ->
  cached r = Some true ->
  cache e' = cache e
  /\ totalPredictions (stats e') = totalPredictions (stats e)
  /\ totalInferenceTime (stats e') = totalInferenceTime (stats e)
  /\ cacheMisses (stats e') = cacheMisses (stats e)
  /\ cacheHits (stats e') = S (cacheHits (stats e))
  /\ run_log e' = run_log e
  /\ History.model_time h e (History.Predict tx o clk) = []
  /\ (forall calls, e = History.run h calls new ->
      let times := History.model_times h calls new in
      report_totalPredictions (getStats e') = length times
      /\ (length times <= length (run_log e'))%nat
      /\ totalInferenceTime (stats e') = fold_left JS.add times (JS.Fin 0)
      /\ avgInferenceTime (getStats e')
         = match times with
           | [] => JS.Fin 0
           | _ :: _ =>
               JS.div (fold_left JS.add times (JS.Fin 0))
                      (JS.of_Z (Z.of_nat (length times)))
           end).
Proof.
  intros Hp Hcached.
  destruct (predict_Ok h tx o clk e e' r Hp) as (_ & _ & Hcases).
  destruct Hcases as [(_ & -> & key & entry & _ & _ & _ & Hr)
                     | (probabilities & -> & _)]; [| discriminate].
  split; [reflexivity |]. split; [reflexivity |]. split; [reflexivity |].
  split; [reflexivity |]. split; [reflexivity |]. split; [reflexivity |].
  split.
  - cbn [History.model_time]. rewrite Hp, Hcached. reflexivity.
  - intros calls ->. cbn zeta.
    destruct (run_counters h calls new) as (H1 & H2 & H3).
    cbn [stats new totalPredictions totalInferenceTime run_log length] in H1, H2, H3.
    unfold getStats.
    cbn [stats count_cache_hit with_stats totalPredictions totalInferenceTime
         run_log report_totalPredictions avgInferenceTime].
    rewrite H1, H2. cbn [Nat.add].
    split; [reflexivity |]. split; [exact H3 |]. split; [reflexivity |].
    destruct (History.model_times h calls new); reflexivity.
Qed.

Lemma cache_hit_leaves_counters_witness :
  let e := History.run Scenario.host
             [History.LoadModel true;
              History.Predict SampleData.SAMPLE_NORMAL Scenario.default_options
                (Scenario.clock_at 1000)] new in
  let e' := count_cache_hit e in
  cache e' = cache e
  /\ totalPredictions (stats e') = totalPredictions (stats e)
  /\ totalInferenceTime (stats e') = totalInferenceTime (stats e)
  /\ cacheMisses (stats e') = cacheMisses (stats e)
  /\ cacheHits (stats e') = S (cacheHits (stats e))
  /\ run_log e' = run_log e
  /\ History.model_time Scenario.host e
       (History.Predict SampleData.SAMPLE_NORMAL Scenario.default_options
          (Scenario.clock_at 2000)) = []
  /\ (forall calls, e = History.run Scenario.host calls new ->
      let times := History.model_times Scenario.host calls new in
      report_totalPredictions (getStats e') = length times
      /\ (length times <= length (run_log e'))%nat
      /\ totalInferenceTime (stats e') = fold_left JS.add times (JS.Fin 0)
      /\ avgInferenceTime (getStats e')
         = match times with
           | [] => JS.Fin 0
           | _ :: _ =>
               JS.div (fold_left JS.add times (JS.Fin 0))
                      (JS.of_Z (Z.of_nat (length times)))
           end).
Proof.
  apply (cache_hit_leaves_counters Scenario.host _ _ SampleData.SAMPLE_NORMAL
           Scenario.default_options (Scenario.clock_at 2000)
           (mark_cached
              (build_result Scenario.default_options (Scenario.clock_at 1000)
                 (postprocess (JS.Fin 0.9876, JS.Fin 0.0124))))).
  - vm_compute. reflexivity.
  - reflexivity.
Defined.

(** ** Insertion order *)

Lemma JSMap_get_None {V : Type} (m : list (string * V)) (k : string) :
  ~ In k (map fst m) -> JSMap.get m k = None.
Proof.
  induction m as [| [k' v'] m IH]; cbn; [reflexivity |].
  intros Hnot. destruct (String.eqb k' k) eqn:E.
  - apply String.eqb_eq in E. exfalso. apply Hnot. left. exact E.
  - apply IH. intros Hin. apply Hnot. right. exact Hin.
Qed.

Lemma JSMap_get_Some_key {V : Type} (m : list (string * V)) (k : string) (v : V) :
  JSMap.get m k = Some v -> In k (map fst m).
Proof.
  induction m as [| [k' v'] m IH]; cbn; [discriminate |].
  destruct (String.eqb k' k) eqn:E.
  - apply String.eqb_eq in E. intros _. left. exact E.
  - intros H. right. exact (IH H).
Qed.

Lemma JSMap_delete_sublist {V : Type} (m : list (string * V)) (k : string) :
  sublist (JSMap.delete m k) m.
Proof.
  induction m as [| [k' v'] m IH]; cbn.
  - constructor.
  - destruct (String.eqb k' k).
    + apply sublist_cons. reflexivity.
    + apply sublist_skip. exact IH.
Qed.

Lemma JSMap_get_None_sublist {V : Type} (m' m : list (string * V)) (k : string) :
  sublist m' m -> JSMap.get m k = None -> JSMap.get m' k = None.
Proof.
  induction 1 as [| [k' v'] m' m Hsub IH | [k' v'] m' m Hsub IH]; cbn.
  - reflexivity.
  - destruct (String.eqb k' k); [discriminate | exact IH].
  - destruct (String.eqb k' k); [discriminate | exact IH].
Qed.

Lemma JSMap_keys_sublist {V : Type} (m' m : list (string * V)) :
  sublist m' m -> NoDup (map fst m) -> NoDup (map fst m').
Proof.
  intros Hsub Hnd. eapply sublist_NoDup; [exact Hnd |].
  induction Hsub as [| [k v] m' m Hsub IH | [k v] m' m Hsub IH]; cbn.
  - constructor.
  - apply sublist_skip. apply IH. apply NoDup_cons in Hnd. apply Hnd.
  - apply sublist_cons. apply IH. apply NoDup_cons in Hnd. apply Hnd.
Qed.

Lemma JSMap_get_delete {V : Type} (m : list (string * V)) (k : string) :
  NoDup (map fst m) -> JSMap.get (JSMap.delete m k) k = None.
Proof.
  induction m as [| [k' v'] m IH]; cbn; [reflexivity |].
  intros Hnd. apply NoDup_cons in Hnd as [Hnot Hnd].
  destruct (String.eqb k' k) eqn:E.
  - apply String.eqb_eq in E. subst k'. apply JSMap_get_None.
    rewrite <- list_elem_of_In. exact Hnot.
  - cbn. rewrite E. exact (IH Hnd).
Qed.

Lemma JSMap_set_fresh {V : Type} (m : list (string * V)) (k : string) (v : V) :
  JSMap.get m k = None -> JSMap.set m k v = m ++ [(k, v)].
Proof.
  induction m as [| [k' v'] m IH]; cbn; [reflexivity |].
  destruct (String.eqb k' k); [discriminate |].
  intros H. rewrite (IH H). reflexivity.
Qed.

Lemma JSMap_set_keys {V : Type} (m : list (string * V)) (k : string) (v : V) :
  NoDup (map fst m) -> NoDup (map fst (JSMap.set m k v)).
Proof.
  induction m as [| [k' v'] m IH]; cbn.
  - intros _. apply NoDup_singleton.
  - intros Hnd. apply NoDup_cons in Hnd as [Hnot Hnd].
    destruct (String.eqb k' k) eqn:E; cbn.
    + apply String.eqb_eq in E. subst k'. apply NoDup_cons. split; assumption.
    + apply NoDup_cons. split; [| exact (IH Hnd)].
      intros Hin. apply list_elem_of_In in Hin.
      destruct (JSMap.get m k) as [w |] eqn:Hg.
      * clear IH. revert Hin. 
        assert (Hsame : map fst (JSMap.set m k v) = map fst m).
        { clear Hnot Hnd E. induction m as [| [k2 v2] m IHm]; cbn in *;
            [discriminate |].
          destruct (String.eqb k2 k) eqn:E2; cbn.
          - apply String.eqb_eq in E2. subst k2. reflexivity.
          - rewrite (IHm Hg). reflexivity. }
        rewrite Hsame. intros Hin. apply Hnot. apply list_elem_of_In. exact Hin.
      * rewrite (JSMap_set_fresh m k v Hg), map_app in Hin.
        apply in_app_or in Hin as [Hin | [Hin | []]].
        -- apply Hnot. apply list_elem_of_In. exact Hin.
        -- cbn in Hin. subst k'. rewrite String.eqb_refl in E. discriminate.
Qed.

Lemma evict_oldest_sublist (e : ONNXInference) :
  sublist (cache (evict_oldest e)) (cache e).
Proof.
  unfold evict_oldest.
  destruct (Nat.leb (maxCacheSize e) (JSMap.size (cache e))); [| reflexivity].
  destruct (JSMap.first_key (cache e)) as [k |]; [| reflexivity].
  destruct (truthy_string k); [| reflexivity].
  apply JSMap_delete_sublist.
Qed.

(** A prediction computed by the model is stored behind every entry that
    is still in the cache, and the entries that stay keep their order. *)
Lemma predict_insert_appends (h : Host.env) (tx : gmap string JS.value)
    (o : InferenceOptions) (clk : Clock) (e e' : ONNXInference)
    (r : InferenceResult) :
  keys_distinct e ->
  cache_enabled o = true ->
  predict h tx o clk e = (e', Ok r) ->
  cached r = Some false ->
  exists key older,
    getCacheKey h tx = Ok key
    /\ sublist older (cache e)
    /\ cache e'
       = older ++ [(key, {| input := key; result := r;
                            timestamp := insertNow clk |})].
Proof.
  intros Hnd Hon Hp Hfresh. rewrite predict_eq, Hon in Hp.
  destruct (negb (isModelLoaded e) || negb (bool_decide (is_Some (session e))));
    [discriminate |].
  assert (Hmiss : forall e1 key,
            getCacheKey h tx = Ok key ->
            sublist (cache e1) (cache e) -> JSMap.get (cache e1) key = None ->
            predict_miss h tx o clk e1 = (e', Ok r) ->
            exists key older,
              getCacheKey h tx = Ok key
              /\ sublist older (cache e)
              /\ cache e'
                 = older ++ [(key, {| input := key; result := r;
                                      timestamp := insertNow clk |})]).
  { intros e1 key Hkey Hsub Hnone Hpm.
    destruct (predict_miss_outcome h tx o clk e1 e' (Ok r) Hpm)
      as (_ & _ & _ & _ & features & probabilities & _ & _ & _ & _ & _ & _ & _
          & Hcache).
    rewrite Hon in Hcache. destruct Hcache as (key' & Hkey' & Hc).
    rewrite Hkey in Hkey'. apply Ok_inj in Hkey'. subst key'.
    exists key, (cache (evict_oldest e1)). split; [exact Hkey |].
    split.
    - etransitivity; [apply evict_oldest_sublist | exact Hsub].
    - rewrite Hc. apply JSMap_set_fresh.
      exact (JSMap_get_None_sublist _ _ key (evict_oldest_sublist e1) Hnone). }
  rewrite getFromCache_eq in Hp.
  destruct (getCacheKey h tx) as [key |] eqn:Hkey; [| discriminate].
  destruct (JSMap.get (cache e) key) as [entry |] eqn:Hentry.
  - destruct (lookupNow clk - timestamp entry >? maxAge).
    + apply (Hmiss _ key eq_refl) in Hp; [exact Hp | |].
      * apply JSMap_delete_sublist.
      * apply JSMap_get_delete. exact Hnd.
    + injection Hp as _ <-. discriminate.
  - apply (Hmiss e key eq_refl); [reflexivity | exact Hentry | exact Hp].
Qed.

Lemma predict_keys_distinct (h : Host.env) (tx : gmap string JS.value)
    (o : InferenceOptions) (clk : Clock) (e : ONNXInference) :
  keys_distinct e -> keys_distinct (fst (predict h tx o clk e)).
Proof.
  intros Hnd. unfold keys_distinct in *.
  assert (Hmiss : forall e1, NoDup (map fst (cache e1)) ->
            NoDup (map fst (cache (fst (predict_miss h tx o clk e1))))).
  { intros e1 Hnd1.
    destruct (predict_miss h tx o clk e1) as [e' [r | x]] eqn:Hpm; cbn [fst].
    - destruct (predict_miss_outcome h tx o clk e1 e' (Ok r) Hpm)
        as (_ & _ & _ & _ & features & probabilities & _ & _ & _ & _ & _ & _ & _
            & Hcache).
      destruct (cache_enabled o).
      + destruct Hcache as (key & _ & ->). apply JSMap_set_keys.
        exact (JSMap_keys_sublist _ _ (evict_oldest_sublist e1) Hnd1).
      + rewrite Hcache. exact Hnd1.
    - destruct (predict_miss_outcome h tx o clk e1 e' (Throw x) Hpm)
        as (_ & _ & _ & _ & _ & _ & -> & _). exact Hnd1. }
  rewrite predict_eq.
  destruct (negb (isModelLoaded e) || negb (bool_decide (is_Some (session e))));
    [exact Hnd |].
  destruct (cache_enabled o); [| exact (Hmiss e Hnd)].
  rewrite getFromCache_eq.
  destruct (getCacheKey h tx) as [key |]; [| exact Hnd].
  destruct (JSMap.get (cache e) key) as [entry |]; [| exact (Hmiss e Hnd)].
  destruct (lookupNow clk - timestamp entry >? maxAge); [| exact Hnd].
  apply Hmiss. cbn [cache with_cache].
  exact (JSMap_keys_sublist _ _ (JSMap_delete_sublist (cache e) key) Hnd).
Qed.

Lemma run_keys_distinct (h : Host.env) (calls : list History.call)
    (e : ONNXInference) :
  keys_distinct e -> keys_distinct (History.run h calls e).
Proof.
  revert e. induction calls as [| c calls IH]; intros e Hnd; cbn;
    [exact Hnd |].
  apply IH. destruct c as [created | tx o clk | |]; cbn [History.step].
  - unfold loadModel, and_then, read, update, ret, throw.
    destruct (isModelLoaded e); [exact Hnd |]. destruct created; exact Hnd.
  - apply predict_keys_distinct. exact Hnd.
  - apply NoDup_nil. constructor.
  - unfold dispose, clearCache, and_then, read, update, ret.
    destruct (session e); [apply NoDup_nil; constructor | exact Hnd].
Qed.

(** C7.  After any history of calls on a fresh engine the cache holds at
    most 100 entries under pairwise distinct keys.  An insertion into a
    cache that is at capacity first removes the first entry of the map and
    then stores the new one; and since every prediction the model computes
    is stored behind the entries that remain, which keep their order, the
    first entry is the one inserted before all others. *)
Theorem cache_capacity_and_eviction (h : Host.env) (calls : list History.call) :
  let e := History.run h calls new in
  maxCacheSize e = 100%nat
  /\ (JSMap.size (cache e) <= 100)%nat
  /\ keys_distinct e
  /\ (forall (tx : gmap string JS.value) (r : InferenceResult) (now : Z)
             (key : string),
        getCacheKey h tx = Ok key ->
        (maxCacheSize e <= JSMap.size (cache e))%nat ->
        exists k0 entry0 rest,
          cache e = (k0, entry0) :: rest
          /\ addToCache h tx r now e
             = (with_cache e
                  (JSMap.set rest key
                     {| input := key; result := r; timestamp := now |}),
                Ok tt)
          /\ (JSMap.size
                (cache (fst (addToCache h tx r now e))) <= 100)%nat)
  /\ (forall (tx : gmap string JS.value) (o : InferenceOptions) (clk : Clock)
             (e' : ONNXInference) (r : InferenceResult),
        cache_enabled o = true ->
        predict h tx o clk e = (e', Ok r) ->
        cached r = Some false ->
        exists key older,
          getCacheKey h tx = Ok key
          /\ sublist older (cache e)
          /\ cache e'
             = older ++ [(key, {| input := key; result := r;
                                  timestamp := insertNow clk |})]).
Proof.
  cbn zeta.
  pose proof (run_invariant h calls new new_invariant) as Hinv.
  assert (Hnd : keys_distinct (History.run h calls new)).
  { apply run_keys_distinct. apply NoDup_nil. constructor. }
  split; [apply Hinv |]. split; [apply Hinv |]. split; [exact Hnd |].
  split.
  - intros tx r now key Hkey Hfull.
    destruct (evict_oldest_full _ Hinv Hfull) as (k0 & entry0 & rest & Hc & Hev).
    exists k0, entry0, rest. split; [exact Hc |]. split.
    + rewrite addToCache_eq, Hkey, Hev. reflexivity.
    + apply (addToCache_invariant h tx r now _ Hinv).
  - intros tx o clk e' r Hon Hp Hfresh.
    exact (predict_insert_appends h tx o clk _ e' r Hnd Hon Hp Hfresh).
Qed.

(* ===================================================================== *)
(** * Further properties of the code                                      *)
(* ===================================================================== *)

(** ** Scaler.ts: records and the quick helpers *)

(** X1.  [transform] and [inverseTransform] throw on a scaler that is not
    fitted.  On a fitted one each returns an object that holds, under
    every key of [data] other than [__proto__], what [transformSingle]
    (for [inverseTransform], [inverseTransformSingle]) returns for that
    key and its value, and that has no other key. *)
Theorem transform_entries (s : Scaler.StandardScaler)
    (data : gmap string JS.number) :
  (Scaler.fitted s = false ->
     ScalerObjects.transform s data = Throw ScalerNotFitted
     /\ ScalerObjects.inverseTransform s data = Throw ScalerNotFitted)
  /\ (Scaler.fitted s = true ->
      exists (scaled : gmap string JS.number)
             (unscaled : gmap string Scaler.unscaled),
        ScalerObjects.transform s data = Ok scaled
        /\ ScalerObjects.inverseTransform s data = Ok unscaled
        /\ (forall feature value,
              data !! feature = Some value -> feature <> "__proto__" ->
              exists z u,
                scaled !! feature = Some z
                /\ Scaler.transformSingle s feature value = Ok z
                /\ unscaled !! feature = Some u
                /\ Scaler.inverseTransformSingle s feature value = Ok u)
        /\ (forall feature,
              data !! feature = None \/ feature = "__proto__" ->
              scaled !! feature = None /\ unscaled !! feature = None)).
Proof.
  unfold ScalerObjects.transform, ScalerObjects.inverseTransform,
    Scaler.transformSingle, Scaler.inverseTransformSingle.
  split; intros Hfit; rewrite Hfit; cbn [negb]; [split; reflexivity |].
  eexists. eexists. split; [reflexivity |]. split; [reflexivity |]. split.
  - intros feature value Hv Hname.
    assert (Hassigned : ScalerObjects.assigned feature = true).
    { unfold ScalerObjects.assigned. apply negb_true_iff.
      apply String.eqb_neq. exact Hname. }
    rewrite !map_lookup_imap, Hv. cbn [mbind option_bind].
    rewrite Hassigned.
    destruct (Scaler.reads_inherited (Scaler.mean s) feature);
      eexists; eexists; repeat split; reflexivity.
  - intros feature Hcase. rewrite !map_lookup_imap.
    destruct Hcase as [-> | ->]; [split; reflexivity |].
    destruct (data !! "__proto__"); split; reflexivity.
Qed.

Lemma leb_refl_Fin (x y : Q) : (x <= y)%Q -> JS.leb (JS.Fin x) (JS.Fin y) = true.
Proof. intros H. apply Qle_bool_iff. exact H. Qed.

(** Subtracting a finite number and dividing by a positive one keeps the
    order of two numbers. *)
Lemma scale_keeps_order (x y : JS.number) (m d : Q) :
  (0 < d)%Q -> JS.leb x y = true ->
  JS.leb (JS.div (JS.sub x (JS.Fin m)) (JS.Fin d))
         (JS.div (JS.sub y (JS.Fin m)) (JS.Fin d)) = true.
Proof.
  intros Hd Hxy.
  assert (Hz : Qeq_bool d 0 = false).
  { destruct (Qeq_bool d 0) eqn:E; [| reflexivity].
    apply Qeq_bool_iff in E. lra. }
  assert (Hneg : JS.Qlt_bool d 0 = false) by (apply Qlt_bool_false_iff; lra).
  destruct x as [x | | |], y as [y | | |]; try discriminate;
    cbn [JS.sub JS.neg JS.add JS.div]; rewrite ?Hz, ?Hneg; try reflexivity.
  cbn [JS.leb] in *. apply Qle_bool_iff in Hxy. apply Qle_bool_iff.
  apply Qmult_le_compat_r; [lra |].
  apply Qlt_le_weak, Qinv_lt_0_compat. exact Hd.
Qed.

(** Multiplying by a positive number and adding a finite one keeps the
    order of two numbers. *)
Lemma unscale_keeps_order (x y : JS.number) (m d : Q) :
  (0 < d)%Q -> JS.leb x y = true ->
  JS.leb (JS.add (JS.mul x (JS.Fin d)) (JS.Fin m))
         (JS.add (JS.mul y (JS.Fin d)) (JS.Fin m)) = true.
Proof.
  intros Hd Hxy.
  assert (Hz : Qeq_bool d 0 = false).
  { destruct (Qeq_bool d 0) eqn:E; [| reflexivity].
    apply Qeq_bool_iff in E. lra. }
  assert (Hpos : JS.Qlt_bool 0 d = true) by (apply Qlt_bool_iff; exact Hd).
  assert (Hinf : forall positive : bool,
            JS.signed_inf d positive = if positive then JS.PosInf else JS.NegInf).
  { intros positive. unfold JS.signed_inf. rewrite Hz, Hpos.
    destruct positive; reflexivity. }
  destruct x as [x | | |], y as [y | | |]; try discriminate;
    cbn [JS.mul]; rewrite ?Hinf; cbn [JS.add]; try reflexivity.
  cbn [JS.leb] in *. apply Qle_bool_iff in Hxy. apply Qle_bool_iff.
  assert (x * d <= y * d)%Q by (apply Qmult_le_compat_r; lra). lra.
Qed.

Lemma unscale_Time (x : JS.number) :
  Scaler.inverseTransformSingle Scaler.createPretrainedScaler "Time" x
  = Ok (Scaler.Number
          (JS.add (JS.mul x (JS.Fin 47488.145955)) (JS.Fin 94813.859575))).
Proof. reflexivity. Qed.

Lemma unscale_Amount (x : JS.number) :
  Scaler.inverseTransformSingle Scaler.createPretrainedScaler "Amount" x
  = Ok (Scaler.Number
          (JS.add (JS.mul x (JS.Fin 250.120109)) (JS.Fin 88.349619))).
Proof. reflexivity. Qed.

(** X2.  [quickScale] and [quickInverseScale] return for every pair of
    numbers, and both keep the order of times and of amounts: a time (an
    amount) that is not below another is scaled, and unscaled, to a
    number that is not below the other's.  The pre-trained means are
    scaled to 0, and 0 is unscaled to the pre-trained means. *)
Theorem quickScale_order_and_anchors :
  (forall time time' amount amount' : JS.number,
     JS.leb time time' = true -> JS.leb amount amount' = true ->
     exists r r' : ScalerObjects.TimeAmount JS.number,
       ScalerObjects.quickScale time amount = Ok r
       /\ ScalerObjects.quickScale time' amount' = Ok r'
       /\ JS.leb (ScalerObjects.Time r) (ScalerObjects.Time r') = true
       /\ JS.leb (ScalerObjects.Amount r) (ScalerObjects.Amount r') = true)
  /\ (forall time time' amount amount' : JS.number,
        JS.leb time time' = true -> JS.leb amount amount' = true ->
        exists t t' a a' : JS.number,
          ScalerObjects.quickInverseScale time amount
          = Ok {| ScalerObjects.Time := Scaler.Number t;
                  ScalerObjects.Amount := Scaler.Number a |}
          /\ ScalerObjects.quickInverseScale time' amount'
             = Ok {| ScalerObjects.Time := Scaler.Number t';
                     ScalerObjects.Amount := Scaler.Number a' |}
          /\ JS.leb t t' = true
          /\ JS.leb a a' = true)
  /\ (exists r : ScalerObjects.TimeAmount JS.number,
        ScalerObjects.quickScale (JS.Fin 94813.859575) (JS.Fin 88.349619) = Ok r
        /\ JS.eqb (ScalerObjects.Time r) (JS.Fin 0) = true
        /\ JS.eqb (ScalerObjects.Amount r) (JS.Fin 0) = true)
  /\ (exists t a : JS.number,
        ScalerObjects.quickInverseScale (JS.Fin 0) (JS.Fin 0)
        = Ok {| ScalerObjects.Time := Scaler.Number t;
                ScalerObjects.Amount := Scaler.Number a |}
        /\ JS.eqb t (JS.Fin 94813.859575) = true
        /\ JS.eqb a (JS.Fin 88.349619) = true).
Proof.
  split; [| split; [| split]].
  - intros time time' amount amount' Ht Ha.
    unfold ScalerObjects.quickScale. rewrite !scale_Time, !scale_Amount.
    cbn [Host.bind].
    eexists. eexists. split; [reflexivity |]. split; [reflexivity |].
    cbn [ScalerObjects.Time ScalerObjects.Amount].
    split; apply scale_keeps_order; try assumption; reflexivity.
  - intros time time' amount amount' Ht Ha.
    unfold ScalerObjects.quickInverseScale.
    rewrite !unscale_Time, !unscale_Amount. cbn [Host.bind].
    do 4 eexists. split; [reflexivity |]. split; [reflexivity |].
    split; apply unscale_keeps_order; try assumption; reflexivity.
  - eexists. split; [reflexivity |]. split; vm_compute; reflexivity.
  - do 2 eexists. split; [reflexivity |]. split; vm_compute; reflexivity.
Qed.

(** ** Scaler.ts: fitting *)

Lemma stores_named (o : gmap string JS.number) (feature : string) :
  feature <> "__proto__" -> ScalerObjects.stores o feature = true.
Proof.
  intros Hname. unfold ScalerObjects.stores, ScalerObjects.assigned.
  apply orb_true_iff. left. apply negb_true_iff, String.eqb_neq. exact Hname.
Qed.

(** What [fit] stores for a feature that [data] lists. *)
Lemma fit_stores (Math_sqrt : JS.number -> JS.number)
    (s : Scaler.StandardScaler) (data : gmap string (list JS.number))
    (feature : string) (values : list JS.number) :
  feature <> "__proto__" ->
  data !! feature = Some values ->
  let fitted := ScalerObjects.fit Math_sqrt s data in
  Scaler.mean fitted !! feature = Some (ScalerObjects.calculateMean values)
  /\ Scaler.std fitted !! feature
     = Some (ScalerObjects.calculateStd Math_sqrt values
               (ScalerObjects.calculateMean values)).
Proof.
  intros Hname Hv. cbn zeta. unfold ScalerObjects.fit.
  cbn [Scaler.mean Scaler.std].
  split; apply lookup_union_Some_l; rewrite map_lookup_imap, Hv;
    cbn [mbind option_bind]; rewrite !stores_named by exact Hname; reflexivity.
Qed.

Lemma reads_own (o : gmap string JS.number) (feature : string) (v : JS.number) :
  o !! feature = Some v -> Scaler.reads_inherited o feature = false.
Proof. intros H. unfold Scaler.reads_inherited. rewrite H. reflexivity. Qed.

(** X3.  [fit] marks the scaler as fitted and leaves the stored
    parameters of a feature that [data] does not list as they are.  A
    feature other than [__proto__] listed with an empty column gets mean 0
    and standard deviation 1, and [transformSingle] then returns every
    value of that feature as it is.  A feature listed with a single finite
    value gets that value as its mean and, the platform's square root of
    zero being zero, a standard deviation of 0; [|| 1] replaces it, and
    the value itself is scaled to 0. *)
Theorem fit_small_columns (Math_sqrt : JS.number -> JS.number)
    (s : Scaler.StandardScaler) (data : gmap string (list JS.number))
    (feature : string) :
  (forall q : Q, (q == 0)%Q -> Math_sqrt (JS.Fin q) = JS.Fin 0) ->
  feature <> "__proto__" ->
  let fitted := ScalerObjects.fit Math_sqrt s data in
  Scaler.fitted fitted = true
  /\ (data !! feature = None ->
      Scaler.mean fitted !! feature = Scaler.mean s !! feature
      /\ Scaler.std fitted !! feature = Scaler.std s !! feature)
  /\ (data !! feature = Some [] ->
      Scaler.mean fitted !! feature = Some (JS.Fin 0)
      /\ Scaler.std fitted !! feature = Some (JS.Fin 1)
      /\ forall value : JS.number,
           exists z, Scaler.transformSingle fitted feature value = Ok z
                     /\ JS.same z value)
  /\ (forall v : Q,
        data !! feature = Some [JS.Fin v] ->
        exists m z : JS.number,
          Scaler.mean fitted !! feature = Some m
          /\ JS.same m (JS.Fin v)
          /\ Scaler.std fitted !! feature = Some (JS.Fin 0)
          /\ Scaler.effective_std fitted feature = JS.Fin 1
          /\ Scaler.transformSingle fitted feature (JS.Fin v) = Ok z
          /\ JS.same z (JS.Fin 0)).
Proof.
  intros Hsqrt Hname. cbn zeta.
  split; [reflexivity |]. split; [| split].
  - intros Hnone. unfold ScalerObjects.fit. cbn [Scaler.mean Scaler.std].
    split; (rewrite lookup_union_r; [reflexivity |]);
      rewrite map_lookup_imap, Hnone; reflexivity.
  - intros Hempty.
    destruct (fit_stores Math_sqrt s data feature [] Hname Hempty) as [Hm Hd].
    cbn zeta in Hm, Hd.
    change (ScalerObjects.calculateStd Math_sqrt [] (ScalerObjects.calculateMean []))
      with (JS.Fin 1) in Hd.
    change (ScalerObjects.calculateMean []) with (JS.Fin 0) in Hm.
    split; [exact Hm |]. split; [exact Hd |].
    intros value. unfold Scaler.transformSingle, Scaler.effective_mean,
      Scaler.effective_std.
    rewrite (reads_own _ _ _ Hm), (reads_own _ _ _ Hd), Hm, Hd.
    cbn [Scaler.fitted ScalerObjects.fit negb].
    eexists. split; [reflexivity |].
    destruct value as [x | | |]; try exact I.
    change ((x + - 0) / 1 == x)%Q. field.
  - intros v Hone.
    destruct (fit_stores Math_sqrt s data feature [JS.Fin v] Hname Hone)
      as [Hm Hd].
    cbn zeta in Hm, Hd.
    assert (Hmean : ScalerObjects.calculateMean [JS.Fin v] = JS.Fin ((0 + v) / 1)).
    { reflexivity. }
    assert (Hstd : ScalerObjects.calculateStd Math_sqrt [JS.Fin v]
                     (JS.Fin ((0 + v) / 1)) = JS.Fin 0).
    { unfold ScalerObjects.calculateStd. cbn [length Nat.eqb map].
      unfold JSMath.square. cbn [JS.sub JS.neg JS.add JS.mul].
      change (ScalerObjects.calculateMean [JS.Fin ?x]) with (JS.Fin ((0 + x) / 1)).
      apply Hsqrt. field. }
    rewrite Hmean in Hm, Hd. rewrite Hstd in Hd.
    assert (Heff : Scaler.effective_std (ScalerObjects.fit Math_sqrt s data) feature
                   = JS.Fin 1).
    { unfold Scaler.effective_std. rewrite (reads_own _ _ _ Hd), Hd. reflexivity. }
    eexists. eexists. split; [exact Hm |]. split; [cbn; field |].
    split; [exact Hd |]. split; [exact Heff |].
    unfold Scaler.transformSingle. rewrite Heff.
    unfold Scaler.effective_mean. rewrite (reads_own _ _ _ Hm), Hm.
    cbn [Scaler.fitted ScalerObjects.fit negb JS.eqb JS.or_default JS.truthy].
    split; [reflexivity |].
    destruct (Qeq_bool ((0 + v) / 1) 0) eqn:E; cbn [negb].
    + apply Qeq_bool_iff in E.
      change ((v + - 0) / 1 == 0)%Q.
      transitivity ((0 + v) / 1)%Q; [field | exact E].
    + change ((v + - ((0 + v) / 1)) / 1 == 0)%Q. field.
Qed.

Lemma fit_small_columns_witness :
  let fitted :=
    ScalerObjects.fit
      (fun n => if JS.eqb n (JS.Fin 0) then JS.Fin 0 else n)
      (Scaler.new None)
      {["Amount" := [JS.Fin 149.62]; "Time" := []]} in
  Scaler.fitted fitted = true
  /\ (({["Amount" := [JS.Fin 149.62]; "Time" := []]}
         : gmap string (list JS.number)) !! "Amount" = None ->
      Scaler.mean fitted !! "Amount" = Scaler.mean (Scaler.new None) !! "Amount"
      /\ Scaler.std fitted !! "Amount" = Scaler.std (Scaler.new None) !! "Amount")
  /\ (({["Amount" := [JS.Fin 149.62]; "Time" := []]}
         : gmap string (list JS.number)) !! "Amount" = Some [] ->
      Scaler.mean fitted !! "Amount" = Some (JS.Fin 0)
      /\ Scaler.std fitted !! "Amount" = Some (JS.Fin 1)
      /\ forall value : JS.number,
           exists z, Scaler.transformSingle fitted "Amount" value = Ok z
                     /\ JS.same z value)
  /\ (forall v : Q,
        ({["Amount" := [JS.Fin 149.62]; "Time" := []]}
           : gmap string (list JS.number)) !! "Amount" = Some [JS.Fin v] ->
        exists m z : JS.number,
          Scaler.mean fitted !! "Amount" = Some m
          /\ JS.same m (JS.Fin v)
          /\ Scaler.std fitted !! "Amount" = Some (JS.Fin 0)
          /\ Scaler.effective_std fitted "Amount" = JS.Fin 1
          /\ Scaler.transformSingle fitted "Amount" (JS.Fin v) = Ok z
          /\ JS.same z (JS.Fin 0)).
Proof.
  apply (fit_small_columns
           (fun n => if JS.eqb n (JS.Fin 0) then JS.Fin 0 else n)
           (Scaler.new None)
           {["Amount" := [JS.Fin 149.62]; "Time" := []]} "Amount").
  - intros q Hq. cbn. apply Qeq_bool_iff in Hq. rewrite Hq. reflexivity.
  - discriminate.
Defined.

(** ** TemporalFeatures.ts: hours, days and the temporal risk score *)

Lemma ltb_of_Z (a b : Z) : JS.ltb (JS.of_Z a) (JS.Fin (inject_Z b)) = (a <? b)%Z.
Proof.
  unfold JS.ltb, JS.of_Z. apply eq_true_iff_eq.
  rewrite Qlt_bool_iff, Z.ltb_lt, Zlt_Qlt. reflexivity.
Qed.

Lemma eqb_of_Z (a b : Z) : JS.eqb (JS.of_Z a) (JS.Fin (inject_Z b)) = (a =? b)%Z.
Proof.
  unfold JS.eqb, JS.of_Z. apply eq_true_iff_eq.
  rewrite Qeq_bool_iff, Z.eqb_eq, inject_Z_injective. reflexivity.
Qed.

(** The four clock tests of a valid date, on its local hour and day. *)
Lemma clock_tests (h : Host.env) (ms : Z) :
  let hour := (TemporalFeatures.localTime h ms / 3600000) mod 24 in
  let day := (TemporalFeatures.localTime h ms / 86400000 + 4) mod 7 in
  0 <= hour < 24 /\ 0 <= day < 7
  /\ TemporalFeatures.isNightTime h (JS.ValidDate ms)
     = ((22 <=? hour) || (hour <=? 6))
  /\ TemporalFeatures.isWeekend h (JS.ValidDate ms)
     = ((day =? 0) || (day =? 6))
  /\ TemporalFeatures.isBusinessHours h (JS.ValidDate ms)
     = ((1 <=? day) && (day <=? 5) && (9 <=? hour) && (hour <? 17))
  /\ TemporalFeatures.isUnusualHour h (JS.ValidDate ms)
     = (((1 <=? hour) && (hour <=? 5)) || ((23 <=? hour) && (hour <=? 24))).
Proof.
  cbn zeta.
  split; [apply Z.mod_pos_bound; lia |]. split; [apply Z.mod_pos_bound; lia |].
  unfold TemporalFeatures.isNightTime, TemporalFeatures.isWeekend,
    TemporalFeatures.isBusinessHours, TemporalFeatures.isUnusualHour.
  cbn [TemporalFeatures.getHours TemporalFeatures.getDay].
  change (JS.Fin 0) with (JS.Fin (inject_Z 0)).
  change (JS.Fin 1) with (JS.Fin (inject_Z 1)).
  change (JS.Fin 5) with (JS.Fin (inject_Z 5)).
  change (JS.Fin 6) with (JS.Fin (inject_Z 6)).
  change (JS.Fin 9) with (JS.Fin (inject_Z 9)).
  change (JS.Fin 17) with (JS.Fin (inject_Z 17)).
  change (JS.Fin 22) with (JS.Fin (inject_Z 22)).
  change (JS.Fin 23) with (JS.Fin (inject_Z 23)).
  change (JS.Fin 24) with (JS.Fin (inject_Z 24)).
  rewrite !geb_of_Z, !leb_of_Z, !ltb_of_Z, !eqb_of_Z. repeat split.
Qed.

Lemma temporal_flags (h : Host.env) (date : JS.Date) :
  (TemporalFeatures.isUnusualHour h date = true ->
   TemporalFeatures.isNightTime h date = true)
  /\ (TemporalFeatures.isBusinessHours h date = true ->
      TemporalFeatures.isNightTime h date = false
      /\ TemporalFeatures.isWeekend h date = false
      /\ TemporalFeatures.isUnusualHour h date = false).
Proof.
  destruct date as [ms |].
  - destruct (clock_tests h ms) as (Hh & Hd & -> & -> & -> & ->). split.
    + intros H. apply orb_true_iff. apply orb_true_iff in H.
      rewrite !andb_true_iff, !Z.leb_le in *. lia.
    + intros H. rewrite !andb_true_iff, !Z.leb_le, Z.ltb_lt in H.
      rewrite !orb_false_iff, !andb_false_iff, !Z.leb_gt, !Z.eqb_neq. lia.
  - split; [discriminate |]. discriminate.
Qed.

Lemma temporal_score_value (night weekend business unusual : bool) :
  let score :=
    JSMath.Math_min
      (let r := JS.Fin 0 in
       let r := if night then JS.add r (JS.Fin 0.3) else r in
       let r := if weekend then JS.add r (JS.Fin 0.2) else r in
       let r := if negb business then JS.add r (JS.Fin 0.2) else r in
       let r := if unusual then JS.add r (JS.Fin 0.3) else r in
       r)
      (JS.Fin 1.0) in
  exists q : Q,
    score = JS.Fin q /\ (0 <= q <= 1)%Q
    /\ ((q == 0)%Q <-> night = false /\ weekend = false /\ business = true
                       /\ unusual = false)
    /\ (night = true -> business = false -> (0.5 <= q)%Q).
Proof.
  destruct night, weekend, business, unusual; cbn zeta;
    (eexists; split; [vm_compute; reflexivity |]);
    (split; [split; vm_compute; discriminate |]);
    (split; [split; [intros E; vm_compute in E;
                     first [discriminate | repeat split]
                    | intros (? & ? & ? & ?); try discriminate; reflexivity]
            | intros; try discriminate; vm_compute; discriminate]).
Qed.

(** X4.  [getTemporalRiskScore] of a [Date] is a number between 0 and 1;
    it is 0 exactly during business hours, and at least 0.5 at night.  A
    string timestamp scores as the date it parses to, and anything else
    throws. *)
Theorem getTemporalRiskScore_range (h : Host.env) (date : JS.Date) :
  (exists q : Q,
     TemporalRisk.getTemporalRiskScore h (JS.VDate date) = Ok (JS.Fin q)
     /\ (0 <= q <= 1)%Q
     /\ ((q == 0)%Q <-> TemporalFeatures.isBusinessHours h date = true)
     /\ (TemporalFeatures.isNightTime h date = true -> (0.5 <= q)%Q))
  /\ (forall s : string,
        TemporalRisk.getTemporalRiskScore h (JS.VString s)
        = TemporalRisk.getTemporalRiskScore h (JS.VDate (Date_parse h s)))
  /\ (forall n : JS.number,
        TemporalRisk.getTemporalRiskScore h (JS.VNumber n) = Throw TypeError)
  /\ TemporalRisk.getTemporalRiskScore h JS.VUndefined = Throw TypeError.
Proof.
  split; [| repeat split].
  unfold TemporalRisk.getTemporalRiskScore, TemporalFeatures.extract.
  cbn [TemporalFeatures.as_date Host.bind TemporalFeatures.is_night
       TemporalFeatures.is_weekend TemporalFeatures.is_business_hours].
  destruct (temporal_flags h date) as [Hun Hbus].
  destruct (temporal_score_value (TemporalFeatures.isNightTime h date)
              (TemporalFeatures.isWeekend h date)
              (TemporalFeatures.isBusinessHours h date)
              (TemporalFeatures.isUnusualHour h date))
    as (q & Hq & Hrange & Hzero & Hnight).
  cbv zeta in Hq. exists q. split; [rewrite <- Hq; reflexivity |].
  split; [exact Hrange |]. split.
  - rewrite Hzero. split; [intros (_ & _ & H & _); exact H |].
    intros H. destruct (Hbus H) as (H1 & H2 & H3). auto.
  - intros H. apply Hnight; [exact H |].
    destruct (TemporalFeatures.isBusinessHours h date) eqn:E; [| reflexivity].
    destruct (Hbus eq_refl) as (H1 & _). congruence.
Qed.

Lemma floor_seconds (a b : Z) :
  JS.Math_floor (JS.div (JS.sub (JS.of_Z a) (JS.of_Z b)) (JS.Fin 1000))
  = JS.of_Z ((a - b) / 1000).
Proof.
  unfold JS.Math_floor, JS.div, JS.sub, JS.neg, JS.add, JS.of_Z.
  change (Qeq_bool 1000 0) with false. cbv iota. f_equal. f_equal.
  unfold Qfloor, Qdiv, Qmult, Qinv, Qplus, Qopp, inject_Z. cbn.
  f_equal. lia.
Qed.

(** X5.  For two valid dates, the velocity test on the seconds between
    them is true exactly when the current transaction is less than 60
    seconds after the last one, except when it is up to one second before
    it: those differences floor to -1, the value that stands for "no
    previous transaction".  Without a previous transaction, and with an
    invalid date, the test is false. *)
Theorem velocity_test_characterisation (current last : Z) :
  (TemporalRisk.isSuspiciousVelocity
     (TemporalRisk.getTimeSinceLastTransaction (JS.ValidDate current)
        (Some (JS.ValidDate last))) = true
   <-> current - last < 60000 /\ ~ (-1000 <= current - last < 0))
  /\ TemporalRisk.getTimeSinceLastTransaction (JS.ValidDate current)
       (Some (JS.ValidDate last)) = JS.of_Z ((current - last) / 1000)
  /\ TemporalRisk.isSuspiciousVelocity
       (TemporalRisk.getTimeSinceLastTransaction (JS.ValidDate current) None)
     = false
  /\ TemporalRisk.isSuspiciousVelocity
       (TemporalRisk.getTimeSinceLastTransaction (JS.ValidDate current)
          (Some JS.InvalidDate)) = false
  /\ TemporalRisk.isSuspiciousVelocity
       (TemporalRisk.getTimeSinceLastTransaction JS.InvalidDate
          (Some (JS.ValidDate last))) = false.
Proof.
  assert (Hv : TemporalRisk.getTimeSinceLastTransaction (JS.ValidDate current)
                 (Some (JS.ValidDate last)) = JS.of_Z ((current - last) / 1000)).
  { unfold TemporalRisk.getTimeSinceLastTransaction. cbn [JS.getTime].
    apply floor_seconds. }
  split; [| split; [exact Hv | repeat split]].
  rewrite Hv. unfold TemporalRisk.isSuspiciousVelocity.
  change (JS.Fin (-1)) with (JS.Fin (inject_Z (-1))).
  change (JS.Fin 60) with (JS.Fin (inject_Z 60)).
  rewrite eqb_of_Z, ltb_of_Z.
  set (s := (current - last) / 1000).
  assert (Hs : 1000 * s <= current - last < 1000 * s + 1000).
  { unfold s. pose proof (Z.div_mod (current - last) 1000 ltac:(lia)).
    pose proof (Z.mod_pos_bound (current - last) 1000 ltac:(lia)). lia. }
  destruct (s =? -1) eqn:E.
  - apply Z.eqb_eq in E. split; [discriminate | lia].
  - apply Z.eqb_neq in E. rewrite Z.ltb_lt. lia.
Qed.

Lemma hour_category (h : Host.env) (ms : Z) :
  let hour := (TemporalFeatures.localTime h ms / 3600000) mod 24 in
  TemporalRisk.getHourCategory h (JS.ValidDate ms)
  = if hour <? 6 then TemporalRisk.early_morning
    else if hour <? 12 then TemporalRisk.morning
    else if hour <? 17 then TemporalRisk.afternoon
    else if hour <? 21 then TemporalRisk.evening
    else TemporalRisk.night.
Proof.
  cbn zeta. unfold TemporalRisk.getHourCategory.
  cbn [TemporalFeatures.getHours].
  pose proof (Z.mod_pos_bound (TemporalFeatures.localTime h ms / 3600000) 24
                ltac:(lia)) as Hh.
  set (hour := (TemporalFeatures.localTime h ms / 3600000) mod 24) in *.
  change (JS.Fin 0) with (JS.Fin (inject_Z 0)).
  change (JS.Fin 6) with (JS.Fin (inject_Z 6)).
  change (JS.Fin 12) with (JS.Fin (inject_Z 12)).
  change (JS.Fin 17) with (JS.Fin (inject_Z 17)).
  change (JS.Fin 21) with (JS.Fin (inject_Z 21)).
  rewrite !geb_of_Z, !ltb_of_Z.
  destruct (hour <? 6) eqn:E6; [replace (0 <=? hour) with true by lia; reflexivity |].
  rewrite andb_false_r.
  destruct (hour <? 12) eqn:E12;
    [replace (6 <=? hour) with true by lia; reflexivity |].
  rewrite andb_false_r.
  destruct (hour <? 17) eqn:E17;
    [replace (12 <=? hour) with true by lia; reflexivity |].
  rewrite andb_false_r.
  destruct (hour <? 21) eqn:E21;
    [replace (17 <=? hour) with true by lia; reflexivity |].
  rewrite andb_false_r. reflexivity.
Qed.

(** X6.  The clock features of one date never contradict each other: an
    unusual hour is always a night hour, of category [early_morning] or
    [night]; business hours are never at night, never on a weekend and
    never at an unusual hour, and their category is [morning] or
    [afternoon]; a night-time hour is never [afternoon] or [evening] (hour
    6 is night time and [morning]).  A date that is not valid has category
    [night] although it is not night time.  [isHighRiskTime] answers what
    [isNightTime] answers. *)
Theorem temporal_features_consistent (h : Host.env) (date : JS.Date) :
  (TemporalFeatures.isUnusualHour h date = true ->
   TemporalFeatures.isNightTime h date = true
   /\ (TemporalRisk.getHourCategory h date = TemporalRisk.early_morning
       \/ TemporalRisk.getHourCategory h date = TemporalRisk.night))
  /\ (TemporalFeatures.isBusinessHours h date = true ->
      TemporalFeatures.isNightTime h date = false
      /\ TemporalFeatures.isWeekend h date = false
      /\ TemporalFeatures.isUnusualHour h date = false
      /\ (TemporalRisk.getHourCategory h date = TemporalRisk.morning
          \/ TemporalRisk.getHourCategory h date = TemporalRisk.afternoon))
  /\ (TemporalFeatures.isNightTime h date = true ->
      TemporalRisk.getHourCategory h date <> TemporalRisk.afternoon
      /\ TemporalRisk.getHourCategory h date <> TemporalRisk.evening)
  /\ TemporalRisk.getHourCategory h JS.InvalidDate = TemporalRisk.night
  /\ TemporalFeatures.isNightTime h JS.InvalidDate = false
  /\ TemporalRisk.isHighRiskTime h (JS.VDate date)
     = Ok (TemporalFeatures.isNightTime h date).
Proof.
  destruct (temporal_flags h date) as [Hun Hbus].
  split; [| split; [| split; [| repeat split]]].
  - intros H. split; [exact (Hun H) |]. revert H.
    destruct date as [ms |]; [| discriminate].
    destruct (clock_tests h ms) as (Hh & _ & _ & _ & _ & ->).
    rewrite hour_category. cbv zeta.
    set (hour := (TemporalFeatures.localTime h ms / 3600000) mod 24) in *.
    intros H. apply orb_true_iff in H. rewrite !andb_true_iff, !Z.leb_le in H.
    destruct (hour <? 6) eqn:E6; [left; reflexivity |].
    replace (hour <? 12) with false by lia.
    replace (hour <? 17) with false by lia.
    replace (hour <? 21) with false by lia. right. reflexivity.
  - intros H. destruct (Hbus H) as (H1 & H2 & H3).
    split; [exact H1 |]. split; [exact H2 |]. split; [exact H3 |]. revert H.
    clear Hun Hbus H1 H2 H3.
    destruct date as [ms |]; [| discriminate].
    destruct (clock_tests h ms) as (Hh & _ & _ & _ & -> & _).
    rewrite hour_category. cbv zeta.
    set (hour := (TemporalFeatures.localTime h ms / 3600000) mod 24) in *.
    intros H. rewrite !andb_true_iff, !Z.leb_le, Z.ltb_lt in H.
    replace (hour <? 6) with false by lia.
    destruct (hour <? 12); [left; reflexivity |].
    replace (hour <? 17) with true by lia. right. reflexivity.
  - clear Hun Hbus. destruct date as [ms |]; [| discriminate].
    destruct (clock_tests h ms) as (Hh & _ & -> & _).
    rewrite hour_category. cbv zeta.
    set (hour := (TemporalFeatures.localTime h ms / 3600000) mod 24) in *.
    intros H. apply orb_true_iff in H. rewrite !Z.leb_le in H.
    destruct (hour <? 6) eqn:E6; [split; discriminate |].
    destruct (hour <? 12) eqn:E12; [split; discriminate |].
    replace (hour <? 17) with false by lia.
    replace (hour <? 21) with false by lia. split; discriminate.
Qed.

(** ** AmountFeatures.ts: percentile rank, deviation and the risk score *)

Lemma Qle_bool_false_lt (x y : Q) : Qle_bool x y = false -> (y < x)%Q.
Proof.
  intros H. apply Qnot_le_lt. intros Hle. apply Qle_bool_iff in Hle. congruence.
Qed.

Lemma div_Fin (x d : Q) :
  Qeq_bool d 0 = false -> JS.div (JS.Fin x) (JS.Fin d) = JS.Fin (x / d).
Proof. intros H. unfold JS.div. rewrite H. reflexivity. Qed.

Lemma Math_min_Fin (x y : Q) :
  JSMath.Math_min (JS.Fin x) (JS.Fin y) = JS.Fin (if Qle_bool x y then x else y).
Proof.
  unfold JSMath.Math_min, JS.ltb, JS.Qlt_bool. destruct (Qle_bool x y); reflexivity.
Qed.

(** The six pieces of [getPercentileRank] on a finite amount. *)
Lemma percentile_pieces (a : Q) :
  exists r : Q,
    AmountRisk.getPercentileRank (JS.Fin a) = JS.Fin r
    /\ ((a <= 22.0 /\ r = a / 22.0 * 50)
        \/ (22.0 < a /\ a <= 77.165
            /\ r = 50 + (a + - 22.0) / (77.165 + - 22.0) * 25)
        \/ (77.165 < a /\ a <= 263.15
            /\ r = 75 + (a + - 77.165) / (263.15 + - 77.165) * 15)
        \/ (263.15 < a /\ a <= 394.64
            /\ r = 90 + (a + - 263.15) / (394.64 + - 263.15) * 5)
        \/ (394.64 < a /\ a <= 1232.93
            /\ r = 95 + (a + - 394.64) / (1232.93 + - 394.64) * 4)
        \/ (1232.93 < a
            /\ 99 + (a + - 1232.93) / (25691.16 + - 1232.93) <= 100
            /\ r = 99 + (a + - 1232.93) / (25691.16 + - 1232.93))
        \/ (100 < 99 + (a + - 1232.93) / (25691.16 + - 1232.93)
            /\ r = 100))%Q.
Proof.
  unfold AmountRisk.getPercentileRank, AmountRisk.AMOUNT_P50,
    AmountRisk.AMOUNT_P75, AmountRisk.AMOUNT_P90, AmountRisk.AMOUNT_P95,
    AmountRisk.AMOUNT_P99, AmountRisk.AMOUNT_MAX.
  cbn [JS.leb JS.sub JS.neg JS.add].
  rewrite !div_Fin by reflexivity. cbn [JS.mul JS.add].
  rewrite Math_min_Fin.
  destruct (Qle_bool a 22.0) eqn:E1.
  { eexists; split; [reflexivity |]. left. apply Qle_bool_iff in E1. auto. }
  apply Qle_bool_false_lt in E1.
  destruct (Qle_bool a 77.165) eqn:E2.
  { eexists; split; [reflexivity |]. right; left. apply Qle_bool_iff in E2. auto. }
  apply Qle_bool_false_lt in E2.
  destruct (Qle_bool a 263.15) eqn:E3.
  { eexists; split; [reflexivity |]. do 2 right; left.
    apply Qle_bool_iff in E3. auto. }
  apply Qle_bool_false_lt in E3.
  destruct (Qle_bool a 394.64) eqn:E4.
  { eexists; split; [reflexivity |]. do 3 right; left.
    apply Qle_bool_iff in E4. auto. }
  apply Qle_bool_false_lt in E4.
  destruct (Qle_bool a 1232.93) eqn:E5.
  { eexists; split; [reflexivity |]. do 4 right; left.
    apply Qle_bool_iff in E5. auto. }
  apply Qle_bool_false_lt in E5.
  destruct (Qle_bool _ 100) eqn:E6.
  { eexists; split; [reflexivity |]. do 5 right; left.
    apply Qle_bool_iff in E6. auto. }
  apply Qle_bool_false_lt in E6.
  eexists; split; [reflexivity |]. do 6 right. auto.
Qed.

(** X7.  The percentile rank never decreases when the amount grows. *)
Theorem getPercentileRank_monotone (a b : Q) :
  (a <= b)%Q ->
  exists ra rb : Q,
    AmountRisk.getPercentileRank (JS.Fin a) = JS.Fin ra
    /\ AmountRisk.getPercentileRank (JS.Fin b) = JS.Fin rb
    /\ (ra <= rb)%Q.
Proof.
  intros Hab.
  destruct (percentile_pieces a) as (ra & Ha & Hra).
  destruct (percentile_pieces b) as (rb & Hb & Hrb).
  exists ra, rb. split; [exact Ha |]. split; [exact Hb |].
  clear Ha Hb.
  percentile_cases Hra; percentile_cases Hrb; div_const; lra.
Qed.

Lemma getPercentileRank_monotone_witness :
  exists ra rb : Q,
    AmountRisk.getPercentileRank (JS.Fin 20) = JS.Fin ra
    /\ AmountRisk.getPercentileRank (JS.Fin 500) = JS.Fin rb
    /\ (ra <= rb)%Q.
Proof. apply (getPercentileRank_monotone 20 500). vm_compute. discriminate. Defined.

(** X8.  On a finite amount that is not negative, the percentile rank is
    a number between 0 and 100 that lies in the band of the amount's
    category: at most 50 for a small amount, from 50 to 75 for a medium
    one, from 75 to 90 for a large one, from 90 to 95 for a very large
    one and at least 95 for an extremely large one.  A rank above 95 is
    that of a large amount ([isLargeAmount]), and the five percentile
    amounts have the ranks 50, 75, 90, 95 and 99. *)
Theorem getPercentileRank_bands (a : Q) :
  (0 <= a)%Q ->
  exists r : Q,
    AmountRisk.getPercentileRank (JS.Fin a) = JS.Fin r
    /\ (0 <= r <= 100)%Q
    /\ match AmountRisk.getAmountCategory (JS.Fin a) with
       | AmountRisk.Small => (r <= 50)%Q
       | AmountRisk.Medium => (50 <= r <= 75)%Q
       | AmountRisk.Large => (75 <= r <= 90)%Q
       | AmountRisk.VeryLarge => (90 <= r <= 95)%Q
       | AmountRisk.ExtremelyLarge => (95 <= r)%Q
       end
    /\ ((95 < r)%Q -> AmountRisk.isLargeAmount (JS.Fin a) = true)
    /\ (AmountRisk.isLargeAmount (JS.Fin a) = true -> (95 <= r)%Q)
    /\ ((1232.93 <= a)%Q -> (99 <= r)%Q)
    /\ JS.eqb (AmountRisk.getPercentileRank AmountRisk.AMOUNT_P50) (JS.Fin 50)
       = true
    /\ JS.eqb (AmountRisk.getPercentileRank AmountRisk.AMOUNT_P75) (JS.Fin 75)
       = true
    /\ JS.eqb (AmountRisk.getPercentileRank AmountRisk.AMOUNT_P90) (JS.Fin 90)
       = true
    /\ JS.eqb (AmountRisk.getPercentileRank AmountRisk.AMOUNT_P95) (JS.Fin 95)
       = true
    /\ JS.eqb (AmountRisk.getPercentileRank AmountRisk.AMOUNT_P99) (JS.Fin 99)
       = true.
Proof.
  intros Hpos.
  destruct (percentile_pieces a) as (r & Hr & Hpieces).
  exists r. split; [exact Hr |]. clear Hr.
  assert (Hlarge : AmountRisk.isLargeAmount (JS.Fin a) = true <-> (394.64 < a)%Q).
  { unfold AmountRisk.isLargeAmount, AmountRisk.AMOUNT_P95, JS.gtb, JS.ltb.
    apply Qlt_bool_iff. }
  assert (Hcategory :
            match AmountRisk.getAmountCategory (JS.Fin a) with
            | AmountRisk.Small => (a <= 22.0)%Q
            | AmountRisk.Medium => (22.0 < a <= 77.165)%Q
            | AmountRisk.Large => (77.165 < a <= 263.15)%Q
            | AmountRisk.VeryLarge => (263.15 < a <= 394.64)%Q
            | AmountRisk.ExtremelyLarge => (394.64 < a)%Q
            end).
  { unfold AmountRisk.getAmountCategory, AmountRisk.AMOUNT_P50,
      AmountRisk.AMOUNT_P75, AmountRisk.AMOUNT_P90, AmountRisk.AMOUNT_P95.
    cbn [JS.leb].
    destruct (Qle_bool a 22.0) eqn:E1; [apply Qle_bool_iff in E1; exact E1 |].
    apply Qle_bool_false_lt in E1.
    destruct (Qle_bool a 77.165) eqn:E2; [apply Qle_bool_iff in E2; auto |].
    apply Qle_bool_false_lt in E2.
    destruct (Qle_bool a 263.15) eqn:E3; [apply Qle_bool_iff in E3; auto |].
    apply Qle_bool_false_lt in E3.
    destruct (Qle_bool a 394.64) eqn:E4; [apply Qle_bool_iff in E4; auto |].
    apply Qle_bool_false_lt in E4. exact E4. }
  rewrite Hlarge. clear Hlarge.
  split; [| split; [| split; [| split; [| split]]]].
  - percentile_cases Hpieces; div_const; split; lra.
  - destruct (AmountRisk.getAmountCategory (JS.Fin a));
      percentile_cases Hpieces; div_const; try split; lra.
  - clear Hcategory. percentile_cases Hpieces; div_const; intros; lra.
  - clear Hcategory. percentile_cases Hpieces; div_const; intros; lra.
  - clear Hcategory. percentile_cases Hpieces; div_const; intros; lra.
  - repeat split; vm_compute; reflexivity.
Qed.

Lemma getPercentileRank_bands_witness :
  exists r : Q,
    AmountRisk.getPercentileRank (JS.Fin 500) = JS.Fin r
    /\ (0 <= r <= 100)%Q
    /\ match AmountRisk.getAmountCategory (JS.Fin 500) with
       | AmountRisk.Small => (r <= 50)%Q
       | AmountRisk.Medium => (50 <= r <= 75)%Q
       | AmountRisk.Large => (75 <= r <= 90)%Q
       | AmountRisk.VeryLarge => (90 <= r <= 95)%Q
       | AmountRisk.ExtremelyLarge => (95 <= r)%Q
       end
    /\ ((95 < r)%Q -> AmountRisk.isLargeAmount (JS.Fin 500) = true)
    /\ (AmountRisk.isLargeAmount (JS.Fin 500) = true -> (95 <= r)%Q)
    /\ ((1232.93 <= 500)%Q -> (99 <= r)%Q)
    /\ JS.eqb (AmountRisk.getPercentileRank AmountRisk.AMOUNT_P50) (JS.Fin 50)
       = true
    /\ JS.eqb (AmountRisk.getPercentileRank AmountRisk.AMOUNT_P75) (JS.Fin 75)
       = true
    /\ JS.eqb (AmountRisk.getPercentileRank AmountRisk.AMOUNT_P90) (JS.Fin 90)
       = true
    /\ JS.eqb (AmountRisk.getPercentileRank AmountRisk.AMOUNT_P95) (JS.Fin 95)
       = true
    /\ JS.eqb (AmountRisk.getPercentileRank AmountRisk.AMOUNT_P99) (JS.Fin 99)
       = true.
Proof. apply (getPercentileRank_bands 500). vm_compute. discriminate. Defined.

(** X9.  Every amount that [isSuspiciousAmount] flags is flagged by its
    first test alone: the function equals [isLargeAmount], the
    round-number test adding nothing. *)
Theorem isSuspiciousAmount_is_isLargeAmount (amount : JS.number) :
  AmountRisk.isSuspiciousAmount amount = AmountRisk.isLargeAmount amount.
Proof.
  unfold AmountRisk.isSuspiciousAmount.
  destruct (AmountRisk.isLargeAmount amount) eqn:Hlarge; [reflexivity |].
  cbn [orb]. apply andb_false_iff. right.
  unfold AmountRisk.isLargeAmount, AmountRisk.AMOUNT_P95, JS.gtb in *.
  destruct amount as [q | | |]; try reflexivity; try discriminate.
  cbn [JS.ltb] in *. apply Qlt_bool_false_iff in Hlarge.
  apply Qlt_bool_false_iff. lra.
Qed.

Lemma Qabs_div (x s : Q) : ~ (s == 0)%Q -> (Qabs (x / s) * Qabs s == Qabs x)%Q.
Proof.
  intros Hs. rewrite <- Qabs_Qmult. apply Qabs_wd. field. exact Hs.
Qed.

Lemma Qabs_pos_nonzero (s : Q) : ~ (s == 0)%Q -> (0 < Qabs s)%Q.
Proof.
  intros Hs. destruct (Qlt_le_dec 0 (Qabs s)) as [H | H]; [exact H |].
  exfalso. apply Hs. apply Qabs_Qle_condition in H. lra.
Qed.

(** The deviation test on finite numbers with a standard deviation other
    than zero. *)
Lemma unusual_Fin (amount userAverage userStd : Q) :
  Qeq_bool userStd 0 = false ->
  AmountRisk.isUnusualForUser (JS.Fin amount) (JS.Fin userAverage) (JS.Fin userStd)
  = JS.Qlt_bool 3 (Qabs ((amount + - userAverage) / userStd)).
Proof.
  intros Hz. unfold AmountRisk.isUnusualForUser, AmountRisk.calculateDeviation.
  cbn [JS.eqb]. rewrite Hz. cbn [JS.sub JS.neg JS.add].
  rewrite div_Fin by exact Hz. reflexivity.
Qed.

Lemma Qeq_bool_false (x : Q) : Qeq_bool x 0 = false -> ~ (x == 0)%Q.
Proof. intros H E. apply Qeq_bool_iff in E. congruence. Qed.

Lemma Qeq_bool_opp (x : Q) : Qeq_bool (- x) 0 = Qeq_bool x 0.
Proof.
  destruct (Qeq_bool x 0) eqn:E.
  - apply Qeq_bool_iff in E. apply Qeq_bool_iff. rewrite E. reflexivity.
  - destruct (Qeq_bool (- x) 0) eqn:E'; [| reflexivity].
    apply Qeq_bool_iff in E'. apply Qeq_bool_false in E. exfalso. apply E. lra.
Qed.

Lemma Qlt_bool_wd (x y z : Q) : (y == z)%Q -> JS.Qlt_bool x y = JS.Qlt_bool x z.
Proof.
  intros H. destruct (JS.Qlt_bool x z) eqn:E.
  - apply Qlt_bool_iff in E. apply Qlt_bool_iff. rewrite H. exact E.
  - apply Qlt_bool_false_iff in E. apply Qlt_bool_false_iff. rewrite H. exact E.
Qed.

(** X10.  [isUnusualForUser] on finite numbers.  With a standard
    deviation of zero no amount is unusual, and the user's average itself
    never is.  An amount farther from the average on the same side than
    an unusual one is unusual too.  The sign of the standard deviation
    does not matter.  With average 0 and standard deviation 1 the unusual
    amounts are those of absolute value above 3. *)
Theorem isUnusualForUser_properties :
  (forall amount userAverage userStd : Q,
     (userStd == 0)%Q ->
     AmountRisk.isUnusualForUser (JS.Fin amount) (JS.Fin userAverage)
       (JS.Fin userStd) = false)
  /\ (forall amount userAverage userStd : Q,
        (amount == userAverage)%Q ->
        AmountRisk.isUnusualForUser (JS.Fin amount) (JS.Fin userAverage)
          (JS.Fin userStd) = false)
  /\ (forall amount amount' userAverage userStd : Q,
        (userAverage <= amount' <= amount)%Q
        \/ (amount <= amount' <= userAverage)%Q ->
        AmountRisk.isUnusualForUser (JS.Fin amount') (JS.Fin userAverage)
          (JS.Fin userStd) = true ->
        AmountRisk.isUnusualForUser (JS.Fin amount) (JS.Fin userAverage)
          (JS.Fin userStd) = true)
  /\ (forall amount userAverage userStd : Q,
        AmountRisk.isUnusualForUser (JS.Fin amount) (JS.Fin userAverage)
          (JS.neg (JS.Fin userStd))
        = AmountRisk.isUnusualForUser (JS.Fin amount) (JS.Fin userAverage)
            (JS.Fin userStd))
  /\ (forall amount : Q,
        AmountRisk.isUnusualForUser (JS.Fin amount) (JS.Fin 0) (JS.Fin 1) = true
        <-> (3 < Qabs amount)%Q).
Proof.
  split; [| split; [| split; [| split]]].
  - intros amount userAverage userStd Hz.
    unfold AmountRisk.isUnusualForUser, AmountRisk.calculateDeviation.
    cbn [JS.eqb]. apply Qeq_bool_iff in Hz. rewrite Hz. reflexivity.
  - intros amount userAverage userStd Heq.
    destruct (Qeq_bool userStd 0) eqn:Hz.
    + unfold AmountRisk.isUnusualForUser, AmountRisk.calculateDeviation.
      cbn [JS.eqb]. rewrite Hz. reflexivity.
    + rewrite unusual_Fin by exact Hz. apply Qlt_bool_false_iff.
      assert (H0 : ((amount + - userAverage) / userStd == 0)%Q).
      { rewrite Heq. field. apply Qeq_bool_false. exact Hz. }
      rewrite H0. discriminate.
  - intros amount amount' userAverage userStd Hside.
    destruct (Qeq_bool userStd 0) eqn:Hz.
    + unfold AmountRisk.isUnusualForUser, AmountRisk.calculateDeviation.
      cbn [JS.eqb]. rewrite Hz. discriminate.
    + rewrite !unusual_Fin by exact Hz. rewrite !Qlt_bool_iff.
      pose proof (Qeq_bool_false userStd Hz) as Hs.
      pose proof (Qabs_div (amount + - userAverage) userStd Hs) as Hdiv.
      pose proof (Qabs_div (amount' + - userAverage) userStd Hs) as Hdiv'.
      pose proof (Qabs_pos_nonzero userStd Hs) as Hpos.
      assert (Hfar : (Qabs (amount' + - userAverage)
                      <= Qabs (amount + - userAverage))%Q).
      { destruct Hside as [[H1 H2] | [H1 H2]].
        - rewrite !Qabs_pos by lra. lra.
        - rewrite !Qabs_neg by lra. lra. }
      set (k := Qabs userStd) in *.
      set (t := Qabs ((amount + - userAverage) / userStd)) in *.
      set (t' := Qabs ((amount' + - userAverage) / userStd)) in *.
      intros H'.
      assert (Hle : (t' * k <= t * k)%Q) by (rewrite Hdiv, Hdiv'; exact Hfar).
      apply Qmult_le_r in Hle; [lra | exact Hpos].
  - intros amount userAverage userStd. cbn [JS.neg].
    destruct (Qeq_bool userStd 0) eqn:Hz.
    + unfold AmountRisk.isUnusualForUser, AmountRisk.calculateDeviation.
      cbn [JS.eqb]. rewrite Qeq_bool_opp, Hz. reflexivity.
    + rewrite !unusual_Fin by (rewrite ?Qeq_bool_opp; exact Hz).
      apply Qlt_bool_wd.
      assert (Hopp : ((amount + - userAverage) / - userStd
                      == - ((amount + - userAverage) / userStd))%Q).
      { field. apply Qeq_bool_false. exact Hz. }
      rewrite Hopp. apply Qabs_opp.
  - intros amount. rewrite unusual_Fin by reflexivity. rewrite Qlt_bool_iff.
    assert (H1 : ((amount + - 0) / 1 == amount)%Q) by field.
    rewrite H1. reflexivity.
Qed.

Lemma rem_is_zero_iff (q d : Q) :
  ~ (d == 0)%Q ->
  AmountFeatures.rem_is_zero (JS.Fin q) d = true
  <-> exists n : Z, (q == inject_Z n * d)%Q.
Proof.
  intros Hd. unfold AmountFeatures.rem_is_zero. rewrite Qeq_bool_iff. split.
  - intros H. exists (Qfloor (q / d)). rewrite <- H. field. exact Hd.
  - intros [n Hn].
    assert (Hq : (q / d == inject_Z n)%Q) by (rewrite Hn; field; exact Hd).
    rewrite (Qfloor_comp _ _ Hq), Qfloor_Z. exact Hq.
Qed.

Lemma hundreds_are_round (amount : JS.number) :
  AmountFeatures.rem_is_zero amount 100 = true ->
  AmountRisk.isRoundNumber amount = true.
Proof.
  destruct amount as [q | | |]; try discriminate.
  intros H. apply rem_is_zero_iff in H; [| discriminate].
  destruct H as [n Hn]. unfold AmountRisk.isRoundNumber.
  apply andb_true_iff. split; (apply rem_is_zero_iff; [discriminate |]).
  - exists (100 * n)%Z. rewrite inject_Z_mult, Hn. ring.
  - exists (10 * n)%Z. rewrite inject_Z_mult, Hn. ring.
Qed.

Lemma amount_score_value (large round very unusual : bool) :
  let score :=
    JSMath.Math_min
      (let r := JS.Fin 0 in
       let r := if large then JS.add r (JS.Fin 0.3) else r in
       let r := if round then JS.add r (JS.Fin 0.2) else r in
       let r := if very then JS.add r (JS.Fin 0.1) else r in
       let r := if unusual then JS.add r (JS.Fin 0.4) else r in
       r)
      (JS.Fin 1.0) in
  exists q : Q,
    score = JS.Fin q /\ (0 <= q <= 1)%Q
    /\ (unusual = false -> (q <= 0.6)%Q)
    /\ (large = true -> (0.3 <= q)%Q)
    /\ (very = true -> round = true -> (0.3 <= q)%Q)
    /\ ((q == 0)%Q <-> large = false /\ round = false /\ very = false
                       /\ unusual = false).
Proof.
  destruct large, round, very, unusual; cbn zeta;
    (eexists; split; [vm_compute; reflexivity |]);
    (split; [split; vm_compute; discriminate |]);
    (split; [intros; try discriminate; vm_compute; discriminate |]);
    (split; [intros; try discriminate; vm_compute; discriminate |]);
    (split; [intros; try discriminate; vm_compute; discriminate |]);
    (split; [intros E; vm_compute in E; first [discriminate | repeat split]
            | intros (? & ? & ? & ?); try discriminate; reflexivity]).
Qed.

(** X11.  [getAmountRiskScore] is a number between 0 and 1.  Without the
    user's history it is at most 0.6; it is at least 0.3 for a large
    amount and for a positive multiple of 100; and it is 0 exactly when
    the amount is neither large, nor round, nor unusual for the user. *)
Theorem getAmountRiskScore_range (amount : JS.number)
    (userAverage userStd : option JS.number) :
  let unusual :=
    match userAverage, userStd with
    | Some average, Some std => AmountRisk.isUnusualForUser amount average std
    | _, _ => false
    end in
  exists q : Q,
    AmountRisk.getAmountRiskScore amount userAverage userStd = JS.Fin q
    /\ (0 <= q <= 1)%Q
    /\ (userAverage = None \/ userStd = None -> (q <= 0.6)%Q)
    /\ (AmountRisk.isLargeAmount amount = true -> (0.3 <= q)%Q)
    /\ (AmountFeatures.rem_is_zero amount 100 = true ->
        JS.gtb amount (JS.Fin 0) = true -> (0.3 <= q)%Q)
    /\ ((q == 0)%Q <-> AmountRisk.isLargeAmount amount = false
                       /\ AmountRisk.isRoundNumber amount = false
                       /\ unusual = false).
Proof.
  intros unusual.
  destruct (amount_score_value (AmountRisk.isLargeAmount amount)
              (AmountRisk.isRoundNumber amount)
              (AmountFeatures.rem_is_zero amount 100 && JS.gtb amount (JS.Fin 0))
              unusual)
    as (q & Hq & Hrange & Hhist & Hlarge & Hvery & Hzero).
  cbv zeta in Hq. exists q. split.
  { rewrite <- Hq. unfold AmountRisk.getAmountRiskScore, unusual.
    destruct userAverage, userStd; reflexivity. }
  split; [exact Hrange |]. split.
  { intros H. apply Hhist. unfold unusual.
    destruct H as [-> | ->]; [reflexivity |]. destruct userAverage; reflexivity. }
  split; [exact Hlarge |]. split.
  { intros H100 Hpos. apply Hvery.
    - rewrite H100, Hpos. reflexivity.
    - apply hundreds_are_round. exact H100. }
  rewrite Hzero. split.
  - intros (H1 & H2 & _ & H4). auto.
  - intros (H1 & H2 & H4). repeat split; try assumption.
    apply andb_false_iff. left.
    destruct (AmountFeatures.rem_is_zero amount 100) eqn:E; [| reflexivity].
    apply hundreds_are_round in E. congruence.
Qed.

(** ** RiskIndicators.ts: the score, the flags and the country list *)

(** The score as the capped sum of the weights of the raised flags. *)
Lemma getRiskScore_sum (i : RiskIndicators.RiskIndicators) :
  exists q : Q,
    RiskScoring.getRiskScore i = JS.Fin q
    /\ let raw :=
         ((if RiskIndicators.is_high_risk_country i then 0.25 else 0)
          + (if RiskIndicators.is_online i then 0.10 else 0)
          + (if RiskIndicators.is_new_merchant i then 0.15 else 0)
          + (if RiskIndicators.is_new_country i then 0.20 else 0)
          + (if RiskIndicators.is_high_amount i then 0.15 else 0)
          + (if RiskIndicators.is_unusual_hour i then 0.20 else 0)
          + (if RiskIndicators.is_velocity_spike i then 0.30 else 0)
          + (if RiskIndicators.is_amount_spike i then 0.25 else 0))%Q in
       (q == if Qle_bool raw 1 then raw else 1)%Q.
Proof.
  destruct i as [[] [] [] [] [] [] [] []];
    (eexists; split; [vm_compute; reflexivity | vm_compute; reflexivity]).
Qed.

Lemma level_of_score (i : RiskIndicators.RiskIndicators) (q : Q) :
  RiskScoring.getRiskScore i = JS.Fin q ->
  RiskScoring.getRiskLevelFromIndicators i
  = if JS.Qlt_bool q 0.2 then RiskScoring.LOW
    else if JS.Qlt_bool q 0.4 then RiskScoring.MEDIUM
    else if JS.Qlt_bool q 0.6 then RiskScoring.HIGH
    else RiskScoring.VERY_HIGH.
Proof.
  intros H. unfold RiskScoring.getRiskLevelFromIndicators. rewrite H. reflexivity.
Qed.

Lemma weight_le (a b : bool) (w : Q) :
  (0 <= w)%Q -> (a = true -> b = true) ->
  ((if a then w else 0) <= (if b then w else 0))%Q.
Proof.
  intros Hw Hab. destruct a, b; first [lra | discriminate (Hab eq_refl)].
Qed.

(** X12.  Raising further flags never lowers the risk score nor the risk
    level read from it. *)
Theorem getRiskScore_monotone (i j : RiskIndicators.RiskIndicators) :
  Forall2 (fun a b : bool => a = true -> b = true)
    (RiskScoring.values i) (RiskScoring.values j) ->
  exists qi qj : Q,
    RiskScoring.getRiskScore i = JS.Fin qi
    /\ RiskScoring.getRiskScore j = JS.Fin qj
    /\ (qi <= qj)%Q
    /\ (RiskScoring.rank (RiskScoring.getRiskLevelFromIndicators i)
        <= RiskScoring.rank (RiskScoring.getRiskLevelFromIndicators j))%nat.
Proof.
  intros Hflags.
  destruct (getRiskScore_sum i) as (qi & Hi & Hqi).
  destruct (getRiskScore_sum j) as (qj & Hj & Hqj).
  exists qi, qj. split; [exact Hi |]. split; [exact Hj |].
  assert (Hle : (qi <= qj)%Q).
  { unfold RiskScoring.values in Hflags.
    repeat match goal with
           | H : Forall2 _ (_ :: _) (_ :: _) |- _ =>
               apply Forall2_cons_1 in H; destruct H as [? H]
           end.
    cbv zeta in Hqi, Hqj.
    repeat match goal with
           | H : ?a = true -> ?b = true |- _ =>
               match goal with
               | _ : context [if a then ?w else 0%Q] |- _ =>
                   pose proof (weight_le a b w ltac:(discriminate) H); clear H
               end
           end.
    repeat match goal with
           | H : context [if ?a then ?w else 0%Q] |- _ =>
               generalize dependent (if a then w else 0%Q); intros
           end.
    repeat match goal with
           | H : context [Qle_bool ?x 1] |- _ =>
               let E := fresh "E" in
               destruct (Qle_bool x 1) eqn:E;
               [apply Qle_bool_iff in E | apply Qle_bool_false_lt in E]
           end; lra. }
  split; [exact Hle |].
  rewrite (level_of_score i qi Hi), (level_of_score j qj Hj).
  destruct (JS.Qlt_bool qi 0.2) eqn:A1; [cbn; lia |].
  apply Qlt_bool_false_iff in A1.
  destruct (JS.Qlt_bool qj 0.2) eqn:B1; [apply Qlt_bool_iff in B1; lra |].
  destruct (JS.Qlt_bool qi 0.4) eqn:A2; [cbn; destruct (JS.Qlt_bool qj 0.4),
    (JS.Qlt_bool qj 0.6); cbn; lia |].
  apply Qlt_bool_false_iff in A2.
  destruct (JS.Qlt_bool qj 0.4) eqn:B2; [apply Qlt_bool_iff in B2; lra |].
  destruct (JS.Qlt_bool qi 0.6) eqn:A3; [cbn; destruct (JS.Qlt_bool qj 0.6);
    cbn; lia |].
  apply Qlt_bool_false_iff in A3.
  destruct (JS.Qlt_bool qj 0.6) eqn:B3; [apply Qlt_bool_iff in B3; lra |].
  cbn. lia.
Qed.

Lemma getRiskScore_monotone_witness :
  exists qi qj : Q,
    RiskScoring.getRiskScore
      {| RiskIndicators.is_high_risk_country := false;
         RiskIndicators.is_online := true;
         RiskIndicators.is_new_merchant := false;
         RiskIndicators.is_new_country := false;
         RiskIndicators.is_high_amount := false;
         RiskIndicators.is_unusual_hour := false;
         RiskIndicators.is_velocity_spike := false;
         RiskIndicators.is_amount_spike := false |} = JS.Fin qi
    /\ RiskScoring.getRiskScore
         {| RiskIndicators.is_high_risk_country := true;
            RiskIndicators.is_online := true;
            RiskIndicators.is_new_merchant := false;
            RiskIndicators.is_new_country := false;
            RiskIndicators.is_high_amount := false;
            RiskIndicators.is_unusual_hour := true;
            RiskIndicators.is_velocity_spike := false;
            RiskIndicators.is_amount_spike := false |} = JS.Fin qj
    /\ (qi <= qj)%Q
    /\ (RiskScoring.rank
          (RiskScoring.getRiskLevelFromIndicators
             {| RiskIndicators.is_high_risk_country := false;
                RiskIndicators.is_online := true;
                RiskIndicators.is_new_merchant := false;
                RiskIndicators.is_new_country := false;
                RiskIndicators.is_high_amount := false;
                RiskIndicators.is_unusual_hour := false;
                RiskIndicators.is_velocity_spike := false;
                RiskIndicators.is_amount_spike := false |})
        <= RiskScoring.rank
             (RiskScoring.getRiskLevelFromIndicators
                {| RiskIndicators.is_high_risk_country := true;
                   RiskIndicators.is_online := true;
                   RiskIndicators.is_new_merchant := false;
                   RiskIndicators.is_new_country := false;
                   RiskIndicators.is_high_amount := false;
                   RiskIndicators.is_unusual_hour := true;
                   RiskIndicators.is_velocity_spike := false;
                   RiskIndicators.is_amount_spike := false |}))%nat.
Proof.
  apply getRiskScore_monotone. cbn.
  repeat (apply Forall2_cons; split; [intros E; first [exact E | reflexivity] |]).
  apply Forall2_nil_2.
Defined.

(** X13.  The risk score is a number between 0 and 1, and it is 0 exactly
    when no flag is raised; then the level is LOW.  With three or more
    flags raised the level is never LOW. *)
Theorem getRiskScore_zero_iff_no_flags (i : RiskIndicators.RiskIndicators) :
  exists q : Q,
    RiskScoring.getRiskScore i = JS.Fin q
    /\ (0 <= q <= 1)%Q
    /\ ((q == 0)%Q <-> RiskScoring.countRiskFlags i = 0%nat)
    /\ (RiskScoring.countRiskFlags i = 0%nat ->
        RiskScoring.getRiskLevelFromIndicators i = RiskScoring.LOW)
    /\ ((3 <= RiskScoring.countRiskFlags i)%nat ->
        RiskScoring.getRiskLevelFromIndicators i <> RiskScoring.LOW).
Proof.
  destruct i as [[] [] [] [] [] [] [] []];
    (eexists; split; [vm_compute; reflexivity |]);
    (split; [split; vm_compute; discriminate |]);
    (split; [split; intros E; vm_compute in E;
             first [discriminate | reflexivity] |]);
    (split; [intros E; vm_compute in E; first [discriminate | reflexivity] |]);
    intros E; vm_compute in E; vm_compute; first [discriminate | lia].
Qed.

(** X14.  After [addHighRiskCountry] a non-empty country code that
    upper-cases to the added one is high-risk, and after
    [removeHighRiskCountry] it is not; codes that upper-case to something
    else are answered as before. *)
Theorem high_risk_country_add_remove (h : Host.env)
    (c : RiskIndicators.RiskIndicatorCalculator) (code query : string) :
  String.eqb query "" = false ->
  toUpperCase h query = toUpperCase h code ->
  RiskIndicators.isHighRiskCountry h (RiskScoring.addHighRiskCountry h c code)
    (JS.VString query) = Ok true
  /\ RiskIndicators.isHighRiskCountry h (RiskScoring.removeHighRiskCountry h c code)
       (JS.VString query) = Ok false
  /\ (forall other : string,
        toUpperCase h other <> toUpperCase h code ->
        RiskIndicators.isHighRiskCountry h
          (RiskScoring.addHighRiskCountry h c code) (JS.VString other)
        = RiskIndicators.isHighRiskCountry h c (JS.VString other)
        /\ RiskIndicators.isHighRiskCountry h
             (RiskScoring.removeHighRiskCountry h c code) (JS.VString other)
           = RiskIndicators.isHighRiskCountry h c (JS.VString other)).
Proof.
  intros Hquery Hsame.
  unfold RiskIndicators.isHighRiskCountry, RiskScoring.addHighRiskCountry,
    RiskScoring.removeHighRiskCountry.
  cbn [RiskIndicators.highRiskCountries]. rewrite Hquery, Hsame.
  split; [| split].
  - f_equal. apply bool_decide_eq_true.
    apply elem_of_union_l, elem_of_singleton. reflexivity.
  - f_equal. apply bool_decide_eq_false.
    rewrite elem_of_difference, elem_of_singleton. tauto.
  - intros other Hother. destruct (String.eqb other ""); [split; reflexivity |].
    split; f_equal; apply bool_decide_ext.
    + rewrite elem_of_union, elem_of_singleton. tauto.
    + rewrite elem_of_difference, elem_of_singleton. tauto.
Qed.

Lemma high_risk_country_add_remove_witness :
  RiskIndicators.isHighRiskCountry Scenario.host
    (RiskScoring.addHighRiskCountry Scenario.host RiskIndicators.new "xk")
    (JS.VString "Xk") = Ok true
  /\ RiskIndicators.isHighRiskCountry Scenario.host
       (RiskScoring.removeHighRiskCountry Scenario.host RiskIndicators.new "xk")
       (JS.VString "Xk") = Ok false
  /\ (forall other : string,
        toUpperCase Scenario.host other <> toUpperCase Scenario.host "xk" ->
        RiskIndicators.isHighRiskCountry Scenario.host
          (RiskScoring.addHighRiskCountry Scenario.host RiskIndicators.new "xk")
          (JS.VString other)
        = RiskIndicators.isHighRiskCountry Scenario.host RiskIndicators.new
            (JS.VString other)
        /\ RiskIndicators.isHighRiskCountry Scenario.host
             (RiskScoring.removeHighRiskCountry Scenario.host RiskIndicators.new "xk")
             (JS.VString other)
           = RiskIndicators.isHighRiskCountry Scenario.host RiskIndicators.new
               (JS.VString other)).
Proof.
  apply (high_risk_country_add_remove Scenario.host RiskIndicators.new "xk" "Xk");
    reflexivity.
Defined.

Lemma calculate_shape (h : Host.env) (c : RiskIndicators.RiskIndicatorCalculator)
    (tx : gmap string JS.value) (i : RiskIndicators.RiskIndicators) :
  RiskIndicators.calculate h c tx = Ok i ->
  RiskIndicators.isHighRiskCountry h c (JS.get tx "country_code")
  = Ok (RiskIndicators.is_high_risk_country i)
  /\ RiskIndicators.isUnusualHour h (JS.get tx "timestamp")
     = Ok (RiskIndicators.is_unusual_hour i)
  /\ RiskIndicators.is_online i
     = RiskIndicators.isOnlineTransaction (JS.get tx "channel")
  /\ RiskIndicators.is_high_amount i
     = RiskIndicators.isHighAmount h (JS.get tx "amount")
  /\ RiskIndicators.is_new_merchant i = false
  /\ RiskIndicators.is_new_country i = false
  /\ RiskIndicators.is_velocity_spike i = false
  /\ RiskIndicators.is_amount_spike i = false.
Proof.
  unfold RiskIndicators.calculate.
  destruct (RiskIndicators.isHighRiskCountry h c _) as [country | x];
    [| discriminate].
  destruct (RiskIndicators.isUnusualHour h _) as [unusual | x]; [| discriminate].
  cbn [Host.bind]. intros H. apply Ok_inj in H. subst i. cbn. repeat split.
Qed.

(** X15.  The indicators that [calculate] returns raise at most four
    flags (the four history flags are never set), so their score is at
    most 0.7; and [hasRiskFlags] answers true exactly when that score is
    not 0. *)
Theorem calculate_score_at_most_070 (h : Host.env) (tx : gmap string JS.value)
    (i : RiskIndicators.RiskIndicators) :
  RiskIndicators.calculate h RiskIndicators.new tx = Ok i ->
  exists q : Q,
    RiskScoring.getRiskScore i = JS.Fin q
    /\ (q <= 0.7)%Q
    /\ (RiskScoring.countRiskFlags i <= 4)%nat
    /\ RiskScoring.hasRiskFlags h tx = Ok (negb (Qeq_bool q 0)).
Proof.
  intros Hcalc. unfold RiskScoring.hasRiskFlags. rewrite Hcalc. cbn [Host.bind].
  destruct (calculate_shape h _ tx i Hcalc)
    as (_ & _ & _ & _ & Hm & Hc & Hv & Ha).
  destruct i as [country online merchant ncountry amount unusual velocity spike].
  cbn in Hm, Hc, Hv, Ha. subst merchant ncountry velocity spike.
  destruct country, online, amount, unusual;
    (eexists; split; [vm_compute; reflexivity |]);
    (split; [vm_compute; discriminate |]);
    (split; [vm_compute; lia | reflexivity]).
Qed.

Lemma calculate_score_at_most_070_witness :
  exists q : Q,
    RiskScoring.getRiskScore
      {| RiskIndicators.is_high_risk_country := true;
         RiskIndicators.is_online := true;
         RiskIndicators.is_new_merchant := false;
         RiskIndicators.is_new_country := false;
         RiskIndicators.is_high_amount := true;
         RiskIndicators.is_unusual_hour := true;
         RiskIndicators.is_velocity_spike := false;
         RiskIndicators.is_amount_spike := false |} = JS.Fin q
    /\ (q <= 0.7)%Q
    /\ (RiskScoring.countRiskFlags
          {| RiskIndicators.is_high_risk_country := true;
             RiskIndicators.is_online := true;
             RiskIndicators.is_new_merchant := false;
             RiskIndicators.is_new_country := false;
             RiskIndicators.is_high_amount := true;
             RiskIndicators.is_unusual_hour := true;
             RiskIndicators.is_velocity_spike := false;
             RiskIndicators.is_amount_spike := false |} <= 4)%nat
    /\ RiskScoring.hasRiskFlags Scenario.host Scenario.raw_transaction
       = Ok (negb (Qeq_bool q 0)).
Proof.
  apply (calculate_score_at_most_070 Scenario.host Scenario.raw_transaction).
  vm_compute. reflexivity.
Defined.

(** ** FraudPreprocessor.ts: what a pre-processed transaction carries *)

(** The result of pre-processing a raw transaction, field by field. *)
Lemma preprocess_raw_shape (h : Host.env) (input : gmap string JS.value)
    (r : FraudPreprocessor.PreprocessingResult) :
  FraudPreprocessor.isRawTransaction input = true ->
  FraudPreprocessor.preprocess h FraudPreprocessor.new input = Ok r ->
  exists (date : JS.Date) (country : bool),
    TemporalFeatures.as_date h (JS.get input "timestamp") = Ok date
    /\ RiskIndicators.isHighRiskCountry h RiskIndicators.new
         (JS.get input "country_code") = Ok country
    /\ let seconds :=
         TemporalFeatures.getSecondsFromReference TemporalFeatures.new date in
       let amount := ToNumber h (JS.get input "amount") in
       let t := JS.div (JS.sub seconds (JS.Fin 94813.859575))
                       (JS.Fin 47488.145955) in
       let a := JS.div (JS.sub amount (JS.Fin 88.349619)) (JS.Fin 250.120109) in
       let m : gmap string JS.value :=
         <["Amount" := JS.VNumber a]>
           (FraudPreprocessor.getDefaultVFeatures ∪ {["Time" := JS.VNumber t]}) in
       FraudPreprocessor.modelInput r = m
       /\ FraudPreprocessor.metadata r
          = {| FraudPreprocessor.isRawInput := true;
               FraudPreprocessor.hasAllFeatures :=
                 FraudPreprocessor.hasAllRequiredFeatures m |}
       /\ FraudPreprocessor.temporal (FraudPreprocessor.features r)
          = {| TemporalFeatures.hour := TemporalFeatures.getHours h date;
               TemporalFeatures.day_of_week := TemporalFeatures.getDay h date;
               TemporalFeatures.is_weekend := TemporalFeatures.isWeekend h date;
               TemporalFeatures.is_night := TemporalFeatures.isNightTime h date;
               TemporalFeatures.is_business_hours :=
                 TemporalFeatures.isBusinessHours h date;
               TemporalFeatures.seconds_from_first := seconds |}
       /\ FraudPreprocessor.amount (FraudPreprocessor.features r)
          = {| AmountFeatures.raw := JS.get input "amount";
               AmountFeatures.scaled_amount := a;
               AmountFeatures.is_round :=
                 AmountFeatures.isRoundNumber h (JS.get input "amount");
               AmountFeatures.is_large :=
                 AmountFeatures.isLargeAmount h (JS.get input "amount") |}
       /\ FraudPreprocessor.risk (FraudPreprocessor.features r)
          = {| RiskIndicators.is_high_risk_country := country;
               RiskIndicators.is_online :=
                 RiskIndicators.isOnlineTransaction (JS.get input "channel");
               RiskIndicators.is_new_merchant := false;
               RiskIndicators.is_new_country := false;
               RiskIndicators.is_high_amount :=
                 RiskIndicators.isHighAmount h (JS.get input "amount");
               RiskIndicators.is_unusual_hour :=
                 TemporalFeatures.isUnusualHour h date;
               RiskIndicators.is_velocity_spike := false;
               RiskIndicators.is_amount_spike := false |}.
Proof.
  intros Hraw. unfold FraudPreprocessor.preprocess. rewrite Hraw.
  unfold TemporalFeatures.extract, AmountFeatures.extract,
    AmountFeatures.scaleAmount, RiskIndicators.calculate,
    RiskIndicators.isUnusualHour, FraudPreprocessor.convertToModelInput.
  cbn [FraudPreprocessor.amountExtractor FraudPreprocessor.new
       FraudPreprocessor.scaler FraudPreprocessor.temporalExtractor
       FraudPreprocessor.riskCalculator AmountFeatures.scaler
       AmountFeatures.new].
  rewrite scale_Amount. cbn [Host.bind].
  destruct (TemporalFeatures.as_date h (JS.get input "timestamp")) as [date |];
    cbn [Host.bind]; [| discriminate].
  destruct (AmountFeatures.getDecimalPlaces_throws (JS.get input "amount"));
    cbn [Host.bind]; [discriminate |].
  destruct (RiskIndicators.isHighRiskCountry h RiskIndicators.new
              (JS.get input "country_code")) as [country |];
    cbn [Host.bind]; [| discriminate].
  cbn [TemporalFeatures.seconds_from_first AmountFeatures.scaled_amount].
  rewrite scale_Time. cbn [Host.bind]. intros Hr. apply Ok_inj in Hr. subst r.
  exists date, country. split; [reflexivity |]. split; [reflexivity |].
  cbn zeta. repeat split.
Qed.

(** X16.  The three feature groups of a pre-processed raw transaction
    agree with each other: the risk flag for a high amount equals the
    amount feature [is_large]; an unusual hour is a night hour; business
    hours exclude night, weekend and unusual hour; and the four history
    flags are never raised. *)
Theorem preprocess_features_consistent (h : Host.env)
    (input : gmap string JS.value) (r : FraudPreprocessor.PreprocessingResult) :
  FraudPreprocessor.isRawTransaction input = true ->
  FraudPreprocessor.preprocess h FraudPreprocessor.new input = Ok r ->
  let t := FraudPreprocessor.temporal (FraudPreprocessor.features r) in
  let a := FraudPreprocessor.amount (FraudPreprocessor.features r) in
  let k := FraudPreprocessor.risk (FraudPreprocessor.features r) in
  RiskIndicators.is_high_amount k = AmountFeatures.is_large a
  /\ (RiskIndicators.is_unusual_hour k = true ->
      TemporalFeatures.is_night t = true)
  /\ (TemporalFeatures.is_business_hours t = true ->
      TemporalFeatures.is_night t = false
      /\ TemporalFeatures.is_weekend t = false
      /\ RiskIndicators.is_unusual_hour k = false)
  /\ RiskIndicators.is_new_merchant k = false
  /\ RiskIndicators.is_new_country k = false
  /\ RiskIndicators.is_velocity_spike k = false
  /\ RiskIndicators.is_amount_spike k = false.
Proof.
  intros Hraw Hr.
  destruct (preprocess_raw_shape h input r Hraw Hr)
    as (date & country & _ & _ & _ & _ & Ht & Ha & Hk).
  cbn zeta. rewrite Ht, Ha, Hk.
  cbn [RiskIndicators.is_high_amount AmountFeatures.is_large
       RiskIndicators.is_unusual_hour TemporalFeatures.is_night
       TemporalFeatures.is_business_hours TemporalFeatures.is_weekend
       RiskIndicators.is_new_merchant RiskIndicators.is_new_country
       RiskIndicators.is_velocity_spike RiskIndicators.is_amount_spike].
  destruct (temporal_flags h date) as [Hun Hbus].
  split; [reflexivity |]. split; [exact Hun |]. split; [exact Hbus |].
  repeat split.
Qed.

Lemma preprocess_features_consistent_witness :
  exists r,
    FraudPreprocessor.preprocess Scenario.host FraudPreprocessor.new
      Scenario.raw_transaction = Ok r
    /\ let t := FraudPreprocessor.temporal (FraudPreprocessor.features r) in
       let a := FraudPreprocessor.amount (FraudPreprocessor.features r) in
       let k := FraudPreprocessor.risk (FraudPreprocessor.features r) in
       RiskIndicators.is_high_amount k = AmountFeatures.is_large a
       /\ (RiskIndicators.is_unusual_hour k = true ->
           TemporalFeatures.is_night t = true)
       /\ (TemporalFeatures.is_business_hours t = true ->
           TemporalFeatures.is_night t = false
           /\ TemporalFeatures.is_weekend t = false
           /\ RiskIndicators.is_unusual_hour k = false)
       /\ RiskIndicators.is_new_merchant k = false
       /\ RiskIndicators.is_new_country k = false
       /\ RiskIndicators.is_velocity_spike k = false
       /\ RiskIndicators.is_amount_spike k = false.
Proof.
  eexists. split; [vm_compute; reflexivity |].
  apply (preprocess_features_consistent Scenario.host Scenario.raw_transaction);
    vm_compute; reflexivity.
Defined.

Lemma assembled_has_all (t a : JS.number) :
  FraudPreprocessor.hasAllRequiredFeatures
    (<["Amount" := JS.VNumber a]>
       (FraudPreprocessor.getDefaultVFeatures ∪ {["Time" := JS.VNumber t]}))
  = JS.isFinite t && JS.isFinite a.
Proof. destruct t, a; vm_compute; reflexivity. Qed.

Lemma assembled_not_raw (t a : JS.number) :
  FraudPreprocessor.isRawTransaction
    (<["Amount" := JS.VNumber a]>
       (FraudPreprocessor.getDefaultVFeatures ∪ {["Time" := JS.VNumber t]}))
  = false.
Proof. vm_compute. reflexivity. Qed.

Lemma scaled_finite (x m d : Q) (v : JS.number) :
  Qeq_bool d 0 = false ->
  JS.isFinite (JS.div (JS.sub v (JS.Fin m)) (JS.Fin d)) = JS.isFinite v.
Proof.
  intros Hd. destruct v as [q | | |]; cbn [JS.sub JS.neg JS.add].
  - rewrite div_Fin by exact Hd. reflexivity.
  - cbn. destruct (JS.Qlt_bool d 0); reflexivity.
  - cbn. destruct (JS.Qlt_bool d 0); reflexivity.
  - reflexivity.
Qed.

Lemma seconds_finite (date : JS.Date) :
  JS.isFinite (TemporalFeatures.getSecondsFromReference TemporalFeatures.new date)
  = match date with JS.ValidDate _ => true | JS.InvalidDate => false end.
Proof.
  destruct date as [ms |]; [| reflexivity].
  unfold TemporalFeatures.getSecondsFromReference.
  cbn [TemporalFeatures.referenceTime TemporalFeatures.new JS.getTime].
  rewrite floor_seconds. reflexivity.
Qed.

(** X17.  When [preprocess] returns for a raw transaction, the result has
    all features exactly when the timestamp is a valid date and the
    amount, read as a number, is finite: a timestamp that does not parse
    or an amount that is [NaN] is not an error of [preprocess], it only
    shows in [hasAllFeatures]. *)
Theorem preprocess_hasAllFeatures (h : Host.env) (input : gmap string JS.value)
    (r : FraudPreprocessor.PreprocessingResult) :
  FraudPreprocessor.isRawTransaction input = true ->
  FraudPreprocessor.preprocess h FraudPreprocessor.new input = Ok r ->
  exists date : JS.Date,
    TemporalFeatures.as_date h (JS.get input "timestamp") = Ok date
    /\ FraudPreprocessor.hasAllFeatures (FraudPreprocessor.metadata r)
       = match date with JS.ValidDate _ => true | JS.InvalidDate => false end
         && JS.isFinite (ToNumber h (JS.get input "amount")).
Proof.
  intros Hraw Hr.
  destruct (preprocess_raw_shape h input r Hraw Hr)
    as (date & country & Hdate & _ & _ & Hmeta & _).
  exists date. split; [exact Hdate |].
  rewrite Hmeta. cbn [FraudPreprocessor.hasAllFeatures].
  rewrite assembled_has_all, !(scaled_finite 0) by reflexivity.
  rewrite seconds_finite. reflexivity.
Qed.

Lemma preprocess_hasAllFeatures_witness :
  exists r,
    FraudPreprocessor.preprocess Scenario.host FraudPreprocessor.new
      (<["timestamp" := JS.VString "yesterday"]> Scenario.raw_transaction) = Ok r
    /\ exists date : JS.Date,
         TemporalFeatures.as_date Scenario.host
           (JS.get (<["timestamp" := JS.VString "yesterday"]>
                      Scenario.raw_transaction) "timestamp") = Ok date
         /\ FraudPreprocessor.hasAllFeatures (FraudPreprocessor.metadata r)
            = match date with JS.ValidDate _ => true | JS.InvalidDate => false end
              && JS.isFinite
                   (ToNumber Scenario.host
                      (JS.get (<["timestamp" := JS.VString "yesterday"]>
                                 Scenario.raw_transaction) "amount")).
Proof.
  eexists. split; [vm_compute; reflexivity |].
  apply (preprocess_hasAllFeatures Scenario.host
           (<["timestamp" := JS.VString "yesterday"]> Scenario.raw_transaction));
    vm_compute; reflexivity.
Defined.

(** X18.  Pre-processing is idempotent: the model input of a result,
    pre-processed again, comes back unchanged, is not taken for a raw
    transaction, and is judged to have all features exactly as before. *)
Theorem preprocess_idempotent (h : Host.env) (input : gmap string JS.value)
    (r : FraudPreprocessor.PreprocessingResult) :
  FraudPreprocessor.preprocess h FraudPreprocessor.new input = Ok r ->
  exists r',
    FraudPreprocessor.preprocess h FraudPreprocessor.new
      (FraudPreprocessor.modelInput r) = Ok r'
    /\ FraudPreprocessor.modelInput r' = FraudPreprocessor.modelInput r
    /\ FraudPreprocessor.isRawInput (FraudPreprocessor.metadata r') = false
    /\ FraudPreprocessor.hasAllFeatures (FraudPreprocessor.metadata r')
       = FraudPreprocessor.hasAllFeatures (FraudPreprocessor.metadata r).
Proof.
  intros Hr.
  assert (Hnot : FraudPreprocessor.isRawTransaction (FraudPreprocessor.modelInput r)
                 = false
                 /\ FraudPreprocessor.hasAllFeatures (FraudPreprocessor.metadata r)
                    = FraudPreprocessor.hasAllRequiredFeatures
                        (FraudPreprocessor.modelInput r)).
  { destruct (FraudPreprocessor.isRawTransaction input) eqn:Hraw.
    - destruct (preprocess_raw_shape h input r Hraw Hr)
        as (date & country & _ & _ & Hm & Hmeta & _).
      rewrite Hm, Hmeta. split; [apply assembled_not_raw | reflexivity].
    - unfold FraudPreprocessor.preprocess in Hr. rewrite Hraw in Hr.
      apply Ok_inj in Hr. subst r. split; [exact Hraw | reflexivity]. }
  destruct Hnot as [Hnot Hall].
  unfold FraudPreprocessor.preprocess at 1. rewrite Hnot.
  eexists. split; [reflexivity |].
  cbn [FraudPreprocessor.modelInput FraudPreprocessor.metadata
       FraudPreprocessor.isRawInput FraudPreprocessor.hasAllFeatures].
  rewrite Hall. repeat split.
Qed.

Lemma preprocess_idempotent_witness :
  exists r,
    FraudPreprocessor.preprocess Scenario.host FraudPreprocessor.new
      Scenario.raw_transaction = Ok r
    /\ exists r',
         FraudPreprocessor.preprocess Scenario.host FraudPreprocessor.new
           (FraudPreprocessor.modelInput r) = Ok r'
         /\ FraudPreprocessor.modelInput r' = FraudPreprocessor.modelInput r
         /\ FraudPreprocessor.isRawInput (FraudPreprocessor.metadata r') = false
         /\ FraudPreprocessor.hasAllFeatures (FraudPreprocessor.metadata r')
            = FraudPreprocessor.hasAllFeatures (FraudPreprocessor.metadata r).
Proof.
  eexists. split; [vm_compute; reflexivity |].
  apply (preprocess_idempotent Scenario.host Scenario.raw_transaction).
  vm_compute. reflexivity.
Defined.

(** The loop, with what it has collected so far taken out. *)
Lemma preprocessBatch_loop_acc (h : Host.env)
    (p : FraudPreprocessor.FraudPreprocessor)
    (transactions : list (gmap string JS.value))
    (results : list FraudPreprocessor.PreprocessingResult) :
  Batch.preprocessBatch_loop h p transactions results
  = let* more := Batch.preprocessBatch_loop h p transactions [] in
    Ok (results ++ more).
Proof.
  revert results. induction transactions as [| tx rest IH]; intros results.
  - cbn. rewrite app_nil_r. reflexivity.
  - cbn [Batch.preprocessBatch_loop].
    destruct (FraudPreprocessor.preprocess h p tx) as [r | x]; cbn [Host.bind];
      [| reflexivity].
    rewrite (IH (results ++ [r])), (IH ([] ++ [r])).
    destruct (Batch.preprocessBatch_loop h p rest []) as [more | x];
      cbn [Host.bind]; [| reflexivity].
    rewrite <- app_assoc. reflexivity.
Qed.

Lemma preprocessBatch_cons (h : Host.env)
    (p : FraudPreprocessor.FraudPreprocessor) (tx : gmap string JS.value)
    (rest : list (gmap string JS.value)) :
  Batch.preprocessBatch h p (tx :: rest)
  = let* r := FraudPreprocessor.preprocess h p tx in
    let* more := Batch.preprocessBatch h p rest in
    Ok (r :: more).
Proof.
  unfold Batch.preprocessBatch. cbn [Batch.preprocessBatch_loop].
  destruct (FraudPreprocessor.preprocess h p tx) as [r | x]; cbn [Host.bind];
    [| reflexivity].
  rewrite preprocessBatch_loop_acc. reflexivity.
Qed.

(** What [preprocessBatch] returns and what it throws. *)
Lemma preprocessBatch_cases (h : Host.env)
    (p : FraudPreprocessor.FraudPreprocessor)
    (transactions : list (gmap string JS.value)) :
  (forall results,
     Batch.preprocessBatch h p transactions = Ok results
     <-> Forall2 (fun tx r => FraudPreprocessor.preprocess h p tx = Ok r)
           transactions results)
  /\ (forall x,
        Batch.preprocessBatch h p transactions = Throw x
        <-> exists done tx rest,
              transactions = done ++ tx :: rest
              /\ Forall (fun t => exists r,
                           FraudPreprocessor.preprocess h p t = Ok r) done
              /\ FraudPreprocessor.preprocess h p tx = Throw x).
Proof.
  induction transactions as [| tx rest [IHok IHthrow]].
  - split.
    + intros results. split.
      * intros H. apply Ok_inj in H. subst results. constructor.
      * intros H. apply Forall2_nil_inv_l in H. subst results. reflexivity.
    + intros x. split; [discriminate |].
      intros (done & t & more & H & _). destruct done; discriminate.
  - split.
    + intros results. rewrite preprocessBatch_cons. split.
      * destruct (FraudPreprocessor.preprocess h p tx) as [r | x] eqn:Hr;
          cbn [Host.bind]; [| discriminate].
        destruct (Batch.preprocessBatch h p rest) as [more | x] eqn:Hrest;
          cbn [Host.bind]; [| discriminate].
        intros H. apply Ok_inj in H. subst results.
        constructor; [exact Hr | apply IHok; reflexivity].
      * intros H. apply Forall2_cons_inv_l in H.
        destruct H as (r & more & Hr & Hmore & ->).
        rewrite Hr. cbn [Host.bind].
        apply IHok in Hmore. rewrite Hmore. reflexivity.
    + intros x. rewrite preprocessBatch_cons. split.
      * destruct (FraudPreprocessor.preprocess h p tx) as [r | x0] eqn:Hr;
          cbn [Host.bind].
        -- destruct (Batch.preprocessBatch h p rest) as [more | x1] eqn:Hrest;
             cbn [Host.bind]; [discriminate |].
           intros H. assert (x1 = x) by congruence. subst x1.
           destruct (proj1 (IHthrow x) eq_refl) as (done & t & more & -> & Hd & Ht).
           exists (tx :: done), t, more. split; [reflexivity |].
           split; [constructor; [exists r; exact Hr | exact Hd] | exact Ht].
        -- intros H. assert (x0 = x) by congruence. subst x0.
           exists [], tx, rest. split; [reflexivity |].
           split; [constructor | exact Hr].
      * intros (done & t & more & Heq & Hd & Ht).
        destruct done as [| d done].
        -- cbn in Heq. injection Heq as <- <-. rewrite Ht. reflexivity.
        -- cbn in Heq. injection Heq as <- ->.
           apply Forall_cons_1 in Hd. destruct Hd as [[r Hr] Hd].
           rewrite Hr. cbn [Host.bind].
           assert (Hrest : Batch.preprocessBatch h p (done ++ t :: more) = Throw x).
           { apply IHthrow. exists done, t, more. auto. }
           rewrite Hrest. reflexivity.
Qed.

(** X19.  [preprocessBatch] returns exactly when every transaction of the
    batch is pre-processed without error, and then holds their results in
    the order of the batch; otherwise it throws what the first failing
    transaction throws, and the results of the transactions before it are
    lost.  The exported helper of the same name returns the model inputs
    that [preprocessTransaction] returns for the transactions, one by
    one. *)
Theorem preprocessBatch_all_or_first_error (h : Host.env)
    (p : FraudPreprocessor.FraudPreprocessor)
    (transactions : list (gmap string JS.value)) :
  (forall results,
     Batch.preprocessBatch h p transactions = Ok results
     <-> Forall2 (fun tx r => FraudPreprocessor.preprocess h p tx = Ok r)
           transactions results)
  /\ (forall x,
        Batch.preprocessBatch h p transactions = Throw x
        <-> exists done tx rest,
              transactions = done ++ tx :: rest
              /\ Forall (fun t => exists r,
                           FraudPreprocessor.preprocess h p t = Ok r) done
              /\ FraudPreprocessor.preprocess h p tx = Throw x)
  /\ (forall inputs,
        Batch.preprocessBatch_helper h transactions = Ok inputs
        <-> Forall2 (fun tx m =>
                       FraudPreprocessor.preprocessTransaction h tx = Ok m)
              transactions inputs).
Proof.
  destruct (preprocessBatch_cases h p transactions) as [Hok Hthrow].
  split; [exact Hok |]. split; [exact Hthrow |]. clear Hok Hthrow.
  intros inputs. unfold Batch.preprocessBatch_helper. cbv zeta.
  destruct (preprocessBatch_cases h FraudPreprocessor.new transactions)
    as [Hok _].
  split.
  - destruct (Batch.preprocessBatch h FraudPreprocessor.new transactions)
      as [results | x]; cbn [Host.bind]; [| discriminate].
    intros H. apply Ok_inj in H. subst inputs.
    pose proof (proj1 (Hok results) eq_refl) as Hall. clear Hok.
    induction Hall as [| tx r txs rs Hr Hall IH]; cbn [map]; constructor.
    + unfold FraudPreprocessor.preprocessTransaction. rewrite Hr. reflexivity.
    + exact IH.
  - intros Hall.
    assert (Hres : exists results,
              Forall2 (fun tx r => FraudPreprocessor.preprocess h
                                     FraudPreprocessor.new tx = Ok r)
                transactions results
              /\ map FraudPreprocessor.modelInput results = inputs).
    { clear Hok. induction Hall as [| tx m txs ms Hm Hall IH].
      - exists []. split; [constructor | reflexivity].
      - destruct IH as (rs & Hrs & Hmap).
        unfold FraudPreprocessor.preprocessTransaction in Hm.
        destruct (FraudPreprocessor.preprocess h FraudPreprocessor.new tx)
          as [r | x] eqn:Hr; cbn [Host.bind] in Hm; [| discriminate].
        apply Ok_inj in Hm. subst m. exists (r :: rs).
        split; [constructor; assumption | cbn [map]; rewrite Hmap; reflexivity]. }
    destruct Hres as (results & Hrs & <-).
    rewrite (proj2 (Hok results) Hrs). reflexivity.
Qed.

(** ** From pre-processing to prediction *)

Lemma assembled_features (t a : JS.number) :
  exists rest : list JS.number,
    transactionToFeatures
      (<["Amount" := JS.VNumber a]>
         (FraudPreprocessor.getDefaultVFeatures ∪ {["Time" := JS.VNumber t]}))
    = Ok (t :: rest)
    /\ length rest = 29%nat.
Proof. eexists. split; [vm_compute; reflexivity | reflexivity]. Qed.

Lemma Time_range :
  ModelConfig.FEATURE_VALIDATION !! "Time" = Some (JS.Fin (-5), JS.Fin 5).
Proof. vm_compute. reflexivity. Qed.

Lemma check_feature_Time (t : JS.number) :
  ModelConfig.check_feature t 0
  = (if JS.ltb t (JS.Fin (-5)) || JS.gtb t (JS.Fin 5)
     then [OutOfRange "Time" t (JS.Fin (-5)) (JS.Fin 5)] else [])
    ++ (if negb (JS.isFinite t) || JS.isNaN t
        then [InvalidValue "Time" t] else []).
Proof.
  unfold ModelConfig.check_feature.
  assert (Hname : ModelConfig.FEATURE_NAMES !! 0%nat = Some "Time"%string)
    by reflexivity.
  rewrite Hname, Time_range. reflexivity.
Qed.

Lemma Time_out_of_range (t : JS.number) (rest : list JS.number) :
  length rest = 29%nat ->
  JS.ltb t (JS.Fin (-5)) || JS.gtb t (JS.Fin 5) = true ->
  let validation := ModelConfig.validateFeatureValues (t :: rest) in
  ModelConfig.valid validation = false
  /\ In (OutOfRange "Time" t (JS.Fin (-5)) (JS.Fin 5))
        (ModelConfig.errors validation).
Proof.
  intros Hlen Hout. cbn zeta. unfold ModelConfig.validateFeatureValues.
  cbn [length]. rewrite Hlen. cbn [Nat.eqb negb].
  cbn [ModelConfig.valid ModelConfig.errors ModelConfig.check_from].
  rewrite check_feature_Time, Hout. cbn [app length Nat.eqb].
  split; [reflexivity | left; reflexivity].
Qed.

(** The scaled [Time] of a valid date lies in the accepted range [-5, 5]
    exactly for these seconds since the reference instant. *)
Lemma scaled_seconds_range (seconds : Z) :
  let t := JS.div (JS.sub (JS.of_Z seconds) (JS.Fin 94813.859575))
                  (JS.Fin 47488.145955) in
  JS.ltb t (JS.Fin (-5)) || JS.gtb t (JS.Fin 5) = true
  <-> seconds < -142626 \/ 332254 < seconds.
Proof.
  cbn zeta. cbn [JS.sub JS.neg JS.add JS.of_Z].
  rewrite div_Fin by reflexivity. cbn [JS.ltb JS.gtb].
  rewrite orb_true_iff, !Qlt_bool_iff.
  assert (Hlo : (inject_Z seconds <= inject_Z (-142627))%Q <-> seconds < -142626).
  { rewrite <- Zle_Qle. lia. }
  assert (Hhi : (inject_Z 332255 <= inject_Z seconds)%Q <-> 332254 < seconds).
  { rewrite <- Zle_Qle. lia. }
  rewrite <- Hlo, <- Hhi.
  assert (Hstep : forall z : Z,
            (inject_Z seconds <= inject_Z z)%Q
            \/ (inject_Z (z + 1) <= inject_Z seconds)%Q).
  { intros z. rewrite <- !Zle_Qle. lia. }
  change (inject_Z (-142627)) with (-142627)%Q.
  change (inject_Z 332255) with 332255%Q.
  generalize (Hstep (-142627)) (Hstep 332254).
  change (inject_Z (-142627)) with (-142627)%Q.
  change (inject_Z (-142627 + 1)) with (-142626)%Q.
  change (inject_Z 332254) with 332254%Q.
  change (inject_Z (332254 + 1)) with 332255%Q.
  generalize (inject_Z seconds). intros s H1 H2.
  split.
  - intros [H | H]; div_const; [left | right]; destruct H1, H2; lra.
  - intros [H | H]; [left | right]; div_const; lra.
Qed.

(** X20.  When [preprocess] returns for a raw transaction whose timestamp
    lies more than 332254 seconds after the reference instant
    2013-09-01T00:00:00Z (or more than 142626 seconds before it),
    [predict] rejects the model input it is given: the scaled [Time] falls
    outside the range [-5, 5] that the validation accepts, so a call that
    is not answered from the cache throws the validation error and the
    model is not invoked. *)
Theorem predict_rejects_preprocessed_late_timestamps (h : Host.env)
    (e : ONNXInference) (input : gmap string JS.value)
    (r : FraudPreprocessor.PreprocessingResult) (ms : Z)
    (o : InferenceOptions) (clk : Clock) :
  FraudPreprocessor.isRawTransaction input = true ->
  FraudPreprocessor.preprocess h FraudPreprocessor.new input = Ok r ->
  TemporalFeatures.as_date h (JS.get input "timestamp") = Ok (JS.ValidDate ms) ->
  (ms - 1377993600000) / 1000 < -142626
  \/ 332254 < (ms - 1377993600000) / 1000 ->
  isModelLoaded e = true ->
  is_Some (session e) ->
  answered_from_cache h (FraudPreprocessor.modelInput r) o clk e = false ->
  exists e' errors t,
    predict h (FraudPreprocessor.modelInput r) o clk e
    = (e', Throw (InvalidInputValues errors))
    /\ FraudPreprocessor.modelInput r !! "Time" = Some (JS.VNumber t)
    /\ In (OutOfRange "Time" t (JS.Fin (-5)) (JS.Fin 5)) errors
    /\ run_log e' = run_log e.
Proof.
  intros Hraw Hr Hdate Hlate Hloaded Hsession Hmiss.
  destruct (preprocess_raw_shape h input r Hraw Hr)
    as (date & country & Hdate' & _ & Hm & _).
  rewrite Hdate in Hdate'. apply Ok_inj in Hdate'. subst date.
  cbv zeta in Hm.
  unfold TemporalFeatures.getSecondsFromReference in Hm.
  cbn [TemporalFeatures.referenceTime TemporalFeatures.new JS.getTime] in Hm.
  rewrite floor_seconds in Hm.
  set (t := JS.div (JS.sub (JS.of_Z ((ms - 1377993600000) / 1000))
                      (JS.Fin 94813.859575)) (JS.Fin 47488.145955)) in *.
  set (a := JS.div (JS.sub (ToNumber h (JS.get input "amount"))
                      (JS.Fin 88.349619)) (JS.Fin 250.120109)) in *.
  apply scaled_seconds_range in Hlate. fold t in Hlate.
  destruct (assembled_features t a) as (rest & Hfeat & Hlen).
  destruct (Time_out_of_range t rest Hlen Hlate) as [Hvalid Herr].
  rewrite <- Hm in Hfeat.
  assert (Hthrow : forall e1, run_log e1 = run_log e ->
            exists e' errors,
              predict_miss h (FraudPreprocessor.modelInput r) o clk e1
              = (e', Throw (InvalidInputValues errors))
              /\ In (OutOfRange "Time" t (JS.Fin (-5)) (JS.Fin 5)) errors
              /\ run_log e' = run_log e).
  { intros e1 Hlog. rewrite predict_miss_eq. cbv zeta.
    rewrite Hfeat, Hvalid. cbn [negb].
    eexists. eexists. split; [reflexivity |]. split; [exact Herr |].
    exact Hlog. }
  assert (Htime : FraudPreprocessor.modelInput r !! "Time" = Some (JS.VNumber t)).
  { rewrite Hm. apply (assembled_slots t a). }
  assert (Hgoal : exists e' errors,
            predict h (FraudPreprocessor.modelInput r) o clk e
            = (e', Throw (InvalidInputValues errors))
            /\ In (OutOfRange "Time" t (JS.Fin (-5)) (JS.Fin 5)) errors
            /\ run_log e' = run_log e).
  { rewrite predict_eq, Hloaded, (bool_decide_eq_true_2 _ Hsession).
    cbn [negb orb]. unfold answered_from_cache in Hmiss.
    destruct (cache_enabled o); [| apply Hthrow; reflexivity].
    cbn [andb] in Hmiss. rewrite getFromCache_eq in Hmiss |- *.
    destruct (features_have_key h _ _ Hfeat) as [key Hkey].
    rewrite Hkey in Hmiss |- *.
    destruct (JSMap.get (cache e) key) as [entry |];
      [| apply Hthrow; reflexivity].
    destruct (lookupNow clk - timestamp entry >? maxAge); [| discriminate].
    apply Hthrow. reflexivity. }
  destruct Hgoal as (e' & errors & Hp & Hin & Hlog).
  exists e', errors, t. repeat split; assumption.
Qed.

Lemma predict_rejects_preprocessed_late_timestamps_witness :
  exists r,
    FraudPreprocessor.preprocess Scenario.host FraudPreprocessor.new
      Scenario.raw_transaction = Ok r
    /\ exists e' errors t,
         predict Scenario.host (FraudPreprocessor.modelInput r)
           Scenario.default_options (Scenario.clock_at 1000) Scenario.loaded
         = (e', Throw (InvalidInputValues errors))
         /\ FraudPreprocessor.modelInput r !! "Time" = Some (JS.VNumber t)
         /\ In (OutOfRange "Time" t (JS.Fin (-5)) (JS.Fin 5)) errors
         /\ run_log e' = run_log Scenario.loaded.
Proof.
  eexists. split; [vm_compute; reflexivity |].
  apply (predict_rejects_preprocessed_late_timestamps Scenario.host
           Scenario.loaded Scenario.raw_transaction _ 1705288500000).
  - vm_compute. reflexivity.
  - vm_compute. reflexivity.
  - vm_compute. reflexivity.
  - right. vm_compute. reflexivity.
  - reflexivity.
  - exists Session. reflexivity.
  - vm_compute. reflexivity.
Defined.

(** ** The cache key and the cache switch *)

(** The cache key reads the slots [Time], [V1], [V2] and [Amount] and no
    other. *)
Lemma getCacheKey_slots (h : Host.env) (tx1 tx2 : gmap string JS.value) :
  JS.get tx2 "Time" = JS.get tx1 "Time" ->
  JS.get tx2 "V1" = JS.get tx1 "V1" ->
  JS.get tx2 "V2" = JS.get tx1 "V2" ->
  JS.get tx2 "Amount" = JS.get tx1 "Amount" ->
  getCacheKey h tx2 = getCacheKey h tx1.
Proof.
  intros Ht H1 H2 Ha. unfold getCacheKey. rewrite Ht, H1, H2, Ha. reflexivity.
Qed.

(** X21.  The cache key is made of [Time], [V1], [V2] and [Amount] only:
    once a result has been cached, any transaction that holds the same
    values in these four slots is answered with that result for an hour,
    whatever its other slots hold, without validation and without
    invoking the model. *)
Theorem cache_key_collision (h : Host.env) (e e1 : ONNXInference)
    (tx1 tx2 : gmap string JS.value) (o1 o2 : InferenceOptions) (c1 c2 : Clock)
    (r1 : InferenceResult) :
  predict h tx1 o1 c1 e = (e1, Ok r1) ->
  cache_enabled o1 = true ->
  cache_enabled o2 = true ->
  JS.get tx2 "Time" = JS.get tx1 "Time" ->
  JS.get tx2 "V1" = JS.get tx1 "V1" ->
  JS.get tx2 "V2" = JS.get tx1 "V2" ->
  JS.get tx2 "Amount" = JS.get tx1 "Amount" ->
  (forall key entry,
     getCacheKey h tx1 = Ok key -> JSMap.get (cache e1) key = Some entry ->
     lookupNow c2 - timestamp entry <= maxAge) ->
  exists r2,
    predict h tx2 o2 c2 e1 = (count_cache_hit e1, Ok r2)
    /\ base r2 = base r1
    /\ cached r2 = Some true.
Proof.
  intros Hfirst Hon1 Hon2 Ht Hv1 Hv2 Ha Hage.
  pose proof (getCacheKey_slots h tx1 tx2 Ht Hv1 Hv2 Ha) as Hsame.
  destruct (predict_Ok h tx1 o1 c1 e e1 r1 Hfirst) as (Hloaded & Hsession & Hcases).
  assert (Hentry : exists key entry,
            getCacheKey h tx1 = Ok key
            /\ JSMap.get (cache e1) key = Some entry
            /\ base (result entry) = base r1).
  { destruct Hcases as [(_ & -> & key & entry & Hk & Hg & _ & ->)
                       | (probabilities & _ & _ & _ & _ & _ & Hc)].
    - exists key, entry. repeat split; assumption.
    - destruct (Hc Hon1) as (key & Hk & Hg).
      exists key. eexists. split; [exact Hk |]. split; [exact Hg |]. reflexivity. }
  destruct Hentry as (key & entry & Hk & Hg & Hbase).
  assert (Hfresh : (lookupNow c2 - timestamp entry >? maxAge) = false).
  { pose proof (Hage key entry Hk Hg). lia. }
  exists (mark_cached (result entry)). split.
  - rewrite predict_eq.
    assert (Hguard : negb (isModelLoaded e1)
                     || negb (bool_decide (is_Some (session e1))) = false).
    { apply loaded_guard. split; assumption. }
    rewrite Hguard, Hon2, getFromCache_eq, Hsame, Hk, Hg, Hfresh. reflexivity.
  - split; [exact Hbase | reflexivity].
Qed.

Lemma cache_key_collision_witness :
  exists r2,
    predict Scenario.host (delete "V5" SampleData.SAMPLE_NORMAL)
      Scenario.default_options (Scenario.clock_at 2000)
      (fst (predict Scenario.host SampleData.SAMPLE_NORMAL
              Scenario.default_options (Scenario.clock_at 1000) Scenario.loaded))
    = (count_cache_hit
         (fst (predict Scenario.host SampleData.SAMPLE_NORMAL
                 Scenario.default_options (Scenario.clock_at 1000)
                 Scenario.loaded)),
       Ok r2)
    /\ base r2
       = base (build_result Scenario.default_options (Scenario.clock_at 1000)
                 (postprocess (JS.Fin 0.9876, JS.Fin 0.0124)))
    /\ cached r2 = Some true.
Proof.
  apply (cache_key_collision Scenario.host Scenario.loaded _
           SampleData.SAMPLE_NORMAL (delete "V5" SampleData.SAMPLE_NORMAL)
           Scenario.default_options Scenario.default_options
           (Scenario.clock_at 1000) (Scenario.clock_at 2000)).
  - vm_compute. reflexivity.
  - reflexivity.
  - reflexivity.
  - vm_compute. reflexivity.
  - vm_compute. reflexivity.
  - vm_compute. reflexivity.
  - vm_compute. reflexivity.
  - intros key entry Hk Hg.
    vm_compute in Hk. injection Hk as <-.
    vm_compute in Hg. injection Hg as <-.
    vm_compute. discriminate.
Defined.

(** X22.  With [useCache: false] a [predict] call neither reads nor
    changes the cache, even when it holds a fresh entry for the
    transaction; on a loaded engine it is still counted as a cache miss,
    and a result it returns is computed by the model and not marked
    [cached]. *)
Theorem predict_without_cache (h : Host.env) (e e' : ONNXInference)
    (tx : gmap string JS.value) (o : InferenceOptions) (clk : Clock)
    (out : outcome InferenceResult) :
  cache_enabled o = false ->
  predict h tx o clk e = (e', out) ->
  cache e' = cache e
  /\ cacheHits (stats e') = cacheHits (stats e)
  /\ (isModelLoaded e = true -> is_Some (session e) ->
      cacheMisses (stats e') = S (cacheMisses (stats e)))
  /\ (forall r, out = Ok r ->
        cached r = Some false
        /\ exists features, run_log e' = features :: run_log e).
Proof.
  intros Hoff. rewrite predict_eq, Hoff.
  destruct (negb (isModelLoaded e) || negb (bool_decide (is_Some (session e))))
    eqn:Hguard.
  - intros H. injection H as <- <-.
    split; [reflexivity |]. split; [reflexivity |]. split.
    + intros Hl Hs. exfalso.
      assert (Hg : negb (isModelLoaded e)
                   || negb (bool_decide (is_Some (session e))) = false)
        by (apply loaded_guard; split; assumption).
      congruence.
    + intros r Hr. discriminate.
  - intros Hmiss.
    destruct (predict_miss_outcome h tx o clk e e' out Hmiss)
      as (_ & _ & Hhits & Hmisses & Hout).
    destruct out as [r | x].
    + destruct Hout as (features & probabilities & _ & _ & _ & Hr & Hlog & _ & _
                        & Hcache).
      rewrite Hoff in Hcache.
      split; [exact Hcache |]. split; [exact Hhits |].
      split; [intros _ _; exact Hmisses |].
      intros r0 Hr0. apply Ok_inj in Hr0. subst r0. subst r.
      split; [reflexivity | exists features; exact Hlog].
    + destruct Hout as (_ & _ & Hcache & _).
      split; [exact Hcache |]. split; [exact Hhits |].
      split; [intros _ _; exact Hmisses |]. intros r Hr. discriminate.
Qed.

Lemma predict_without_cache_witness :
  let e := fst (predict Scenario.host SampleData.SAMPLE_NORMAL
                  Scenario.default_options (Scenario.clock_at 1000)
                  Scenario.loaded) in
  let p := predict Scenario.host SampleData.SAMPLE_NORMAL Scenario.no_cache
             (Scenario.clock_at 2000) e in
  cache (fst p) = cache e
  /\ cacheHits (stats (fst p)) = cacheHits (stats e)
  /\ (isModelLoaded e = true -> is_Some (session e) ->
      cacheMisses (stats (fst p)) = S (cacheMisses (stats e)))
  /\ (forall r, snd p = Ok r ->
        cached r = Some false
        /\ exists features, run_log (fst p) = features :: run_log e).
Proof.
  cbv zeta.
  apply (predict_without_cache Scenario.host _ _ SampleData.SAMPLE_NORMAL
           Scenario.no_cache (Scenario.clock_at 2000)).
  - reflexivity.
  - apply surjective_pairing.
Defined.

(** ** Batches of predictions *)

Lemma predictBatch_loop_acc (h : Host.env)
    (transactions : list (gmap string JS.value * Clock)) (o : InferenceOptions)
    (results : list InferenceResult) (e : ONNXInference) :
  Batch.predictBatch_loop h transactions o results e
  = match Batch.predictBatch_loop h transactions o [] e with
    | (e', Ok more) => (e', Ok (results ++ more))
    | (e', Throw x) => (e', Throw x)
    end.
Proof.
  revert results e. induction transactions as [| [tx clk] rest IH];
    intros results e.
  - cbn. rewrite app_nil_r. reflexivity.
  - cbn [Batch.predictBatch_loop]. unfold and_then.
    destruct (predict h tx o clk e) as [e1 [r | x]]; [| reflexivity].
    rewrite (IH (results ++ [r])), (IH ([] ++ [r])).
    destruct (Batch.predictBatch_loop h rest o [] e1) as [e2 [more | x]];
      [| reflexivity].
    rewrite <- app_assoc. reflexivity.
Qed.

Lemma predictBatch_cons (h : Host.env) (tx : gmap string JS.value) (clk : Clock)
    (rest : list (gmap string JS.value * Clock)) (o : InferenceOptions)
    (e : ONNXInference) :
  Batch.predictBatch h ((tx, clk) :: rest) o e
  = match predict h tx o clk e with
    | (e1, Ok r) =>
        match Batch.predictBatch h rest o e1 with
        | (e2, Ok more) => (e2, Ok (r :: more))
        | (e2, Throw x) => (e2, Throw x)
        end
    | (e1, Throw x) => (e1, Throw x)
    end.
Proof.
  unfold Batch.predictBatch. cbn [Batch.predictBatch_loop]. unfold and_then.
  destruct (predict h tx o clk e) as [e1 [r | x]]; [| reflexivity].
  rewrite predictBatch_loop_acc. reflexivity.
Qed.

(** X23.  [predictBatch] behaves as its [predict] calls made one after
    the other on the same engine.  When it returns, it holds one result
    per transaction, in order, each the result [predict] gave at that
    point.  When it throws, it throws what the first failing [predict]
    threw; the transactions after that one are not looked at, while the
    effects of the calls before it (counters, cache) stay on the engine
    and their results are lost. *)
Theorem predictBatch_is_sequential (h : Host.env)
    (transactions : list (gmap string JS.value * Clock)) (o : InferenceOptions)
    (e e' : ONNXInference) (out : outcome (list InferenceResult)) :
  Batch.predictBatch h transactions o e = (e', out) ->
  match out with
  | Ok results =>
      e' = History.run h (Batch.calls_of transactions o) e
      /\ length results = length transactions
      /\ (forall i tx clk,
            transactions !! i = Some (tx, clk) ->
            exists r,
              results !! i = Some r
              /\ snd (predict h tx o clk
                        (History.run h
                           (Batch.calls_of (take i transactions) o) e))
                 = Ok r)
  | Throw x =>
      exists i tx clk,
        transactions !! i = Some (tx, clk)
        /\ snd (predict h tx o clk
                  (History.run h (Batch.calls_of (take i transactions) o) e))
           = Throw x
        /\ e' = History.run h (Batch.calls_of (take (S i) transactions) o) e
        /\ (forall j tx' clk',
              (j < i)%nat -> transactions !! j = Some (tx', clk') ->
              exists r,
                snd (predict h tx' o clk'
                       (History.run h
                          (Batch.calls_of (take j transactions) o) e))
                = Ok r)
  end.
Proof.
  revert e e' out. induction transactions as [| [tx clk] rest IH];
    intros e e' out.
  - cbn. intros H. injection H as <- <-.
    split; [reflexivity |]. split; [reflexivity |].
    intros i tx clk Hi. destruct i; discriminate.
  - rewrite predictBatch_cons.
    destruct (predict h tx o clk e) as [e1 [r | x]] eqn:Hp.
    + destruct (Batch.predictBatch h rest o e1) as [e2 [more | x]] eqn:Hrest.
      * intros H. injection H as <- <-.
        destruct (IH e1 e2 (Ok more) Hrest) as (Hrun & Hlen & Hall).
        assert (Hstep : History.step h e (History.Predict tx o clk) = e1).
        { cbn [History.step]. rewrite Hp. reflexivity. }
        split; [| split].
        -- cbn [Batch.calls_of map History.run fold_left fst snd].
           rewrite Hstep. exact Hrun.
        -- cbn [length]. rewrite Hlen. reflexivity.
        -- intros [| i] tx0 clk0 Hi.
           ++ cbn in Hi. injection Hi as <- <-.
              exists r. split; [reflexivity |]. cbn [take Batch.calls_of map History.run fold_left History.step fst snd]. rewrite Hp. reflexivity.
           ++ cbn in Hi. destruct (Hall i tx0 clk0 Hi) as (r0 & Hr0 & Hp0).
              exists r0. split; [exact Hr0 |].
              cbn [take Batch.calls_of map History.run fold_left fst snd].
              rewrite Hstep. exact Hp0.
      * intros H. injection H as <- <-.
        destruct (IH e1 e2 (Throw x) Hrest) as (i & tx0 & clk0 & Hi & Hx & Hrun & Hbefore).
        assert (Hstep : History.step h e (History.Predict tx o clk) = e1).
        { cbn [History.step]. rewrite Hp. reflexivity. }
        exists (S i), tx0, clk0. split; [exact Hi |]. split; [| split].
        -- cbn [take Batch.calls_of map History.run fold_left fst snd].
           rewrite Hstep. exact Hx.
        -- cbn [take Batch.calls_of map History.run fold_left fst snd].
           rewrite Hstep. exact Hrun.
        -- intros [| j] tx' clk' Hj Hlookup.
           ++ cbn in Hlookup. injection Hlookup as <- <-.
              exists r. cbn [take Batch.calls_of map History.run fold_left History.step fst snd]. rewrite Hp. reflexivity.
           ++ cbn in Hlookup.
              destruct (Hbefore j tx' clk' ltac:(lia) Hlookup) as (r0 & Hr0).
              exists r0.
              cbn [take Batch.calls_of map History.run fold_left fst snd].
              rewrite Hstep. exact Hr0.
    + intros H. injection H as <- <-.
      exists 0%nat, tx, clk. split; [reflexivity |]. split; [| split].
      * cbn [take Batch.calls_of map History.run fold_left History.step fst snd]. rewrite Hp. reflexivity.
      * cbn [take Batch.calls_of map History.run fold_left History.step fst snd]. rewrite Hp. reflexivity.
      * intros j tx' clk' Hj. lia.
Qed.


Lemma predictBatch_is_sequential_witness :
  let transactions :=
    [(SampleData.SAMPLE_NORMAL, Scenario.clock_at 1000);
     (Scenario.two_slots_missing, Scenario.clock_at 2000);
     (SampleData.SAMPLE_NORMAL, Scenario.clock_at 3000)] in
  let o := Scenario.no_cache in
  let e := Scenario.loaded in
  let e' := fst (Batch.predictBatch Scenario.host transactions o e) in
  exists i tx clk,
    transactions !! i = Some (tx, clk)
    /\ snd (predict Scenario.host tx o clk
              (History.run Scenario.host
                 (Batch.calls_of (take i transactions) o) e))
       = Throw (MissingOrInvalidFeature "V3")
    /\ e' = History.run Scenario.host
              (Batch.calls_of (take (S i) transactions) o) e
    /\ (forall j tx' clk',
          (j < i)%nat -> transactions !! j = Some (tx', clk') ->
          exists r,
            snd (predict Scenario.host tx' o clk'
                   (History.run Scenario.host
                      (Batch.calls_of (take j transactions) o) e))
            = Ok r).
Proof.
  cbv zeta.
  apply (predictBatch_is_sequential Scenario.host
           [(SampleData.SAMPLE_NORMAL, Scenario.clock_at 1000);
            (Scenario.two_slots_missing, Scenario.clock_at 2000);
            (SampleData.SAMPLE_NORMAL, Scenario.clock_at 3000)]
           Scenario.no_cache Scenario.loaded _
           (Throw (MissingOrInvalidFeature "V3"))).
  vm_compute. reflexivity.
Defined.

(** ** The engine over any history of calls *)









(** ** modelConfig.ts: the accepted vectors, names and indices *)

Lemma FEATURE_VALIDATION_finite :
  Forall (fun name => exists lo hi : Q,
            ModelConfig.FEATURE_VALIDATION !! name = Some (JS.Fin lo, JS.Fin hi))
         ModelConfig.FEATURE_NAMES.
Proof.
  unfold ModelConfig.FEATURE_NAMES.
  repeat (constructor; [eexists; eexists; vm_compute; reflexivity |]).
  constructor.
Qed.

Lemma check_feature_nil (v : JS.number) (i : nat) (name : string) (lo hi : Q) :
  ModelConfig.FEATURE_NAMES !! i = Some name ->
  ModelConfig.FEATURE_VALIDATION !! name = Some (JS.Fin lo, JS.Fin hi) ->
  ModelConfig.check_feature v i = []
  <-> exists q : Q, v = JS.Fin q /\ (lo <= q <= hi)%Q.
Proof.
  intros Hname Hrange. unfold ModelConfig.check_feature.
  rewrite Hname, Hrange. destruct v as [q | | |]; cbn.
  - destruct (JS.Qlt_bool q lo) eqn:E1; cbn.
    + apply Qlt_bool_iff in E1. split; [discriminate |].
      intros (q' & Hq & Hlo & _). injection Hq as <-. lra.
    + apply Qlt_bool_false_iff in E1.
      destruct (JS.Qlt_bool hi q) eqn:E2; cbn.
      * apply Qlt_bool_iff in E2. split; [discriminate |].
        intros (q' & Hq & _ & Hhi). injection Hq as <-. lra.
      * apply Qlt_bool_false_iff in E2. split; [| reflexivity].
        intros _. exists q. auto.
  - split; [discriminate | intros (q & Hq & _); discriminate].
  - split; [discriminate | intros (q & Hq & _); discriminate].
  - split; [discriminate | intros (q & Hq & _); discriminate].
Qed.

Lemma check_from_nil (k : nat) (features : list JS.number) :
  ModelConfig.check_from k features = []
  <-> forall i v, features !! i = Some v ->
                  ModelConfig.check_feature v (k + i) = [].
Proof.
  revert k. induction features as [| w features IH]; intros k; cbn.
  - split; [intros _ i v Hi; destruct i; discriminate | reflexivity].
  - split.
    + intros H. apply app_eq_nil in H. destruct H as [Hw Hrest].
      intros [| i] v Hi; cbn in Hi.
      * injection Hi as <-. rewrite Nat.add_0_r. exact Hw.
      * replace (k + S i)%nat with (S k + i)%nat by lia.
        exact (proj1 (IH (S k)) Hrest i v Hi).
    + intros H. rewrite (proj2 (IH (S k))).
      * pose proof (H 0%nat w eq_refl) as Hw. rewrite Nat.add_0_r in Hw.
        rewrite Hw. reflexivity.
      * intros i v Hi. replace (S k + i)%nat with (k + S i)%nat by lia.
        exact (H (S i) v Hi).
Qed.

(** X25.  [validateFeatureValues] accepts a vector exactly when it has 30
    values and each of them is a finite number within the range of the
    feature at its position; an accepted vector has no error message. *)
Theorem validateFeatureValues_valid_iff (features : list JS.number) :
  (ModelConfig.valid (ModelConfig.validateFeatureValues features) = true
   <-> length features = 30%nat
       /\ forall i name v,
            ModelConfig.FEATURE_NAMES !! i = Some name ->
            features !! i = Some v ->
            exists lo hi q : Q,
              ModelConfig.FEATURE_VALIDATION !! name
              = Some (JS.Fin lo, JS.Fin hi)
              /\ v = JS.Fin q /\ (lo <= q <= hi)%Q)
  /\ (ModelConfig.valid (ModelConfig.validateFeatureValues features) = true
      <-> ModelConfig.errors (ModelConfig.validateFeatureValues features) = []).
Proof.
  unfold ModelConfig.validateFeatureValues.
  destruct (Nat.eqb (length features) 30) eqn:Hlen; cbn [negb].
  - apply Nat.eqb_eq in Hlen. cbn [ModelConfig.valid ModelConfig.errors].
    assert (Hnil : Nat.eqb (length (ModelConfig.check_from 0 features)) 0 = true
                   <-> ModelConfig.check_from 0 features = []).
    { rewrite Nat.eqb_eq. split; [apply nil_length_inv | intros ->; reflexivity]. }
    split; [| exact Hnil].
    rewrite Hnil, check_from_nil. split.
    + intros H. split; [exact Hlen |]. intros i name v Hname Hv.
      pose proof FEATURE_VALIDATION_finite as Hall.
      rewrite Forall_forall in Hall.
      destruct (Hall name) as (lo & hi & Hrange).
      { apply list_elem_of_lookup. exists i. exact Hname. }
      exists lo, hi.
      destruct (proj1 (check_feature_nil v i name lo hi Hname Hrange)
                  (H i v Hv)) as (q & Hq & Hin).
      exists q. auto.
    + intros [_ H] i v Hv. cbn [Nat.add].
      assert (Hi : (i < length ModelConfig.FEATURE_NAMES)%nat).
      { apply lookup_lt_Some in Hv. cbn. lia. }
      apply lookup_lt_is_Some in Hi. destruct Hi as [name Hname].
      destruct (H i name v Hname Hv) as (lo & hi & q & Hrange & Hq & Hin).
      apply (check_feature_nil v i name lo hi Hname Hrange).
      exists q. auto.
  - apply Nat.eqb_neq in Hlen. cbn [ModelConfig.valid ModelConfig.errors].
    split; split; try discriminate. intros [H _]. contradiction.
Qed.

Lemma indexOf_from_absent (array : list string) (x : string) (i : Z) :
  x ∉ array -> FeatureIndex.indexOf_from array x i = -1.
Proof.
  revert i. induction array as [| y rest IH]; intros i Hnot; cbn; [reflexivity |].
  destruct (String.eqb y x) eqn:E.
  - apply String.eqb_eq in E. subst y. exfalso. apply Hnot. left.
  - apply IH. intros Hin. apply Hnot. right. exact Hin.
Qed.

(** X26.  [getFeatureName] and [getFeatureIndex] invert each other on
    the 30 features.  A name that is not a feature has index -1, and an
    index outside 0..29 has the name ['Unknown'], which is not a feature:
    going there and back gives ['Unknown'] and -1. *)
Theorem feature_name_index_round_trip :
  (forall i : Z, 0 <= i < 30 ->
     FeatureIndex.getFeatureIndex (FeatureIndex.getFeatureName i) = i)
  /\ (forall name : string, name ∈ ModelConfig.FEATURE_NAMES ->
        FeatureIndex.getFeatureName (FeatureIndex.getFeatureIndex name) = name)
  /\ (forall name : string, name ∉ ModelConfig.FEATURE_NAMES ->
        FeatureIndex.getFeatureIndex name = -1
        /\ FeatureIndex.getFeatureName (FeatureIndex.getFeatureIndex name)
           = "Unknown"%string)
  /\ (forall i : Z, i < 0 \/ 30 <= i ->
        FeatureIndex.getFeatureName i = "Unknown"%string
        /\ FeatureIndex.getFeatureIndex (FeatureIndex.getFeatureName i) = -1).
Proof.
  split; [| split; [| split]].
  - intros i Hi.
    assert (Hnat : exists n, (n < 30)%nat /\ i = Z.of_nat n)
      by (exists (Z.to_nat i); lia).
    destruct Hnat as (n & Hn & ->). clear Hi.
    do 30 (destruct n as [| n]; [vm_compute; reflexivity |]). lia.
  - intros name Hin. unfold ModelConfig.FEATURE_NAMES in Hin.
    repeat (apply elem_of_cons in Hin; destruct Hin as [-> | Hin];
            [vm_compute; reflexivity |]).
    apply elem_of_nil in Hin. destruct Hin.
  - intros name Hnot.
    assert (H : FeatureIndex.getFeatureIndex name = -1)
      by (apply indexOf_from_absent; exact Hnot).
    rewrite H. split; reflexivity.
  - intros i Hi.
    assert (H : FeatureIndex.getFeatureName i = "Unknown"%string).
    { unfold FeatureIndex.getFeatureName. destruct (i <? 0) eqn:E; [reflexivity |].
      apply Z.ltb_ge in E.
      rewrite (proj2 (lookup_ge_None ModelConfig.FEATURE_NAMES (Z.to_nat i)));
        [reflexivity |]. cbn. lia. }
    rewrite H. split; [reflexivity | vm_compute; reflexivity].
Qed.

(** ** utils/index.ts: metrics of a confusion matrix *)

(** A guarded ratio [d === 0 ? 0 : n / d] of two counts with [n <= d]. *)
Lemma guarded_ratio (n d : Q) :
  (0 <= n)%Q -> (n <= d)%Q ->
  exists q : Q,
    (if JS.eqb (JS.Fin d) (JS.Fin 0) then JS.Fin 0
     else JS.div (JS.Fin n) (JS.Fin d)) = JS.Fin q
    /\ (0 <= q <= 1)%Q
    /\ (q * d == n)%Q
    /\ ((n == 0)%Q -> (q == 0)%Q).
Proof.
  intros Hn Hnd. cbn [JS.eqb]. destruct (Qeq_bool d 0) eqn:Hz.
  - apply Qeq_bool_iff in Hz. exists 0%Q. split; [reflexivity |].
    split; [split; discriminate |]. split; [lra | reflexivity].
  - assert (Hd : ~ (d == 0)%Q).
    { intros H. apply Qeq_bool_iff in H. congruence. }
    assert (Hpos : (0 < d)%Q) by lra.
    rewrite div_Fin by exact Hz. exists (n / d)%Q. split; [reflexivity |].
    split; [split |]; [| | split].
    + apply Qle_shift_div_l; [exact Hpos | lra].
    + apply Qle_shift_div_r; [exact Hpos | lra].
    + field. exact Hd.
    + intros H0. rewrite H0. field. exact Hd.
Qed.

(** A ratio of a positive count to itself is 1. *)
Lemma ratio_one (q d : Q) : (0 < d)%Q -> (q * d == d)%Q -> (q == 1)%Q.
Proof.
  intros Hd H. assert (H0 : ((q - 1) * d == 0)%Q) by lra.
  apply Qmult_integral in H0. destruct H0 as [H0 | H0]; lra.
Qed.

(** A larger denominator does not give a larger ratio. *)
Lemma ratio_antitone (q q' n d d' : Q) :
  (0 <= q')%Q -> (d <= d')%Q -> (0 < d)%Q ->
  (q * d == n)%Q -> (q' * d' == n)%Q -> (q' <= q)%Q.
Proof.
  intros Hq' Hdd Hd H H'.
  apply (Qmult_le_r _ _ d); [exact Hd |].
  assert (Hle : (q' * d <= q' * d')%Q).
  { rewrite !(Qmult_comm q'). apply Qmult_le_compat_r; assumption. }
  lra.
Qed.

(** The four metrics of a matrix of non-negative finite numbers. *)
Lemma metrics_values (tp tn fp fn : Q) :
  (0 <= tp)%Q -> (0 <= tn)%Q -> (0 <= fp)%Q -> (0 <= fn)%Q ->
  let cm := {| Metrics.tp := JS.Fin tp; Metrics.tn := JS.Fin tn;
               Metrics.fp := JS.Fin fp; Metrics.fn := JS.Fin fn |} in
  exists accuracy precision recall f1 : Q,
    Metrics.calculateAccuracy cm = JS.Fin accuracy
    /\ Metrics.calculatePrecision cm = JS.Fin precision
    /\ Metrics.calculateRecall cm = JS.Fin recall
    /\ Metrics.calculateF1Score cm = JS.Fin f1
    /\ (0 <= accuracy <= 1)%Q /\ (0 <= precision <= 1)%Q
    /\ (0 <= recall <= 1)%Q /\ (0 <= f1 <= 1)%Q
    /\ (accuracy * (tp + tn + fp + fn) == tp + tn)%Q
    /\ (precision * (tp + fp) == tp)%Q
    /\ (recall * (tp + fn) == tp)%Q
    /\ (f1 * (precision + recall) == 2 * precision * recall)%Q
    /\ ((tp + tn == 0)%Q -> (accuracy == 0)%Q)
    /\ ((tp == 0)%Q -> (precision == 0)%Q /\ (recall == 0)%Q /\ (f1 == 0)%Q).
Proof.
  intros Htp Htn Hfp Hfn. cbn zeta.
  destruct (guarded_ratio (tp + tn) (tp + tn + fp + fn) ltac:(lra) ltac:(lra))
    as (accuracy & Hacc & Harange & Haeq & Ha0).
  destruct (guarded_ratio tp (tp + fp) Htp ltac:(lra))
    as (p & Hp & Hprange & Hpeq & Hp0).
  destruct (guarded_ratio tp (tp + fn) Htp ltac:(lra))
    as (r & Hr & Hrrange & Hreq & Hr0).
  assert (Hprecision :
            Metrics.calculatePrecision
              {| Metrics.tp := JS.Fin tp; Metrics.tn := JS.Fin tn;
                 Metrics.fp := JS.Fin fp; Metrics.fn := JS.Fin fn |} = JS.Fin p)
    by exact Hp.
  assert (Hrecall :
            Metrics.calculateRecall
              {| Metrics.tp := JS.Fin tp; Metrics.tn := JS.Fin tn;
                 Metrics.fp := JS.Fin fp; Metrics.fn := JS.Fin fn |} = JS.Fin r)
    by exact Hr.
  assert (Hf1 : exists f1 : Q,
            Metrics.calculateF1Score
              {| Metrics.tp := JS.Fin tp; Metrics.tn := JS.Fin tn;
                 Metrics.fp := JS.Fin fp; Metrics.fn := JS.Fin fn |} = JS.Fin f1
            /\ (0 <= f1 <= 1)%Q
            /\ (f1 * (p + r) == 2 * p * r)%Q
            /\ ((p + r == 0)%Q -> (f1 == 0)%Q)).
  { unfold Metrics.calculateF1Score. rewrite Hprecision, Hrecall.
    cbn [JS.add JS.eqb JS.mul].
    destruct (Qeq_bool (p + r) 0) eqn:Hz.
    - apply Qeq_bool_iff in Hz. exists 0%Q. split; [reflexivity |].
      split; [split; discriminate |].
      assert (Hpz : (p == 0)%Q) by lra.
      split; [rewrite Hpz; ring | reflexivity].
    - assert (Hd : ~ (p + r == 0)%Q).
      { intros H. apply Qeq_bool_iff in H. congruence. }
      assert (Hpos : (0 < p + r)%Q) by lra.
      rewrite div_Fin by exact Hz. exists (2 * p * r / (p + r))%Q.
      split; [reflexivity |].
      assert (Hpr : (0 <= p * r)%Q) by (apply Qmult_le_0_compat; lra).
      assert (Hprp : (p * r <= p)%Q).
      { pose proof (Qmult_le_compat_r r 1 p ltac:(lra) ltac:(lra)). lra. }
      assert (Hprr : (p * r <= r)%Q).
      { pose proof (Qmult_le_compat_r p 1 r ltac:(lra) ltac:(lra)). lra. }
      split; [split |]; [| | split].
      + apply Qle_shift_div_l; [exact Hpos | lra].
      + apply Qle_shift_div_r; [exact Hpos | lra].
      + field. exact Hd.
      + intros H. contradiction. }
  destruct Hf1 as (f1 & Hf1 & Hfrange & Hfeq & Hf0).
  exists accuracy, p, r, f1.
  split; [exact Hacc |]. split; [exact Hp |]. split; [exact Hr |].
  split; [exact Hf1 |].
  split; [exact Harange |]. split; [exact Hprange |]. split; [exact Hrrange |].
  split; [exact Hfrange |]. split; [exact Haeq |]. split; [exact Hpeq |].
  split; [exact Hreq |]. split; [exact Hfeq |]. split; [exact Ha0 |].
  intros H0. pose proof (Hp0 H0). pose proof (Hr0 H0).
  split; [assumption |]. split; [assumption |]. apply Hf0. lra.
Qed.

Lemma count_nonneg (z : Z) : 0 <= z -> (0 <= inject_Z z)%Q.
Proof. intros H. change 0%Q with (inject_Z 0). rewrite <- Zle_Qle. exact H. Qed.

Lemma count_pos (z : Z) : 0 < z -> (0 < inject_Z z)%Q.
Proof. intros H. change 0%Q with (inject_Z 0). rewrite <- Zlt_Qlt. exact H. Qed.

(** X27.  For a confusion matrix of counts (integers from 0 to
    [Number.MAX_SAFE_INTEGER]), accuracy, precision, recall and the F1
    score are numbers between 0 and 1.  Without true positives precision,
    recall and the F1 score are 0, and accuracy is 0 for the empty
    matrix.  With true positives, precision is 1 when there is no false
    positive, recall is 1 when there is no false negative, and the F1
    score is 1 when there is neither; accuracy is 1 for a matrix that is
    not empty and has no false entry.  More false positives never raise
    precision, and more false negatives never raise recall. *)
Theorem confusion_matrix_metrics (tp tn fp fn : Z) :
  0 <= tp <= JS.MAX_SAFE_INTEGER ->
  0 <= tn <= JS.MAX_SAFE_INTEGER ->
  0 <= fp <= JS.MAX_SAFE_INTEGER ->
  0 <= fn <= JS.MAX_SAFE_INTEGER ->
  let cm := {| Metrics.tp := JS.of_Z tp; Metrics.tn := JS.of_Z tn;
               Metrics.fp := JS.of_Z fp; Metrics.fn := JS.of_Z fn |} in
  exists accuracy precision recall f1 : Q,
    Metrics.calculateAccuracy cm = JS.Fin accuracy
    /\ Metrics.calculatePrecision cm = JS.Fin precision
    /\ Metrics.calculateRecall cm = JS.Fin recall
    /\ Metrics.calculateF1Score cm = JS.Fin f1
    /\ (0 <= accuracy <= 1)%Q /\ (0 <= precision <= 1)%Q
    /\ (0 <= recall <= 1)%Q /\ (0 <= f1 <= 1)%Q
    /\ (tp = 0 -> (precision == 0)%Q /\ (recall == 0)%Q /\ (f1 == 0)%Q)
    /\ (tp = 0 -> tn = 0 -> (accuracy == 0)%Q)
    /\ (0 < tp -> fp = 0 -> (precision == 1)%Q)
    /\ (0 < tp -> fn = 0 -> (recall == 1)%Q)
    /\ (0 < tp -> fp = 0 -> fn = 0 -> (f1 == 1)%Q)
    /\ (0 < tp + tn -> fp = 0 -> fn = 0 -> (accuracy == 1)%Q)
    /\ (forall fp' : Z,
          fp <= fp' <= JS.MAX_SAFE_INTEGER ->
          exists precision' : Q,
            Metrics.calculatePrecision
              {| Metrics.tp := JS.of_Z tp; Metrics.tn := JS.of_Z tn;
                 Metrics.fp := JS.of_Z fp'; Metrics.fn := JS.of_Z fn |}
            = JS.Fin precision'
            /\ (precision' <= precision)%Q)
    /\ (forall fn' : Z,
          fn <= fn' <= JS.MAX_SAFE_INTEGER ->
          exists recall' : Q,
            Metrics.calculateRecall
              {| Metrics.tp := JS.of_Z tp; Metrics.tn := JS.of_Z tn;
                 Metrics.fp := JS.of_Z fp; Metrics.fn := JS.of_Z fn' |}
            = JS.Fin recall'
            /\ (recall' <= recall)%Q).
Proof.
  intros [Htp _] [Htn _] [Hfp _] [Hfn _]. cbn zeta. unfold JS.of_Z.
  pose proof (count_nonneg tp Htp) as Qtp. pose proof (count_nonneg tn Htn) as Qtn.
  pose proof (count_nonneg fp Hfp) as Qfp. pose proof (count_nonneg fn Hfn) as Qfn.
  destruct (metrics_values _ _ _ _ Qtp Qtn Qfp Qfn)
    as (a & p & r & f & Ha & Hp & Hr & Hf & Har & Hpr & Hrr & Hfr
        & Haeq & Hpeq & Hreq & Hfeq & Ha0 & Hz).
  cbn zeta in *.
  exists a, p, r, f.
  split; [exact Ha |]. split; [exact Hp |]. split; [exact Hr |].
  split; [exact Hf |].
  split; [exact Har |]. split; [exact Hpr |]. split; [exact Hrr |].
  split; [exact Hfr |].
  assert (Hp1 : 0 < tp -> fp = 0 -> (p == 1)%Q).
  { intros Hpos ->. apply (ratio_one p (inject_Z tp)); [apply count_pos; exact Hpos |].
    rewrite <- Hpeq at 2. change (inject_Z 0) with 0%Q. ring. }
  assert (Hr1 : 0 < tp -> fn = 0 -> (r == 1)%Q).
  { intros Hpos ->. apply (ratio_one r (inject_Z tp)); [apply count_pos; exact Hpos |].
    rewrite <- Hreq at 2. change (inject_Z 0) with 0%Q. ring. }
  split; [intros ->; apply Hz; reflexivity |].
  split; [intros -> ->; apply Ha0; reflexivity |].
  split; [exact Hp1 |]. split; [exact Hr1 |].
  split; [| split; [| split]].
  - intros Hpos Hfp0 Hfn0.
    pose proof (Hp1 Hpos Hfp0) as Ep. pose proof (Hr1 Hpos Hfn0) as Er.
    rewrite Ep, Er in Hfeq.
    apply (ratio_one f (1 + 1)); [reflexivity |]. rewrite Hfeq. ring.
  - intros Hpos -> ->.
    apply (ratio_one a (inject_Z tp + inject_Z tn)).
    + rewrite <- inject_Z_plus. apply count_pos. exact Hpos.
    + rewrite <- Haeq at 2. change (inject_Z 0) with 0%Q. ring.
  - intros fp' [Hle _].
    assert (Qfp' : (0 <= inject_Z fp')%Q) by (apply count_nonneg; lia).
    destruct (metrics_values _ _ _ _ Qtp Qtn Qfp' Qfn)
      as (a' & p' & r' & f' & _ & Hp' & _ & _ & _ & Hpr' & _ & _
          & _ & Hpeq' & _ & _ & _ & Hz').
    cbn zeta in *. exists p'. split; [exact Hp' |].
    assert (Qle' : (inject_Z fp <= inject_Z fp')%Q) by (rewrite <- Zle_Qle; exact Hle).
    destruct (Z.eq_dec tp 0) as [E0 | Hne].
    + assert (Q0 : (inject_Z tp == 0)%Q) by (rewrite E0; reflexivity).
      destruct (Hz' Q0) as [E' _]. destruct (Hz Q0) as [E _]. lra.
    + assert (0 < inject_Z tp)%Q by (apply count_pos; lia).
      apply (ratio_antitone p p' (inject_Z tp) (inject_Z tp + inject_Z fp)
               (inject_Z tp + inject_Z fp')); try assumption; lra.
  - intros fn' [Hle _].
    assert (Qfn' : (0 <= inject_Z fn')%Q) by (apply count_nonneg; lia).
    destruct (metrics_values _ _ _ _ Qtp Qtn Qfp Qfn')
      as (a' & p' & r' & f' & _ & _ & Hr' & _ & _ & _ & Hrr' & _
          & _ & _ & Hreq' & _ & _ & Hz').
    cbn zeta in *. exists r'. split; [exact Hr' |].
    assert (Qle' : (inject_Z fn <= inject_Z fn')%Q) by (rewrite <- Zle_Qle; exact Hle).
    destruct (Z.eq_dec tp 0) as [E0 | Hne].
    + assert (Q0 : (inject_Z tp == 0)%Q) by (rewrite E0; reflexivity).
      destruct (Hz' Q0) as (_ & E' & _). destruct (Hz Q0) as (_ & E & _). lra.
    + assert (0 < inject_Z tp)%Q by (apply count_pos; lia).
      apply (ratio_antitone r r' (inject_Z tp) (inject_Z tp + inject_Z fn)
               (inject_Z tp + inject_Z fn')); try assumption; lra.
Qed.

Lemma confusion_matrix_metrics_witness :
  let cm := {| Metrics.tp := JS.of_Z 8; Metrics.tn := JS.of_Z 85;
               Metrics.fp := JS.of_Z 2; Metrics.fn := JS.of_Z 5 |} in
  exists accuracy precision recall f1 : Q,
    Metrics.calculateAccuracy cm = JS.Fin accuracy
    /\ Metrics.calculatePrecision cm = JS.Fin precision
    /\ Metrics.calculateRecall cm = JS.Fin recall
    /\ Metrics.calculateF1Score cm = JS.Fin f1
    /\ (0 <= accuracy <= 1)%Q /\ (0 <= precision <= 1)%Q
    /\ (0 <= recall <= 1)%Q /\ (0 <= f1 <= 1)%Q
    /\ (8 = 0 -> (precision == 0)%Q /\ (recall == 0)%Q /\ (f1 == 0)%Q)
    /\ (8 = 0 -> 85 = 0 -> (accuracy == 0)%Q)
    /\ (0 < 8 -> 2 = 0 -> (precision == 1)%Q)
    /\ (0 < 8 -> 5 = 0 -> (recall == 1)%Q)
    /\ (0 < 8 -> 2 = 0 -> 5 = 0 -> (f1 == 1)%Q)
    /\ (0 < 8 + 85 -> 2 = 0 -> 5 = 0 -> (accuracy == 1)%Q)
    /\ (forall fp' : Z,
          2 <= fp' <= JS.MAX_SAFE_INTEGER ->
          exists precision' : Q,
            Metrics.calculatePrecision
              {| Metrics.tp := JS.of_Z 8; Metrics.tn := JS.of_Z 85;
                 Metrics.fp := JS.of_Z fp'; Metrics.fn := JS.of_Z 5 |}
            = JS.Fin precision'
            /\ (precision' <= precision)%Q)
    /\ (forall fn' : Z,
          5 <= fn' <= JS.MAX_SAFE_INTEGER ->
          exists recall' : Q,
            Metrics.calculateRecall
              {| Metrics.tp := JS.of_Z 8; Metrics.tn := JS.of_Z 85;
                 Metrics.fp := JS.of_Z 2; Metrics.fn := JS.of_Z fn' |}
            = JS.Fin recall'
            /\ (recall' <= recall)%Q).
Proof.
  apply (confusion_matrix_metrics 8 85 2 5); unfold JS.MAX_SAFE_INTEGER; lia.
Defined.

(** ** utils/index.ts: chunks of an array *)

Lemma slice_chunk {T : Type} (array : list T) (i size : Z) :
  0 <= i -> 1 <= size ->
  Arrays.slice array i (i + size)
  = take (Z.to_nat size) (drop (Z.to_nat i) array).
Proof.
  intros Hi Hsize. unfold Arrays.slice.
  replace (i <? 0) with false by lia.
  replace (i + size <? 0) with false by lia.
  destruct (Z_le_gt_dec (i + size) (Z.of_nat (length array))) as [Hin | Hout].
  - rewrite (Z.min_l i) by lia. rewrite (Z.min_l (i + size)) by lia.
    f_equal. lia.
  - rewrite (Z.min_r (i + size)) by lia.
    destruct (Z_le_gt_dec i (Z.of_nat (length array))) as [Hi' | Hi'].
    + rewrite (Z.min_l i) by lia.
      rewrite !take_ge; [reflexivity | |]; rewrite length_drop; lia.
    + rewrite (Z.min_r i) by lia.
      rewrite !drop_ge by lia. rewrite !take_nil. reflexivity.
Qed.

Lemma chunkArray_loop_spec {T : Type} (array : list T) (size : Z) :
  1 <= size ->
  forall (n : nat) (i : Z),
    0 <= i -> (length array - Z.to_nat i <= n)%nat ->
    exists rest : list (list T),
      concat rest = drop (Z.to_nat i) array
      /\ Forall (fun c => (1 <= length c <= Z.to_nat size)%nat) rest
      /\ forall (fuel : nat) (chunks : list (list T)),
           (n < fuel)%nat ->
           Arrays.chunkArray_loop fuel array size i chunks
           = Some (chunks ++ rest).
Proof.
  intros Hsize.
  assert (Hdone : forall i, 0 <= i -> (Z.of_nat (length array) <= i) ->
            exists rest : list (list T),
              concat rest = drop (Z.to_nat i) array
              /\ Forall (fun c => (1 <= length c <= Z.to_nat size)%nat) rest
              /\ forall (fuel : nat) (chunks : list (list T)),
                   (0 < fuel)%nat ->
                   Arrays.chunkArray_loop fuel array size i chunks
                   = Some (chunks ++ rest)).
  { intros i Hi Hlen. exists []. split; [| split].
    - rewrite drop_ge by lia. reflexivity.
    - constructor.
    - intros [| fuel] chunks Hfuel; [lia |]. cbn [Arrays.chunkArray_loop].
      replace (i <? Z.of_nat (length array)) with false by lia.
      rewrite app_nil_r. reflexivity. }
  induction n as [| n IH]; intros i Hi Hn.
  - destruct (Hdone i Hi ltac:(lia)) as (rest & H1 & H2 & H3).
    exists rest. split; [exact H1 |]. split; [exact H2 |].
    intros fuel chunks Hfuel. apply H3. lia.
  - destruct (Z_lt_ge_dec i (Z.of_nat (length array))) as [Hin | Hout].
    + destruct (IH (i + size) ltac:(lia) ltac:(lia)) as (rest & H1 & H2 & H3).
      exists (Arrays.slice array i (i + size) :: rest). split; [| split].
      * cbn [concat]. rewrite H1, slice_chunk by lia.
        replace (Z.to_nat (i + size)) with (Z.to_nat i + Z.to_nat size)%nat by lia.
        rewrite <- drop_drop. apply take_drop.
      * constructor; [| exact H2].
        rewrite slice_chunk by lia. rewrite length_take, length_drop. lia.
      * intros [| fuel] chunks Hfuel; [lia |]. cbn [Arrays.chunkArray_loop].
        replace (i <? Z.of_nat (length array)) with true by lia.
        rewrite H3 by lia. rewrite <- app_assoc. reflexivity.
    + destruct (Hdone i Hi ltac:(lia)) as (rest & H1 & H2 & H3).
      exists rest. split; [exact H1 |]. split; [exact H2 |].
      intros fuel chunks Hfuel. apply H3. lia.
Qed.

(** X28.  For a size of at least 1, [chunkArray] returns (its loop ends
    within [array.length + 1] tests); the chunks, put back together in
    order, are the array, and every chunk holds at least one and at most
    [size] elements. *)
Theorem chunkArray_round_trip {T : Type} (array : list T) (size : Z) :
  1 <= size ->
  exists chunks : list (list T),
    (forall fuel : nat, (length array < fuel)%nat ->
       Arrays.chunkArray fuel array size = Some chunks)
    /\ concat chunks = array
    /\ Forall (fun c => (1 <= length c <= Z.to_nat size)%nat) chunks.
Proof.
  intros Hsize.
  destruct (chunkArray_loop_spec array size Hsize (length array) 0
              ltac:(lia) ltac:(lia)) as (rest & H1 & H2 & H3).
  exists rest. split; [| split; [exact H1 | exact H2]].
  intros fuel Hfuel. unfold Arrays.chunkArray. exact (H3 fuel [] Hfuel).
Qed.

Lemma chunkArray_round_trip_witness :
  exists chunks : list (list Z),
    (forall fuel : nat, (length [10; 20; 30; 40; 50] < fuel)%nat ->
       Arrays.chunkArray fuel [10; 20; 30; 40; 50] 2 = Some chunks)
    /\ concat chunks = [10; 20; 30; 40; 50]
    /\ Forall (fun c => (1 <= length c <= Z.to_nat 2)%nat) chunks.
Proof. apply (chunkArray_round_trip [10; 20; 30; 40; 50] 2). lia. Defined.

(** X29.  For a size of 0 or less and an array that is not empty, the
    loop of [chunkArray] never ends: whatever the number of tests allowed,
    no result is returned. *)
Theorem chunkArray_never_returns {T : Type} (array : list T) (size : Z) :
  size <= 0 -> array <> [] ->
  forall fuel : nat, Arrays.chunkArray fuel array size = None.
Proof.
  intros Hsize Harray.
  assert (Hlen : (0 < length array)%nat).
  { destruct array; [contradiction | cbn; lia]. }
  assert (Hloop : forall (fuel : nat) (i : Z) (chunks : list (list T)),
            i <= 0 -> Arrays.chunkArray_loop fuel array size i chunks = None).
  { induction fuel as [| fuel IH]; intros i chunks Hi; [reflexivity |].
    cbn [Arrays.chunkArray_loop].
    replace (i <? Z.of_nat (length array)) with true by lia.
    apply IH. lia. }
  intros fuel. apply Hloop. lia.
Qed.

Lemma chunkArray_never_returns_witness :
  Arrays.chunkArray 1000 [10; 20; 30] 0 = None.
Proof.
  apply (chunkArray_never_returns [10; 20; 30] 0); [lia | discriminate].
Defined.
